(** * XAgent / L3AGI integration: the agent-execution pipeline

    A shallow embedding of the Python sources

      - [xagent_integration/xagent_core.py]        (module [xagent_core])
      - [xagent_integration/l3agi_compatibility.py] (module [l3agi_compatibility])
      - [modified_l3agi/dialogue_agent_with_tools.py]
                                                   (module [dialogue_agent_with_tools])

    and the properties of the plan / execute / reflect pipeline that the
    specification states about them.

    Modelling conventions.
      - A Python [str] is a [string]; every character of the model stands for
        one code point below 256, so slicing and [strip] count characters the
        way Python does on such texts.
      - A value of type [Any] that the code reads out of a dict is a [PyVal]
        (None, bool, int or str); a dict with text keys is a [gmap string _].
      - Methods are computations in the monad [Py.M]: they read and update the
        receiving object and either return a value or raise.  As in Python, the
        updates made before an exception is raised stay in place.
      - An exception is known by the name of its class and by its text.  The
        handlers of the sources are all [except Exception]: they let through
        what is no instance of [Exception] ([KeyboardInterrupt], [SystemExit],
        [asyncio.CancelledError], ...).
      - A tool carries the identity of its object: two objects that look
        alike are two tools.
      - [async]/[await] is sequential here: one caller drives one instance.
      - [datetime.now()] is a logical clock: the number of readings so far.
      - The logger is the list of the records emitted so far. *)

From Stdlib Require Import Ascii DecimalString.
From stdpp Require Import gmap strings list.

(** ** Python values, texts and exceptions *)

Module Py.

Inductive PyVal : Type :=
| PyNone
| PyBool (b : bool)
| PyInt (n : Z)
| PyStr (s : string).

#[global] Instance PyVal_eq_dec : EqDecision PyVal.
Proof. solve_decision. Defined.

(** [bool(v)] *)
Definition truthy (v : PyVal) : bool :=
  match v with
  | PyNone => false
  | PyBool b => b
  | PyInt n => negb (n =? 0)%Z
  | PyStr s => negb (bool_decide (s = ""))
  end.

(** [type(v).__name__] *)
Definition type_name (v : PyVal) : string :=
  match v with
  | PyNone => "NoneType"
  | PyBool _ => "bool"
  | PyInt _ => "int"
  | PyStr _ => "str"
  end.

(** [str(i)] for the counter of [enumerate] *)
Definition str_of_nat (i : nat) : string :=
  NilEmpty.string_of_uint (Nat.to_uint i).

(** [str(v)], which is also what an f-string field [{v}] prints *)
Definition str (v : PyVal) : string :=
  match v with
  | PyNone => "None"
  | PyBool true => "True"
  | PyBool false => "False"
  | PyInt n => NilZero.string_of_int (Z.to_int n)
  | PyStr s => s
  end.

(** [d.get(key, default)] on a dict *)
Definition dict_get (d : gmap string PyVal) (key : string) (dflt : PyVal) : PyVal :=
  default dflt (d !! key).

(** The newline character of the string literals. *)
Definition nl : string := String "010"%char "".

(** [s[:n]] *)
Fixpoint take (n : nat) (s : string) : string :=
  match n, s with
  | S n', String c s' => String c (take n' s')
  | _, _ => ""
  end.

(** [s.startswith(p)] *)
Fixpoint startswith (p s : string) : bool :=
  match p, s with
  | "", _ => true
  | String a p', String b s' => bool_decide (a = b) && startswith p' s'
  | String _ _, "" => false
  end.

(** [sub in s] *)
Fixpoint contains (sub s : string) : bool :=
  startswith sub s ||
  match s with
  | "" => false
  | String _ s' => contains sub s'
  end.

(** [s.split(sep)[0]]: the text before the first occurrence of [sep],
    all of [s] when there is none. *)
Fixpoint split_head (sep s : string) : string :=
  if startswith sep s then ""
  else match s with
       | "" => ""
       | String c s' => String c (split_head sep s')
       end.

(** [c.isspace()] for a code point below 256 *)
Definition isspace (c : ascii) : bool :=
  let n := nat_of_ascii c in
  ((9 <=? n) && (n <=? 13)) || ((28 <=? n) && (n <=? 32))
  || (n =? 133) || (n =? 160).

(** [s.lstrip()], [s.rstrip()], [s.strip()] *)
Fixpoint lstrip (s : string) : string :=
  match s with
  | "" => ""
  | String c s' => if isspace c then lstrip s' else s
  end.

Fixpoint rstrip (s : string) : string :=
  match s with
  | "" => ""
  | String c s' =>
      match rstrip s' with
      | "" => if isspace c then "" else String c ""
      | r => String c r
      end
  end.

Definition strip (s : string) : string := rstrip (lstrip s).

(** [s.endswith(suffix)], as a proposition *)
Definition endswith (s suffix : string) : Prop :=
  ∃ front, s = front +:+ suffix.

(** [p] is a proper initial segment of [s] *)
Definition strict_prefix (p s : string) : Prop :=
  ∃ rest, rest ≠ "" ∧ s = p +:+ rest.

(** The characters of a text, each as a text of length one: what a [for]
    loop over a [str] yields. *)
Fixpoint chars (s : string) : list string :=
  match s with
  | "" => []
  | String c s' => String c "" :: chars s'
  end.

(** [enumerate(l, start)] *)
Fixpoint enumerate {A} (start : nat) (l : list A) : list (nat * A) :=
  match l with
  | [] => []
  | x :: l' => (start, x) :: enumerate (S start) l'
  end.

(** An exception object: the name of its class, [type(e).__name__], and
    [str(e)]. *)
Record PyException : Type := Raise { exc_class : string; exc_str : string }.

(** The classes whose instances are no instances of [Exception]:
    [BaseException] itself and the classes that derive from it directly, of
    which [asyncio.CancelledError] is one.  An exception of a class of some
    library that derives from [BaseException] directly goes by the name
    ["BaseException"]. *)
Definition outside_Exception : list string :=
  ["BaseException"; "BaseExceptionGroup"; "GeneratorExit"; "KeyboardInterrupt";
   "SystemExit"; "CancelledError"].

(** [isinstance(e, Exception)] *)
Definition is_Exception (e : PyException) : bool :=
  negb (existsb (String.eqb (exc_class e)) outside_Exception).

(** Reading the attribute [attr] of a scalar that does not have it. *)
Definition AttributeError (v : PyVal) (attr : string) : PyException :=
  Raise "AttributeError"
        ("'" +:+ type_name v +:+ "' object has no attribute '" +:+ attr +:+ "'").

(** Iterating over a value that is not iterable. *)
Definition not_iterable (v : PyVal) : PyException :=
  Raise "TypeError" ("'" +:+ type_name v +:+ "' object is not iterable").

(** [list.remove(x)] when [x] is not in the list. *)
Definition not_in_list : PyException :=
  Raise "ValueError" "list.remove(x): x not in list".

(** *** The monad of methods of an object of type [S] *)

Definition M (S A : Type) : Type := S → (PyException + A) * S.

Definition ret {S A} (a : A) : M S A := λ s, (inr a, s).

Definition bind {S A B} (c : M S A) (k : A → M S B) : M S B :=
  λ s, match c s with
       | (inr a, s') => k a s'
       | (inl e, s') => (inl e, s')
       end.

Definition raise {S A} (e : PyException) : M S A := λ s, (inl e, s).

(** [try: c  except Exception as e: h e].  The handler takes the instances
    of [Exception]; any other exception goes on to the caller. *)
Definition try_except {S A} (c : M S A) (h : PyException → M S A) : M S A :=
  λ s, match c s with
       | (inl e, s') => if is_Exception e then h e s' else (inl e, s')
       | r => r
       end.

Definition get {S} : M S S := λ s, (inr s, s).

Definition modify {S} (f : S → S) : M S unit := λ s, (inr (), f s).

(** A method of a base object run on the object that contains it. *)
Definition lift {S T A} (proj : T → S) (upd : S → T → T) (c : M S A) : M T A :=
  λ t, let '(r, s') := c (proj t) in (r, upd s' t).

(** What the caller sees: the value returned, or the exception. *)
Definition outcome {S A} (r : (PyException + A) * S) : PyException + A := r.1.

Definition state_after {S A} (r : (PyException + A) * S) : S := r.2.

End Py.

Import Py.

Notation "x <- c ;; k" := (bind c (λ x, k))
  (at level 100, c at next level, right associativity, only parsing).
Notation "c ;;; k" := (bind c (λ _, k))
  (at level 100, right associativity, only parsing).

(** ** Logging

    A record of a logger: its level and its message. *)

Inductive LogRecord : Type :=
| INFO (msg : string)
| ERROR (msg : string).

(** ** Tools

    A tool is an arbitrary Python value.  The code only ever asks it for its
    [__name__] attribute (which it may lack), its [description] attribute
    (likewise) and its [str] form, and compares tools with [==].  For a
    function, and for an instance of a class that does not define [__eq__],
    [==] is the identity of the object: [tool_id] is that identity, [id(tool)],
    so that two tools are equal when they are one object, and two objects with
    the same name, description and [str] form are two tools.  (Tools that are
    values compared by content, such as texts, have the same [tool_id] when
    they are the same value.) *)

Record Tool : Type := {
  tool_id : nat;
  tool__name__ : option string;
  tool_description : option string;
  tool_str : string
}.

#[global] Instance Tool_eq_dec : EqDecision Tool.
Proof. solve_decision. Defined.

(** [getattr(tool, '__name__', str(tool))], which is also
    [tool.__name__ if hasattr(tool, '__name__') else str(tool)] *)
Definition derived_name (tool : Tool) : string :=
  default (tool_str tool) (tool__name__ tool).

(** ** xagent_core.py *)

Module xagent_core.

(** [AgentMessage] (a dataclass) *)
Record AgentMessage : Type := {
  role : string;
  content : string;
  timestamp : nat;
  metadata : option (gmap string PyVal)
}.

(** A plan is a dict with the keys ["steps"] and ["tools_needed"]; a step is a
    dict with the keys ["action"] and ["target"].  A backend that is not part
    of this repository may hand back something else where a plan dict, a list
    of steps or a step dict is expected: a scalar stands for that. *)
Inductive StepVal : Type :=
| StepDict (d : gmap string PyVal)
| StepObj (v : PyVal).

Inductive StepsVal : Type :=
| StepsList (l : list StepVal)
| StepsObj (v : PyVal).

Record PlanDict : Type := {
  steps : option StepsVal;
  tools_needed : option (list string)
}.

Inductive PlanVal : Type :=
| Plan (d : PlanDict)
| PlanObj (v : PyVal).

(** [{"action": a, "target": t}] *)
Definition step (a t : string) : StepVal :=
  StepDict (<["action" := PyStr a]> (<["target" := PyStr t]> ∅)).

(** [class MockXAgent] *)
Record MockXAgent : Type := {
  config : gmap string PyVal;
  mock_agent_name : PyVal
}.

Definition MockXAgent__init__ (cfg : gmap string PyVal) : MockXAgent :=
  {| config := cfg;
     mock_agent_name := dict_get cfg "agent_name" (PyStr "MockXAgent") |}.

(** [MockXAgent.create_plan] *)
Definition MockXAgent_create_plan (self : MockXAgent) (input_text : string)
  : PyException + PlanVal :=
  inr (Plan {| steps := Some (StepsList [ step "mock_analyze" input_text;
                                          step "mock_respond" "generated_response" ]);
               tools_needed := Some ["mock_tool"] |}).

(** An agent of the XAgent library, which is not part of this repository.
    All the wrapper uses of it is its [create_plan] method, if it has one;
    the method is taken to answer by the input text alone. *)
Record LibraryAgent : Type := {
  lib_create_plan : option (string → PyException + PlanVal)
}.

(** [self.xagent] *)
Inductive Backend : Type :=
| Mock (m : MockXAgent)
| Library (a : LibraryAgent).

(** [getattr(backend, 'create_plan')], when the attribute exists *)
Definition create_plan_of (b : Backend) : option (string → PyException + PlanVal) :=
  match b with
  | Mock m => Some (MockXAgent_create_plan m)
  | Library a => lib_create_plan a
  end.

(** [hasattr(backend, 'create_plan')] *)
Definition hasattr_create_plan (b : Backend) : bool :=
  bool_decide (is_Some (create_plan_of b)).

(** [class XAgentWrapper].  [self.tool_server] is left out: it is set by
    [__init__] and read by no method. *)
Record XAgentWrapper : Type := {
  agent_name : string;
  tools : list Tool;
  memory_config : gmap string PyVal;
  conversation_history : list AgentMessage;
  xagent : Backend;
  logger : list LogRecord;
  clock : nat
}.

Definition M := Py.M XAgentWrapper.

Definition logger_info (msg : string) : M unit :=
  modify (λ self,
    {| agent_name := agent_name self; tools := tools self;
       memory_config := memory_config self;
       conversation_history := conversation_history self;
       xagent := xagent self;
       logger := logger self ++ [INFO msg];
       clock := clock self |}).

Definition logger_error (msg : string) : M unit :=
  modify (λ self,
    {| agent_name := agent_name self; tools := tools self;
       memory_config := memory_config self;
       conversation_history := conversation_history self;
       xagent := xagent self;
       logger := logger self ++ [ERROR msg];
       clock := clock self |}).

(** [datetime.now()] *)
Definition datetime_now : M nat :=
  λ self,
    (inr (clock self),
     {| agent_name := agent_name self; tools := tools self;
        memory_config := memory_config self;
        conversation_history := conversation_history self;
        xagent := xagent self;
        logger := logger self;
        clock := S (clock self) |}).

Definition set_conversation_history (h : list AgentMessage) (self : XAgentWrapper)
  : XAgentWrapper :=
  {| agent_name := agent_name self; tools := tools self;
     memory_config := memory_config self;
     conversation_history := h;
     xagent := xagent self;
     logger := logger self;
     clock := clock self |}.

(** [self.conversation_history.append(msg)] *)
Definition conversation_history_append (msg : AgentMessage) : M unit :=
  modify (λ self, set_conversation_history (conversation_history self ++ [msg]) self).

(** An instance of [Exception]. *)
Definition ExceptionInstance : Type := { e : PyException | is_Exception e = true }.

(** The XAgent library as the module sees it at import time: absent
    ([None], "simulation mode"), or the constructor [XAgent(config)].  The
    constructor runs while the wrapper is being built, under the
    [except Exception] of [_init_xagent]: it returns an agent or raises an
    instance of [Exception].  (An exception of another kind would end
    [XAgentWrapper(...)] itself and leave no wrapper to speak of.) *)
Definition XAgentLibrary : Type :=
  option (gmap string PyVal → ExceptionInstance + LibraryAgent).

(** [XAgentWrapper._init_xagent]: the backend, and the error logged when the
    library's constructor raised. *)
Definition _init_xagent (lib : XAgentLibrary) (name : string)
    (kwargs : gmap string PyVal) : Backend * list LogRecord :=
  let config : gmap string PyVal :=
    kwargs ∪
    <["agent_name" := PyStr name]>
    (<["max_chain_length" := dict_get kwargs "max_chain_length" (PyInt 10)]>
    (<["enable_reflection" := dict_get kwargs "enable_reflection" (PyBool true)]>
    (<["tool_server_url" :=
         dict_get kwargs "tool_server_url" (PyStr "http://localhost:8080")]> ∅))) in
  match lib with
  | Some XAgent =>
      match XAgent config with
      | inr a => (Library a, [])
      | inl e =>
          (Mock (MockXAgent__init__ (<["agent_name" := PyStr name]> ∅)),
           [ERROR ("Failed to initialize XAgent: " +:+ exc_str (`e))])
      end
  | None => (Mock (MockXAgent__init__ config), [])
  end.

(** [XAgentWrapper.__init__]; an argument left out is [None]. *)
Definition __init__ (lib : XAgentLibrary) (name : option string)
    (tools_arg : option (list Tool))
    (memory_config_arg : option (gmap string PyVal))
    (kwargs : gmap string PyVal) : XAgentWrapper :=
  let name := default "XAgent" name in
  let '(backend, log) := _init_xagent lib name kwargs in
  {| agent_name := name;
     tools := default [] tools_arg;
     memory_config := default ∅ memory_config_arg;
     conversation_history := [];
     xagent := backend;
     logger := log ++ [INFO ("XAgent " +:+ name +:+ " initialized successfully")];
     clock := 0 |}.

(** [XAgentWrapper._create_plan] *)
Definition _create_plan (input_text : string) : M PlanVal :=
  self <- get ;;
  match create_plan_of (xagent self) with
  | Some create_plan =>
      match create_plan input_text with
      | inr plan => ret plan
      | inl e => raise e
      end
  | None =>
      ret (Plan {| steps := Some (StepsList [ step "analyze" input_text;
                                              step "execute" "planned_response";
                                              step "validate" "result" ]);
                   tools_needed := Some (map derived_name (tools self)) |})
  end.

(** [XAgentWrapper._execute_step] *)
Definition _execute_step (stp : StepVal) : M string :=
  match stp with
  | StepObj v => raise (AttributeError v "get")
  | StepDict d =>
      let action := dict_get d "action" (PyStr "unknown") in
      let target := dict_get d "target" (PyStr "") in
      if decide (action = PyStr "analyze") then
        ret ("Analysis of: " +:+ str target)
      else if decide (action = PyStr "execute") then
        ret ("Executed: " +:+ str target)
      else if decide (action = PyStr "validate") then
        ret ("Validated: " +:+ str target)
      else
        ret ("Completed " +:+ str action +:+ " on " +:+ str target)
  end.

(** [XAgentWrapper._synthesize_results] *)
Definition _synthesize_results (results : list string) : string :=
  match results with
  | [] => "No results to synthesize"
  | _ =>
      let synthesized := "XAgent completed the following steps:" +:+ nl in
      let synthesized :=
        fold_left (λ synthesized '(i, result),
                     synthesized +:+ (str_of_nat i +:+ ". " +:+ result +:+ nl))
                  (enumerate 1 results) synthesized in
      synthesized +:+ (nl +:+ "Task completed successfully.")
  end.

(** [plan.get("steps", [])] *)
Definition plan_get_steps (plan : PlanVal) : M StepsVal :=
  match plan with
  | Plan d => ret (default (StepsList []) (steps d))
  | PlanObj v => raise (AttributeError v "get")
  end.

(** The items a [for] loop draws from the value found under ["steps"]. *)
Definition iterate (v : StepsVal) : M (list StepVal) :=
  match v with
  | StepsList l => ret l
  | StepsObj (PyStr s) => ret (map (λ c, StepObj (PyStr c)) (chars s))
  | StepsObj v => raise (not_iterable v)
  end.

(** The loop of [_execute_plan]: [results] grows by one line per step. *)
Fixpoint execute_steps (items : list StepVal) (results : list string)
  : M (list string) :=
  match items with
  | [] => ret results
  | stp :: items' =>
      step_result <- _execute_step stp ;;
      execute_steps items' (results ++ [step_result])
  end.

(** [XAgentWrapper._execute_plan] *)
Definition _execute_plan (plan : PlanVal) : M string :=
  v <- plan_get_steps plan ;;
  items <- iterate v ;;
  results <- execute_steps items [] ;;
  ret (_synthesize_results results).

(** [XAgentWrapper._reflect_on_result] *)
Definition _reflect_on_result (result original_input : string) : M string :=
  let reflection :=
    nl +:+ "[Reflection] Evaluated result for input: '"
       +:+ take 50 original_input +:+ "...'" in
  ret (result +:+ reflection).

(** [self.memory_config.get("enable_reflection", True)], as a condition *)
Definition reflection_enabled (self : XAgentWrapper) : bool :=
  truthy (dict_get (memory_config self) "enable_reflection" (PyBool true)).

(** The reflection phase of [_execute_xagent_workflow]: the [if] on
    [enable_reflection] and the call of [_reflect_on_result] under it. *)
Definition reflection_phase (result input_text : string) : M string :=
  self <- get ;;
  if reflection_enabled self
  then _reflect_on_result result input_text
  else ret result.

(** [XAgentWrapper._execute_xagent_workflow] *)
Definition _execute_xagent_workflow (input_text : string) : M string :=
  try_except
    (plan <- _create_plan input_text ;;
     result <- _execute_plan plan ;;
     result <- reflection_phase result input_text ;;
     ret result)
    (λ e, ret ("Workflow execution error: " +:+ exc_str e)).

(** [XAgentWrapper.run]; the keywords [**kwargs] are handed on to
    [_execute_xagent_workflow], which does not look at them. *)
Definition run (input_text : string) : M string :=
  try_except
    (logger_info ("Processing input: " +:+ take 100 input_text +:+ "...") ;;;
     now <- datetime_now ;;
     conversation_history_append
       {| role := "user"; content := input_text;
          timestamp := now; metadata := None |} ;;;
     response <- _execute_xagent_workflow input_text ;;
     now <- datetime_now ;;
     conversation_history_append
       {| role := "assistant"; content := response;
          timestamp := now; metadata := None |} ;;;
     ret response)
    (λ e,
       let error_msg := "XAgent execution failed: " +:+ exc_str e in
       logger_error error_msg ;;;
       ret error_msg).

(** [XAgentWrapper.get_memory] *)
Definition get_memory : M (list AgentMessage) :=
  self <- get ;; ret (conversation_history self).

(** [XAgentWrapper.clear_memory] *)
Definition clear_memory : M unit :=
  modify (set_conversation_history []) ;;;
  logger_info "Memory cleared".

End xagent_core.

(** ** l3agi_compatibility.py *)

Module l3agi_compatibility.

Import xagent_core.

(** [class ConversationalXAgent(XAgentWrapper)]: the fields of the base class
    and the two fields the subclass adds. *)
Record ConversationalXAgent : Type := {
  base : XAgentWrapper;
  conversation_context : list (gmap string PyVal);
  system_prompt : PyVal
}.

Definition MC := Py.M ConversationalXAgent.

Definition set_base (w : XAgentWrapper) (self : ConversationalXAgent)
  : ConversationalXAgent :=
  {| base := w;
     conversation_context := conversation_context self;
     system_prompt := system_prompt self |}.

(** A method inherited from [XAgentWrapper], called on [self]. *)
Definition inherited {A} (c : xagent_core.M A) : MC A := lift base set_base c.

(** [ConversationalXAgent.__init__]; [kwargs] holds the keywords other than
    [agent_name], [tools] and [memory_config]. *)
Definition ConversationalXAgent__init__ (lib : XAgentLibrary) (name : option string)
    (tools_arg : option (list Tool))
    (memory_config_arg : option (gmap string PyVal))
    (kwargs : gmap string PyVal) : ConversationalXAgent :=
  {| base := __init__ lib name tools_arg memory_config_arg kwargs;
     conversation_context := [];
     system_prompt :=
       dict_get kwargs "system_prompt" (PyStr "You are a helpful AI assistant.") |}.

(** [l[-n:]] for [n > 0] *)
Definition last_n {A} (n : nat) (l : list A) : list A := drop (length l - n) l.

(** [ConversationalXAgent._format_conversation_input] *)
Definition _format_conversation_input (self : ConversationalXAgent)
    (message : string) : string :=
  let context_str :=
    match conversation_context self with
    | [] => ""
    | _ =>
        fold_left (λ context_str msg,
                     context_str +:+ ("- " +:+ str (dict_get msg "role" (PyStr "user"))
                       +:+ ": " +:+ str (dict_get msg "content" (PyStr "")) +:+ nl))
                  (last_n 5 (conversation_context self))
                  ("Previous conversation:" +:+ nl)
    end in
  str (system_prompt self) +:+ nl +:+ nl +:+ context_str +:+ nl
    +:+ "Current message: " +:+ message.

(** [ConversationalXAgent._format_conversation_output] *)
Definition _format_conversation_output (response : string) : string :=
  if contains "[Reflection]" response
  then strip (split_head "[Reflection]" response)
  else response.

(** [ConversationalXAgent.chat]; [context] left out is [None]. *)
Definition chat (message : string) (context : option (list (gmap string PyVal)))
  : MC string :=
  (match context with
   | Some (msg :: context') =>
       modify (λ self,
         {| base := base self;
            conversation_context := conversation_context self ++ msg :: context';
            system_prompt := system_prompt self |})
   | _ => ret ()
   end) ;;;
  self <- get ;;
  let formatted_input := _format_conversation_input self message in
  response <- inherited (run formatted_input) ;;
  ret (_format_conversation_output response).

End l3agi_compatibility.

(** ** dialogue_agent_with_tools.py *)

Module dialogue_agent_with_tools.

(** [class DialogueAgentWithTools].  [self.tools] and [self.xagent.tools] are
    references to Python lists, which [__init__] may make one and the same
    list; [lists] is the store of these list objects.  Of [self.xagent] only
    its [tools] take part in the methods below. *)
Record DialogueAgentWithTools : Type := {
  name : string;
  system_message : string;
  lists : gmap nat (list Tool);
  tools : nat;
  xagent_tools : nat;
  logger : list LogRecord
}.

Definition M := Py.M DialogueAgentWithTools.

(** The list a reference points to. *)
Definition deref (self : DialogueAgentWithTools) (ref : nat) : list Tool :=
  default [] (lists self !! ref).

Definition assign (ref : nat) (l : list Tool) : M unit :=
  modify (λ self,
    {| name := name self; system_message := system_message self;
       lists := <[ref := l]> (lists self);
       tools := tools self; xagent_tools := xagent_tools self;
       logger := logger self |}).

Definition logger_info (msg : string) : M unit :=
  modify (λ self,
    {| name := name self; system_message := system_message self;
       lists := lists self;
       tools := tools self; xagent_tools := xagent_tools self;
       logger := logger self ++ [INFO msg] |}).

(** [DialogueAgentWithTools.__init__].  [tools or []] is the caller's list
    when that is not empty, and a new empty list otherwise; the same happens
    once more in [XAgentWrapper.__init__], which receives [self.tools]. *)
Definition __init__ (nm sysmsg : string) (tools_arg : option (list Tool))
  : DialogueAgentWithTools :=
  let l := default [] tools_arg in
  {| name := nm; system_message := sysmsg;
     lists := <[0 := l]> (<[1 := []]> ∅);
     tools := 0;
     xagent_tools := match l with [] => 1 | _ => 0 end;
     logger := [INFO ("Dialogue agent " +:+ nm +:+ " initialized with "
                        +:+ str_of_nat (length l) +:+ " tools")] |}.

(** [self.tools.pop(i)] *)
Definition tools_pop (i : nat) : M Tool :=
  self <- get ;;
  let l := deref self (tools self) in
  match l !! i with
  | Some x => assign (tools self) (delete i l) ;;; ret x
  | None => raise (Raise "IndexError" "pop index out of range")
  end.

(** [l.remove(x)]: without the first element equal to [x], that is the first
    one that is the object [x] *)
Fixpoint remove_first (x : Tool) (l : list Tool) : option (list Tool) :=
  match l with
  | [] => None
  | y :: l' => if decide (y = x) then Some l'
               else cons y <$> remove_first x l'
  end.

(** [self.xagent.tools.remove(x)] *)
Definition xagent_tools_remove (x : Tool) : M unit :=
  self <- get ;;
  match remove_first x (deref self (xagent_tools self)) with
  | Some l => assign (xagent_tools self) l
  | None => raise not_in_list
  end.

(** The loop of [remove_tool] over [enumerate(self.tools)]. *)
Fixpoint remove_tool_loop (items : list (nat * Tool)) (tool_name : string) : M bool :=
  match items with
  | [] => ret false
  | (i, tool) :: items' =>
      if decide (derived_name tool = tool_name) then
        removed_tool <- tools_pop i ;;
        xagent_tools_remove removed_tool ;;;
        logger_info ("Tool removed: " +:+ tool_name) ;;;
        ret true
      else remove_tool_loop items' tool_name
  end.

(** [DialogueAgentWithTools.remove_tool] *)
Definition remove_tool (tool_name : string) : M bool :=
  self <- get ;;
  remove_tool_loop (enumerate 0 (deref self (tools self))) tool_name.

End dialogue_agent_with_tools.

(** ** Callers

    A caller holds one instance and invokes its public methods one after the
    other; what it does with the values returned is its own affair. *)

Module Client.

Import xagent_core.

Inductive Call : Type :=
| CallRun (input_text : string)
| CallCreatePlan (input_text : string)
| CallGetMemory
| CallClearMemory.

Definition call (c : Call) (self : XAgentWrapper) : XAgentWrapper :=
  match c with
  | CallRun input_text => state_after (run input_text self)
  | CallCreatePlan input_text => state_after (_create_plan input_text self)
  | CallGetMemory => state_after (get_memory self)
  | CallClearMemory => state_after (clear_memory self)
  end.

Definition calls (cs : list Call) (self : XAgentWrapper) : XAgentWrapper :=
  fold_left (λ self c, call c self) cs self.

End Client.

(** ** The vocabulary of the specification *)

Module Spec.

Import xagent_core.

(** The fixed mapping from a step to its line: analyze, execute and validate
    have a line of their own, any other action is reported as completed. *)
Definition step_line (d : gmap string PyVal) : string :=
  let target := str (dict_get d "target" (PyStr "")) in
  match dict_get d "action" (PyStr "unknown") with
  | PyStr a =>
      if String.eqb a "analyze" then "Analysis of: " +:+ target
      else if String.eqb a "execute" then "Executed: " +:+ target
      else if String.eqb a "validate" then "Validated: " +:+ target
      else "Completed " +:+ a +:+ " on " +:+ target
  | action => "Completed " +:+ str action +:+ " on " +:+ target
  end.

(** Line number [i] of the synthesis. *)
Definition numbered_line (i : nat) (line : string) : string :=
  str_of_nat i +:+ ". " +:+ line +:+ nl.

(** The lines numbered from 1, in the order given. *)
Definition numbered_lines (lines : list string) : list string :=
  imap (λ i line, numbered_line (S i) line) lines.

Definition join (l : list string) : string := foldr String.append "" l.

Definition completion_sentence : string := "Task completed successfully.".

(** The synthesis of the lines of a plan: a header, the numbered lines, an
    empty line and the completion sentence. *)
Definition synthesis (lines : list string) : string :=
  "XAgent completed the following steps:" +:+ nl
    +:+ join (numbered_lines lines)
    +:+ nl +:+ completion_sentence.

(** The plan dict with the given step dicts under ["steps"]. *)
Definition plan_of (ds : list (gmap string PyVal)) (tn : option (list string))
  : PlanVal :=
  Plan {| steps := Some (StepsList (StepDict <$> ds)); tools_needed := tn |}.

(** The steps picked by the positions [σ], in that order. *)
Definition reorder {A} (σ : list nat) (l : list A) : list A :=
  omap (λ i, l !! i) σ.

(** The suffix the reflection phase appends. *)
Definition reflection_suffix (original_input : string) : string :=
  nl +:+ "[Reflection] Evaluated result for input: '"
     +:+ take 50 original_input +:+ "...'".

(** The marker in front of the text of an exception of the workflow. *)
Definition error_marker : string := "Workflow execution error: ".

(** The response of the workflow, read off the outcomes of its phases, for
    phases that raise nothing outside [Exception]. *)
Definition workflow_response (input_text : string) (self : XAgentWrapper) : string :=
  match outcome (_create_plan input_text self) with
  | inl e => error_marker +:+ exc_str e
  | inr plan =>
      match outcome (_execute_plan plan self) with
      | inl e => error_marker +:+ exc_str e
      | inr result =>
          if reflection_enabled self
          then result +:+ reflection_suffix input_text
          else result
      end
  end.

(** Planning for [input_text] on [self] raises nothing outside [Exception]:
    the backend returns a plan or raises an instance of [Exception], or the
    default policy plans. *)
Definition uninterrupted (input_text : string) (self : XAgentWrapper) : Prop :=
  ∀ e, outcome (_create_plan input_text self) = inl e → is_Exception e = true.

(** A backend whose [create_plan], if it has one, raises instances of
    [Exception] only, whatever the input. *)
Definition raises_only_Exception (b : Backend) : Prop :=
  ∀ create_plan input_text e,
    create_plan_of b = Some create_plan →
    create_plan input_text = inl e → is_Exception e = true.

(** A library all of whose agents are such backends. *)
Definition library_raises_only_Exception (lib : XAgentLibrary) : Prop :=
  ∀ XAgent config a,
    lib = Some XAgent → XAgent config = inr a → raises_only_Exception (Library a).

(** Two instances with the same backend, tools and memory configuration. *)
Definition same_setup (w1 w2 : XAgentWrapper) : Prop :=
  xagent w1 = xagent w2 ∧ tools w1 = tools w2 ∧ memory_config w1 = memory_config w2.

(** The plan of the default policy for an input and a list of tools. *)
Definition default_plan (input_text : string) (ts : list Tool) : PlanVal :=
  Plan {| steps := Some (StepsList [ step "analyze" input_text;
                                     step "execute" "planned_response";
                                     step "validate" "result" ]);
          tools_needed := Some (derived_name <$> ts) |}.

(** What the specification's example says of a response to
    ["Calculate 5 + 3"]. *)
Definition example_response (reflection : bool) (response : string) : Prop :=
  contains "Analysis of: Calculate 5 + 3" response = true ∧
  contains "Executed: planned_response" response = true ∧
  contains "Validated: result" response = true ∧
  ∃ body, endswith body completion_sentence ∧
          response = body +:+ (if reflection
                               then reflection_suffix "Calculate 5 + 3" else "").

End Spec.

(** ** Instances used as examples *)

Module Examples.

Import xagent_core.

(** [XAgentWrapper(tools=[])] where the XAgent library is not installed. *)
Definition simulated : XAgentWrapper := __init__ None None (Some []) None ∅.

Definition calculator : Tool :=
  {| tool_id := 1;
     tool__name__ := Some "calculator"; tool_description := Some "adds numbers";
     tool_str := "<function calculator>" |}.

Definition web_search : Tool :=
  {| tool_id := 2;
     tool__name__ := None; tool_description := None; tool_str := "web_search" |}.

(** A library whose agents have no [create_plan] method, and instances built
    on it: one with two tools, one with none. *)
Definition planless_library : XAgentLibrary :=
  Some (λ _, inr {| lib_create_plan := None |}).

Definition planless : XAgentWrapper :=
  __init__ planless_library (Some "planner") (Some [calculator; web_search]) None ∅.

Definition planless_no_tools : XAgentWrapper :=
  __init__ planless_library None (Some []) None ∅.

(** A library whose agents raise when asked for a plan. *)
Definition failing_library : XAgentLibrary :=
  Some (λ _, inr {| lib_create_plan :=
                      Some (λ _, inl (Raise "RuntimeError" "backend unavailable")) |}).

Definition failing : XAgentWrapper := __init__ failing_library None None None ∅.

(** A library whose agents answer with a list of steps that holds a text
    where a step dict should be. *)
Definition malformed_library : XAgentLibrary :=
  Some (λ _, inr {| lib_create_plan :=
    Some (λ x, inr (Plan {| steps := Some (StepsList [ step "analyze" x;
                                                       StepObj (PyStr "execute") ]);
                            tools_needed := None |})) |}).

Definition malformed : XAgentWrapper := __init__ malformed_library None None None ∅.

(** A library whose agents are cancelled while they plan: the task that
    awaits [create_plan] is cancelled, and [asyncio.CancelledError] is raised
    at the [await]. *)
Definition cancelled_library : XAgentLibrary :=
  Some (λ _, inr {| lib_create_plan :=
                      Some (λ _, inl (Raise "CancelledError" "")) |}).

Definition cancelled : XAgentWrapper := __init__ cancelled_library None None None ∅.

(** A library whose agents are interrupted from the keyboard while they
    plan. *)
Definition interrupted_library : XAgentLibrary :=
  Some (λ _, inr {| lib_create_plan :=
                      Some (λ _, inl (Raise "KeyboardInterrupt" "")) |}).

Definition interrupted : XAgentWrapper :=
  __init__ interrupted_library None None None ∅.

(** [DialogueAgentWithTools("helper", ..., tools=[calculator, web_search])] *)
Definition helper : dialogue_agent_with_tools.DialogueAgentWithTools :=
  dialogue_agent_with_tools.__init__ "helper" "You are a helpful AI assistant."
    (Some [calculator; web_search]).

(** [ConversationalXAgent()] where the XAgent library is not installed. *)
Definition talker : l3agi_compatibility.ConversationalXAgent :=
  l3agi_compatibility.ConversationalXAgent__init__ None None None None ∅.

End Examples.

(** ** Sequences of calls, counted *)

Module ClientExtra.

Import xagent_core Client.

(** The number of [run] calls in [cs] since the last [clear_memory], on top
    of [n] exchanges that were in the history before. *)
Fixpoint pending_runs (cs : list Call) (n : nat) : nat :=
  match cs with
  | [] => n
  | CallRun _ :: cs' => pending_runs cs' (S n)
  | CallClearMemory :: cs' => pending_runs cs' 0
  | _ :: cs' => pending_runs cs' n
  end.

(** The roles of a history of [n] exchanges. *)
Fixpoint turns (n : nat) : list string :=
  match n with
  | 0 => []
  | S n' => turns n' ++ ["user"; "assistant"]
  end.

End ClientExtra.

(** ** More text primitives *)

Module PyExtra.

(** [c.lower()] for a code point below 256: the capital letters are A-Z and
    those of the ranges C0-D6 and D8-DE, each 32 below its small letter. *)
Definition lower_char (c : ascii) : ascii :=
  let n := nat_of_ascii c in
  if ((65 <=? n) && (n <=? 90)) || ((192 <=? n) && (n <=? 214))
     || ((216 <=? n) && (n <=? 222))
  then ascii_of_nat (n + 32)
  else c.

(** [s.lower()] *)
Fixpoint lower (s : string) : string :=
  match s with
  | "" => ""
  | String c s' => String (lower_char c) (lower s')
  end.

(** [sep.join(l)] *)
Fixpoint join_with (sep : string) (l : list string) : string :=
  match l with
  | [] => ""
  | x :: l' =>
      match l' with
      | [] => x
      | _ => x +:+ sep +:+ join_with sep l'
      end
  end.

(** [v[:n]] for a value that need not be a text: a scalar that is no text
    cannot be sliced. *)
Definition not_subscriptable (v : PyVal) : PyException :=
  Raise "TypeError" ("'" +:+ type_name v +:+ "' object is not subscriptable").

End PyExtra.

(** ** l3agi_compatibility.py: [DialogueAgentWithToolsXAgent] *)

Module dialogue_xagent.

Import xagent_core PyExtra.

(** [class DialogueAgentWithToolsXAgent(XAgentWrapper)] *)
Record DialogueAgentWithToolsXAgent : Type := {
  base : XAgentWrapper;
  agent_role : PyVal;
  agent_description : PyVal
}.

Definition MD := Py.M DialogueAgentWithToolsXAgent.

Definition set_base (w : XAgentWrapper) (self : DialogueAgentWithToolsXAgent)
  : DialogueAgentWithToolsXAgent :=
  {| base := w; agent_role := agent_role self;
     agent_description := agent_description self |}.

(** A method inherited from [XAgentWrapper], called on [self]. *)
Definition inherited {A} (c : xagent_core.M A) : MD A := lift base set_base c.

(** [DialogueAgentWithToolsXAgent.__init__]; [kwargs] holds the keywords
    other than [name], [tools] and [memory_config]. *)
Definition __init__ (lib : XAgentLibrary) (name : string)
    (tools_arg : option (list Tool))
    (memory_config_arg : option (gmap string PyVal))
    (kwargs : gmap string PyVal) : DialogueAgentWithToolsXAgent :=
  {| base := xagent_core.__init__ lib (Some name) tools_arg memory_config_arg kwargs;
     agent_role := dict_get kwargs "role" (PyStr "assistant");
     agent_description :=
       dict_get kwargs "description" (PyStr ("AI agent " +:+ name)) |}.

Section ToolClasses.

(** [str(e)] of the [AttributeError] that reading [tool.__name__] raises on a
    tool without that attribute.  The text names the class of the tool, which
    [Tool] does not record. *)
Variable no_name_error : Tool → string.

(** The entry of one tool in the tool context. *)
Definition tool_entry (tool : Tool) : MD string :=
  match tool_description tool with
  | Some description =>
      match tool__name__ tool with
      | Some name => ret ("- " +:+ name +:+ ": " +:+ description)
      | None => raise (Raise "AttributeError" (no_name_error tool))
      end
  | None => ret ("- " +:+ tool_str tool)
  end.

(** The loop of [_prepare_tool_context]. *)
Fixpoint tool_entries (ts : list Tool) (tool_descriptions : list string)
  : MD (list string) :=
  match ts with
  | [] => ret tool_descriptions
  | tool :: ts' =>
      entry <- tool_entry tool ;;
      tool_entries ts' (tool_descriptions ++ [entry])
  end.

(** [DialogueAgentWithToolsXAgent._prepare_tool_context] *)
Definition _prepare_tool_context : MD string :=
  self <- get ;;
  match tools (base self) with
  | [] => ret "No tools available."
  | ts =>
      tool_descriptions <- tool_entries ts [] ;;
      ret ("Available tools:" +:+ nl +:+ join_with nl tool_descriptions)
  end.

(** [DialogueAgentWithToolsXAgent._format_dialogue_response] *)
Definition _format_dialogue_response (response : string) : MD string :=
  self <- get ;;
  ret ("[" +:+ agent_name (base self) +:+ "]: " +:+ response).

(** The message [send] hands to [run]. *)
Definition enhanced_message (self : DialogueAgentWithToolsXAgent) (message : string)
  : string :=
  nl +:+ "Agent Role: " +:+ str (agent_role self) +:+ nl
     +:+ "Description: " +:+ str (agent_description self) +:+ nl
     +:+ "Available Tools: " +:+ join_with ", " (tool_str <$> tools (base self)) +:+ nl
     +:+ nl
     +:+ "User Message: " +:+ message +:+ nl.

(** [DialogueAgentWithToolsXAgent.send] *)
Definition send (message : string) : MD string :=
  tool_context <- _prepare_tool_context ;;
  self <- get ;;
  response <- inherited (run (enhanced_message self message)) ;;
  _format_dialogue_response response.

End ToolClasses.

(** [DialogueAgentWithToolsXAgent.describe] *)
Definition describe (self : DialogueAgentWithToolsXAgent) : string :=
  agent_name (base self) +:+ " (" +:+ str (agent_role self) +:+ "): "
    +:+ str (agent_description self).

End dialogue_xagent.

(** ** dialogue_agent_with_tools.py: the rest of [DialogueAgentWithTools] *)

Module dialogue_agent.

Import PyExtra dialogue_agent_with_tools.

(** [self.tools.append(tool)] and [self.xagent.tools.append(tool)] *)
Definition tools_append (tool : Tool) : M unit :=
  self <- get ;;
  assign (tools self) (deref self (tools self) ++ [tool]).

Definition xagent_tools_append (tool : Tool) : M unit :=
  self <- get ;;
  assign (xagent_tools self) (deref self (xagent_tools self) ++ [tool]).

(** [DialogueAgentWithTools.add_tool(tool)], the description left out: the
    branch that assigns [tool.description] is then not taken. *)
Definition add_tool (tool : Tool) : M unit :=
  tools_append tool ;;;
  xagent_tools_append tool ;;;
  logger_info ("Tool added: " +:+ derived_name tool).

Definition logger_error (msg : string) : M unit :=
  modify (λ self,
    {| name := name self; system_message := system_message self;
       lists := lists self;
       tools := tools self; xagent_tools := xagent_tools self;
       logger := logger self ++ [ERROR msg] |}).

(** An entry of [self.dialogue_history]; its [timestamp] is a reading of the
    logical clock, taken through [self.xagent]. *)
Record DialogueEntry : Type := {
  timestamp : nat;
  message : string;
  response : string;
  tools_available : nat
}.

(** The whole object: the part modelled in [dialogue_agent_with_tools] (name,
    system message, the two tool lists, the logger), the rest of
    [self.xagent], the dialogue history and the usage statistics.  The tools
    of [self.xagent] are the list [xagent_tools] points to. *)
Record DialogueAgent : Type := {
  tool_part : DialogueAgentWithTools;
  xagent : dialogue_xagent.DialogueAgentWithToolsXAgent;
  dialogue_history : list DialogueEntry;
  tool_usage_stats : gmap string nat
}.

Definition MA := Py.M DialogueAgent.

Definition set_tools (ts : list Tool) (w : xagent_core.XAgentWrapper)
  : xagent_core.XAgentWrapper :=
  {| xagent_core.agent_name := xagent_core.agent_name w;
     xagent_core.tools := ts;
     xagent_core.memory_config := xagent_core.memory_config w;
     xagent_core.conversation_history := xagent_core.conversation_history w;
     xagent_core.xagent := xagent_core.xagent w;
     xagent_core.logger := xagent_core.logger w;
     xagent_core.clock := xagent_core.clock w |}.

(** [self.xagent], with its tools read from the store. *)
Definition the_xagent (self : DialogueAgent) : dialogue_xagent.DialogueAgentWithToolsXAgent :=
  dialogue_xagent.set_base
    (set_tools (deref (tool_part self) (xagent_tools (tool_part self)))
               (dialogue_xagent.base (xagent self)))
    (xagent self).

Definition set_xagent (x : dialogue_xagent.DialogueAgentWithToolsXAgent)
    (self : DialogueAgent) : DialogueAgent :=
  {| tool_part := tool_part self; xagent := x;
     dialogue_history := dialogue_history self;
     tool_usage_stats := tool_usage_stats self |}.

Definition set_tool_part (p : DialogueAgentWithTools) (self : DialogueAgent)
  : DialogueAgent :=
  {| tool_part := p; xagent := xagent self;
     dialogue_history := dialogue_history self;
     tool_usage_stats := tool_usage_stats self |}.

(** A method of [self.xagent], and a method of the part modelled before. *)
Definition on_xagent {A} (c : dialogue_xagent.MD A) : MA A :=
  lift the_xagent set_xagent c.

Definition on_tool_part {A} (c : M A) : MA A := lift tool_part set_tool_part c.

(** [self.tools] *)
Definition self_tools (self : DialogueAgent) : list Tool :=
  deref (tool_part self) (tools (tool_part self)).

(** [DialogueAgentWithTools.__init__], called as the factories of the file
    call it: with a name, a system message and tools, and no other keyword. *)
Definition DialogueAgent__init__ (lib : xagent_core.XAgentLibrary)
    (nm sysmsg : string) (tools_arg : option (list Tool)) : DialogueAgent :=
  let part := dialogue_agent_with_tools.__init__ nm sysmsg tools_arg in
  {| tool_part := part;
     xagent :=
       dialogue_xagent.__init__ lib nm (Some (deref part (tools part))) None
         (<["system_prompt" := PyStr sysmsg]>
          (<["role" := PyStr "assistant"]>
          (<["description" := PyStr ("Tool-enabled agent " +:+ nm)]> ∅)));
     dialogue_history := [];
     tool_usage_stats := ∅ |}.

(** One round of the loop of [_update_tool_stats]. *)
Definition count_tool (response : string) (stats : gmap string nat) (tool : Tool)
  : gmap string nat :=
  let tool_name := derived_name tool in
  if contains (lower tool_name) (lower response)
  then <[tool_name := default 0 (stats !! tool_name) + 1]> stats
  else stats.

(** [DialogueAgentWithTools._update_tool_stats] *)
Definition _update_tool_stats (response : string) : MA unit :=
  modify (λ self,
    {| tool_part := tool_part self; xagent := xagent self;
       dialogue_history := dialogue_history self;
       tool_usage_stats :=
         fold_left (count_tool response) (self_tools self) (tool_usage_stats self) |}).

(** [self.dialogue_history.append(entry)] *)
Definition dialogue_history_append (entry : DialogueEntry) : MA unit :=
  modify (λ self,
    {| tool_part := tool_part self; xagent := xagent self;
       dialogue_history := dialogue_history self ++ [entry];
       tool_usage_stats := tool_usage_stats self |}).

Section ToolClasses.

Variable no_name_error : Tool → string.

(** The [except] branch of [send]. *)
Definition send_failed (e : PyException) : MA string :=
  let error_msg := "Dialogue send failed: " +:+ exc_str e in
  on_tool_part (logger_error error_msg) ;;;
  ret ("I encountered an error processing your message: " +:+ exc_str e).

(** [DialogueAgentWithTools.send] *)
Definition send (message : string) : MA string :=
  try_except
    (on_tool_part
       (logger_info ("Processing message: " +:+ take 100 message +:+ "...")) ;;;
     response <- on_xagent (dialogue_xagent.send no_name_error message) ;;
     now <- on_xagent (dialogue_xagent.inherited xagent_core.datetime_now) ;;
     self <- get ;;
     dialogue_history_append
       {| timestamp := now; message := message; response := response;
          tools_available := length (self_tools self) |} ;;;
     _update_tool_stats response ;;;
     ret response)
    send_failed.

(** [send] on a value that need not be a text: the slice [message[:100]] of
    its first statement raises on a scalar that is no text. *)
Definition send_value (v : PyVal) : MA string :=
  match v with
  | PyStr message => send message
  | _ => try_except (raise (not_subscriptable v)) send_failed
  end.

(** [DialogueAgentWithTools.generate_reply] *)
Definition generate_reply (messages : list (gmap string PyVal)) : MA string :=
  match last messages with
  | None => ret "No messages to respond to."
  | Some latest => send_value (dict_get latest "content" (PyStr ""))
  end.

End ToolClasses.

(** An entry of the list [get_available_tools] returns. *)
Record ToolInfo : Type := {
  info_name : string;
  info_description : string;
  usage_count : nat
}.

(** [DialogueAgentWithTools.get_available_tools] *)
Definition get_available_tools (self : DialogueAgent) : list ToolInfo :=
  (λ tool,
     {| info_name := derived_name tool;
        info_description := default "No description available" (tool_description tool);
        usage_count := default 0 (tool_usage_stats self !! derived_name tool) |})
  <$> self_tools self.

(** [DialogueAgentWithTools.clear_history] *)
Definition clear_history : MA unit :=
  modify (λ self,
    {| tool_part := tool_part self; xagent := xagent self;
       dialogue_history := [];
       tool_usage_stats := tool_usage_stats self |}) ;;;
  on_xagent (dialogue_xagent.inherited xagent_core.clear_memory) ;;;
  on_tool_part (logger_info "Dialogue history cleared").

End dialogue_agent.

(** ** Vocabulary and instances for the dialogue agents *)

Module DialogueExamples.

Import xagent_core Examples.

(** A tool that has a [description] and no [__name__]. *)
Definition nameless_described (tool : Tool) : bool :=
  match tool_description tool, tool__name__ tool with
  | Some _, None => true
  | _, _ => false
  end.

(** The number of tools of a list whose derived name is [n]. *)
Definition named (n : string) (ts : list Tool) : nat :=
  length (filter (λ tool, derived_name tool = n) ts).

(** The text of the error for an instance of a class called [Tool]. *)
Definition tool_class_error : Tool → string :=
  λ _, "'Tool' object has no attribute '__name__'".

(** A tool object with a name and a description of its own under other
    attributes than [__name__]. *)
Definition described_search : Tool :=
  {| tool_id := 3;
     tool__name__ := None; tool_description := Some "searches the web";
     tool_str := "name='search' description='searches the web'" |}.

(** Another object that looks like [calculator]: the same name, description
    and [str] form. *)
Definition calculator_twin : Tool :=
  {| tool_id := 5;
     tool__name__ := Some "calculator"; tool_description := Some "adds numbers";
     tool_str := "<function calculator>" |}.

Definition assistant : dialogue_agent.DialogueAgent :=
  dialogue_agent.DialogueAgent__init__ None "helper" "You are a helpful AI assistant."
    (Some [calculator; web_search]).

Definition fragile : dialogue_agent.DialogueAgent :=
  dialogue_agent.DialogueAgent__init__ None "helper" "You are a helpful AI assistant."
    (Some [calculator; described_search]).

(** An agent built without tools that was then given two. *)
Definition grown : dialogue_agent_with_tools.DialogueAgentWithTools :=
  state_after
    ((dialogue_agent.add_tool calculator ;;; dialogue_agent.add_tool web_search)
       (dialogue_agent_with_tools.__init__ "helper" "You are a helpful AI assistant."
          None)).

End DialogueExamples.

(** ** Vocabulary for [DialogueAgentWithTools.send] *)

Module DialogueSpec.

Import dialogue_agent_with_tools dialogue_agent.

(** What [send] returns when nothing fails: the agent's name in brackets and
    the response of the workflow to the enhanced message. *)
Definition reply (self : DialogueAgent) (message : string) : string :=
  "[" +:+ xagent_core.agent_name (dialogue_xagent.base (xagent self)) +:+ "]: "
    +:+ Spec.workflow_response
          (dialogue_xagent.enhanced_message (the_xagent self) message)
          (dialogue_xagent.base (the_xagent self)).

(** [stats.get(n, 0)] *)
Definition usage (stats : gmap string nat) (n : string) : nat :=
  default 0 (stats !! n).

(** [self.xagent.tools] *)
Definition xagent_tools_of (self : DialogueAgent) : list Tool :=
  deref (tool_part self) (xagent_tools (tool_part self)).

End DialogueSpec.

(** ** dialogue_agent_with_tools.py: [ToolManager] *)

Module tool_manager.

(** A value of [self.registered_tools]. *)
Record Registration : Type := {
  reg_tool : Tool;
  reg_category : string;
  reg_description : string;
  registered_at : nat
}.

(** [class ToolManager]; [clock] is the logical [datetime.now()]. *)
Record ToolManager : Type := {
  registered_tools : gmap string Registration;
  tool_categories : gmap string (list string);
  logger : list LogRecord;
  clock : nat
}.

Definition MT := Py.M ToolManager.

(** [ToolManager.__init__] *)
Definition ToolManager__init__ : ToolManager :=
  {| registered_tools := ∅; tool_categories := ∅; logger := []; clock := 0 |}.

(** [description or getattr(tool, 'description', 'No description')] *)
Definition description_of (tool : Tool) (description : option string) : string :=
  match description with
  | Some (String c d) => String c d
  | _ => default "No description" (tool_description tool)
  end.

(** [ToolManager.register_tool]; [category] left out is ["general"],
    [description] left out is [None]. *)
Definition register_tool (tool : Tool) (category : option string)
    (description : option string) : MT unit :=
  let category := default "general" category in
  let tool_name := derived_name tool in
  modify (λ self,
    let registration :=
      {| reg_tool := tool; reg_category := category;
         reg_description := description_of tool description;
         registered_at := clock self |} in
    let categories :=
      match tool_categories self !! category with
      | None => <[category := []]> (tool_categories self)
      | Some _ => tool_categories self
      end in
    {| registered_tools := <[tool_name := registration]> (registered_tools self);
       tool_categories :=
         <[category := default [] (categories !! category) ++ [tool_name]]> categories;
       logger := logger self ++ [INFO ("Tool registered: " +:+ tool_name
                                         +:+ " in category " +:+ category)];
       clock := S (clock self) |}).

(** [ToolManager.get_tools_by_category] *)
Definition get_tools_by_category (category : string) (self : ToolManager)
  : list Tool :=
  match tool_categories self !! category with
  | None => []
  | Some names =>
      omap (λ tool_name, reg_tool <$> registered_tools self !! tool_name) names
  end.

(** [ToolManager.create_agent_with_tools], with the library as the module
    sees it at import time *)
Definition create_agent_with_tools (lib : xagent_core.XAgentLibrary)
    (name system_message : string) (categories : list string) (self : ToolManager)
  : dialogue_agent.DialogueAgent :=
  let tools :=
    fold_left (λ tools category, tools ++ get_tools_by_category category self)
              categories [] in
  dialogue_agent.DialogueAgent__init__ lib name system_message (Some tools).

(** One call of [register_tool]: the tool, the category and the description. *)
Record Register : Type := {
  the_tool : Tool;
  the_category : option string;
  the_description : option string
}.

(** The manager after the calls [rs], made in that order on [self]. *)
Definition registered (rs : list Register) (self : ToolManager) : ToolManager :=
  fold_left (λ self r,
               state_after (register_tool (the_tool r) (the_category r)
                                          (the_description r) self))
            rs self.

(** The category a call names. *)
Definition category_of (r : Register) : string := default "general" (the_category r).

(** The tool of the last call in [rs] for the name [n], [d] when there is
    none. *)
Definition latest (rs : list Register) (n : string) (d : Tool) : Tool :=
  fold_left (λ t r, if decide (derived_name (the_tool r) = n) then the_tool r else t)
            rs d.

(** The manager keeps its two dicts in step: a listed name is registered, and
    a tool is registered under its derived name. *)
Definition in_step (self : ToolManager) : Prop :=
  (∀ c names n, tool_categories self !! c = Some names → n ∈ names →
                is_Some (registered_tools self !! n)) ∧
  (∀ n r, registered_tools self !! n = Some r → derived_name (reg_tool r) = n).

End tool_manager.

(** ** l3agi_compatibility.py: [XAgentTestInterface] *)

Module test_interface.

Import xagent_core.

(** A test case: a dict whose keys ["agent"], ["input"] and ["expected"] are
    each missing or bound to a text. *)
Record TestCase : Type := {
  case_agent : option string;
  case_input : option string;
  case_expected : option string
}.

(** The dict [_run_single_test] returns.  Its ["duration"], a float of seconds
    on the wall clock, is left out, and so are the two readings of the clock
    around the run that it is computed from. *)
Record TestResult : Type := {
  test_id : nat;
  agent : string;
  input : string;
  output : string;
  expected : option string;
  status : string
}.

(** The dict [run_test_suite] returns. *)
Record SuiteResults : Type := {
  total_tests : nat;
  passed : nat;
  failed : nat;
  test_details : list TestResult
}.

(** [class XAgentTestInterface] *)
Record XAgentTestInterface : Type := {
  test_agents : gmap string XAgentWrapper;
  test_results : list SuiteResults
}.

Definition MT := Py.M XAgentTestInterface.

(** [XAgentTestInterface.__init__] *)
Definition XAgentTestInterface__init__ : XAgentTestInterface :=
  {| test_agents := ∅; test_results := [] |}.

(** [self.test_agents[name] = agent], which is also how a change of the
    agent object shows in the dict *)
Definition set_agent (name : string) (agent : XAgentWrapper)
    (self : XAgentTestInterface) : XAgentTestInterface :=
  {| test_agents := <[name := agent]> (test_agents self);
     test_results := test_results self |}.

Section Library.

(** The XAgent library as the module sees it at import time. *)
Variable lib : XAgentLibrary.

(** [XAgentTestInterface.create_test_agent]; [config] holds [tools],
    [memory_config] and the other keywords. *)
Definition create_test_agent (name : string) (tools_arg : option (list Tool))
    (memory_config_arg : option (gmap string PyVal)) (kwargs : gmap string PyVal)
  : MT XAgentWrapper :=
  let agent := __init__ lib (Some name) tools_arg memory_config_arg kwargs in
  modify (set_agent name agent) ;;;
  ret agent.

(** The agent of a test: the one in [self.test_agents], made first when there
    is none of that name. *)
Definition agent_for (agent_name : string) : MT XAgentWrapper :=
  self <- get ;;
  match test_agents self !! agent_name with
  | Some agent => ret agent
  | None =>
      let agent := __init__ lib (Some agent_name) None None ∅ in
      modify (set_agent agent_name agent) ;;;
      ret agent
  end.

(** [expected_output and expected_output not in response] *)
Definition misses (expected_output : option string) (response : string) : bool :=
  match expected_output with
  | Some (String c e) => negb (contains (String c e) response)
  | _ => false
  end.

(** [XAgentTestInterface._run_single_test] *)
Definition _run_single_test (test_case : TestCase) (id : nat) : MT TestResult :=
  try_except
    (let agent_name := default "default_test_agent" (case_agent test_case) in
     let input_text := default "" (case_input test_case) in
     let expected_output := case_expected test_case in
     agent <- agent_for agent_name ;;
     response <- lift (λ _, agent) (set_agent agent_name) (run input_text) ;;
     let status := if misses expected_output response then "failed" else "passed" in
     ret {| test_id := id; agent := agent_name; input := input_text;
            output := response; expected := expected_output; status := status |})
    (λ e,
       ret {| test_id := id;
              agent := default "unknown" (case_agent test_case);
              input := default "" (case_input test_case);
              output := "Error: " +:+ exc_str e;
              expected := case_expected test_case;
              status := "failed" |}).

(** The loop of [run_test_suite]. *)
Fixpoint suite_loop (items : list (nat * TestCase)) (results : SuiteResults)
  : MT SuiteResults :=
  match items with
  | [] => ret results
  | (i, test_case) :: items' =>
      result <- _run_single_test test_case i ;;
      let details := test_details results ++ [result] in
      suite_loop items'
        (if decide (status result = "passed")
         then {| total_tests := total_tests results; passed := passed results + 1;
                 failed := failed results; test_details := details |}
         else {| total_tests := total_tests results; passed := passed results;
                 failed := failed results + 1; test_details := details |})
  end.

(** [XAgentTestInterface.run_test_suite] *)
Definition run_test_suite (test_cases : list TestCase) : MT SuiteResults :=
  results <- suite_loop (enumerate 0 test_cases)
               {| total_tests := length test_cases; passed := 0; failed := 0;
                  test_details := [] |} ;;
  modify (λ self,
    {| test_agents := test_agents self;
       test_results := test_results self ++ [results] |}) ;;;
  ret results.

End Library.

(** The float [passed / total * 100], kept as its two operands. *)
Record SuccessRate : Type := { of_passed : nat; of_total : nat }.

(** The dict [get_test_summary] returns. *)
Inductive Summary : Type :=
| NoTests (message : string)
| SummaryOf (latest_test_run : SuiteResults) (total_test_sessions : nat)
            (overall_success_rate : SuccessRate).

(** [XAgentTestInterface.get_test_summary] *)
Definition get_test_summary : MT Summary :=
  self <- get ;;
  match last (test_results self) with
  | None => ret (NoTests "No tests run yet")
  | Some latest_results =>
      if decide (total_tests latest_results = 0)
      then raise (Raise "ZeroDivisionError" "division by zero")
      else ret (SummaryOf latest_results (length (test_results self))
                          {| of_passed := passed latest_results;
                             of_total := total_tests latest_results |})
  end.

End test_interface.

(** ** Vocabulary for the test interface *)

Module TestSpec.

Import xagent_core test_interface.

(** The name, the input and the agent a test case stands for: the agent of
    that name in [self.test_agents], or a new one. *)
Definition name_of (test_case : TestCase) : string :=
  default "default_test_agent" (case_agent test_case).

Definition input_of (test_case : TestCase) : string :=
  default "" (case_input test_case).

Definition agent_of (lib : XAgentLibrary) (test_case : TestCase)
    (self : XAgentTestInterface) : XAgentWrapper :=
  default (__init__ lib (Some (name_of test_case)) None None ∅)
          (test_agents self !! name_of test_case).

(** Every agent a test may run on has a backend that raises instances of
    [Exception] only: the agents of [self.test_agents], and those the library
    makes. *)
Definition agents_raise_only_Exception (lib : XAgentLibrary)
    (self : XAgentTestInterface) : Prop :=
  Spec.library_raises_only_Exception lib ∧
  ∀ name w, test_agents self !! name = Some w →
            Spec.raises_only_Exception (xagent w).

(** The number of results with the status ["passed"]. *)
Definition count_passed (details : list TestResult) : nat :=
  length (filter (λ result, status result = "passed") details).

End TestSpec.

(** ** conversational.py: [ConversationalAgent] *)

Module conversational.

Module C := xagent_core.
Module L := l3agi_compatibility.

(** The [context] argument of [chat]: a dict of which the code reads the keys
    ["previous_messages"] (a list of message dicts) and ["team_context"] (a
    scalar here), each of which may be missing. *)
Record ChatContext : Type := {
  previous_messages : option (list (gmap string PyVal));
  team_context : option PyVal
}.

(** An entry of [self.conversation_history]; its [timestamp] is a reading of
    the logical clock, taken through [self.xagent]. *)
Record HistoryEntry : Type := {
  timestamp : nat;
  user_message : string;
  agent_response : string;
  context : option ChatContext
}.

(** [self.tools]: the very list that is [self.xagent.tools], or a list of
    its own. *)
Inductive ToolList : Type :=
| SharedWithXAgent
| Own (l : list Tool).

(** [class ConversationalAgent] *)
Record ConversationalAgent : Type := {
  name : string;
  system_prompt : string;
  memory_enabled : bool;
  tools : ToolList;
  xagent : L.ConversationalXAgent;
  conversation_history : list HistoryEntry;
  logger : list LogRecord
}.

Definition MA := Py.M ConversationalAgent.

Definition set_xagent (x : L.ConversationalXAgent) (self : ConversationalAgent)
  : ConversationalAgent :=
  {| name := name self; system_prompt := system_prompt self;
     memory_enabled := memory_enabled self; tools := tools self;
     xagent := x;
     conversation_history := conversation_history self;
     logger := logger self |}.

Definition set_conversation_history (h : list HistoryEntry)
    (self : ConversationalAgent) : ConversationalAgent :=
  {| name := name self; system_prompt := system_prompt self;
     memory_enabled := memory_enabled self; tools := tools self;
     xagent := xagent self;
     conversation_history := h;
     logger := logger self |}.

(** A method of [self.xagent]. *)
Definition on_xagent {A} (c : L.MC A) : MA A := lift xagent set_xagent c.

Definition log (record : LogRecord) : MA unit :=
  modify (λ self,
    {| name := name self; system_prompt := system_prompt self;
       memory_enabled := memory_enabled self; tools := tools self;
       xagent := xagent self;
       conversation_history := conversation_history self;
       logger := logger self ++ [record] |}).

(** [len(self.tools)] and the list itself *)
Definition self_tools (self : ConversationalAgent) : list Tool :=
  match tools self with
  | SharedWithXAgent => C.tools (L.base (xagent self))
  | Own l => l
  end.

(** [ConversationalAgent.__init__], without further keywords.  [tools or []]
    is the caller's list when that is not empty and a new list otherwise, and
    so it is again in [XAgentWrapper.__init__], which receives [self.tools]. *)
Definition ConversationalAgent__init__ (lib : C.XAgentLibrary) (nm : option string)
    (prompt : option string) (memory : option bool) (tools_arg : option (list Tool))
  : ConversationalAgent :=
  let nm := default "ConversationalAgent" nm in
  let prompt :=
    match prompt with
    | Some (String c p) => String c p
    | _ => "You are a helpful AI assistant that collaborates effectively with other agents."
    end in
  let memory := default true memory in
  let ts := default [] tools_arg in
  {| name := nm; system_prompt := prompt; memory_enabled := memory;
     tools := match ts with [] => Own [] | _ => SharedWithXAgent end;
     xagent :=
       L.ConversationalXAgent__init__ lib (Some nm) (Some ts)
         (Some {["enabled" := PyBool memory]})
         {["system_prompt" := PyStr prompt]};
     conversation_history := [];
     logger := [INFO ("Conversational Agent " +:+ nm
                        +:+ " initialized with XAgent backend")] |}.

(** The two messages [_prepare_context] makes of a history entry. *)
Definition exchange (entry : HistoryEntry) : list (gmap string PyVal) :=
  [ <["role" := PyStr "user"]> {["content" := PyStr (user_message entry)]};
    <["role" := PyStr "assistant"]> {["content" := PyStr (agent_response entry)]} ].

(** [ConversationalAgent._prepare_context] *)
Definition _prepare_context (self : ConversationalAgent) (ctx : option ChatContext)
  : list (gmap string PyVal) :=
  let xagent_context :=
    if memory_enabled self
    then fold_left (λ xagent_context entry, xagent_context ++ exchange entry)
                   (L.last_n 5 (conversation_history self)) []
    else [] in
  match ctx with
  | None => xagent_context
  | Some ctx =>
      let xagent_context :=
        xagent_context ++ default [] (previous_messages ctx) in
      match team_context ctx with
      | None => xagent_context
      | Some tc =>
          xagent_context
            ++ [ <["role" := PyStr "system"]>
                   {["content" := PyStr ("Team context: " +:+ str tc)]} ]
      end
  end.

(** [ConversationalAgent.chat] *)
Definition chat (message : string) (ctx : option ChatContext) : MA string :=
  try_except
    (self <- get ;;
     let chat_context := _prepare_context self ctx in
     response <- on_xagent (L.chat message (Some chat_context)) ;;
     (if memory_enabled self
      then
        now <- on_xagent (L.inherited C.datetime_now) ;;
        modify (λ self,
          set_conversation_history
            (conversation_history self
               ++ [ {| timestamp := now; user_message := message;
                       agent_response := response; context := ctx |} ])
            self)
      else ret ()) ;;;
     log (INFO ("Chat completed successfully: "
                  +:+ str_of_nat (String.length response) +:+ " chars")) ;;;
     ret response)
    (λ e,
       let error_msg := "Conversational chat failed: " +:+ exc_str e in
       log (ERROR error_msg) ;;;
       ret ("I apologize, but I encountered an error: " +:+ exc_str e)).

(** [ConversationalAgent.get_memory] *)
Definition get_memory : MA (list HistoryEntry) :=
  self <- get ;; ret (conversation_history self).

(** [ConversationalAgent.clear_memory] *)
Definition clear_memory : MA unit :=
  modify (set_conversation_history []) ;;;
  on_xagent (L.inherited C.clear_memory) ;;;
  log (INFO "Memory cleared").

(** [ConversationalAgent.set_system_prompt] *)
Definition set_system_prompt (prompt : string) : MA unit :=
  modify (λ self,
    {| name := name self; system_prompt := prompt;
       memory_enabled := memory_enabled self; tools := tools self;
       xagent := {| L.base := L.base (xagent self);
                    L.conversation_context := L.conversation_context (xagent self);
                    L.system_prompt := PyStr prompt |};
       conversation_history := conversation_history self;
       logger := logger self |}) ;;;
  log (INFO "System prompt updated").

(** [self.xagent.tools.append(tool)] *)
Definition xagent_tools_append (tool : Tool) (x : L.ConversationalXAgent)
  : L.ConversationalXAgent :=
  L.set_base
    {| C.agent_name := C.agent_name (L.base x);
       C.tools := C.tools (L.base x) ++ [tool];
       C.memory_config := C.memory_config (L.base x);
       C.conversation_history := C.conversation_history (L.base x);
       C.xagent := C.xagent (L.base x);
       C.logger := C.logger (L.base x);
       C.clock := C.clock (L.base x) |}
    x.

(** [self.tools.append(tool)] *)
Definition tools_append (tool : Tool) (self : ConversationalAgent)
  : ConversationalAgent :=
  match tools self with
  | SharedWithXAgent => set_xagent (xagent_tools_append tool (xagent self)) self
  | Own l =>
      {| name := name self; system_prompt := system_prompt self;
         memory_enabled := memory_enabled self; tools := Own (l ++ [tool]);
         xagent := xagent self;
         conversation_history := conversation_history self;
         logger := logger self |}
  end.

(** [ConversationalAgent.add_tool] *)
Definition add_tool (tool : Tool) : MA unit :=
  modify (tools_append tool) ;;;
  modify (λ self, set_xagent (xagent_tools_append tool (xagent self)) self) ;;;
  log (INFO ("Tool added: " +:+ tool_str tool)).

(** The dict [get_agent_info] returns. *)
Record AgentInfo : Type := {
  info_name : string;
  info_type : string;
  info_backend : string;
  info_memory_enabled : bool;
  tools_count : nat;
  conversation_length : nat;
  info_system_prompt : string
}.

(** [ConversationalAgent.get_agent_info] *)
Definition get_agent_info (self : ConversationalAgent) : AgentInfo :=
  {| info_name := name self;
     info_type := "ConversationalAgent";
     info_backend := "XAgent";
     info_memory_enabled := memory_enabled self;
     tools_count := length (self_tools self);
     conversation_length := length (conversation_history self);
     info_system_prompt :=
       if 100 <? String.length (system_prompt self)
       then take 100 (system_prompt self) +:+ "..."
       else system_prompt self |}.

(** The agent after the chats [messages], each without a context of its own,
    made in that order. *)
Definition chats (messages : list string) (self : ConversationalAgent)
  : ConversationalAgent :=
  fold_left (λ self message, state_after (chat message None self)) messages self.

(** The number of context messages the first [n] chats of an agent with
    memory hand to the adapter: each chat hands over its last five exchanges
    again. *)
Fixpoint handed_over (n : nat) : nat :=
  match n with
  | 0 => 0
  | S n' => handed_over n' + 2 * (5 `min` n')
  end.

End conversational.

(** ** Vocabulary for the conversational agents *)

Module ConversationalSpec.

Import l3agi_compatibility.

(** The adapter with [ctx] added at the end of its context. *)
Definition with_context (ctx : list (gmap string PyVal)) (self : ConversationalXAgent)
  : ConversationalXAgent :=
  {| base := base self;
     conversation_context := conversation_context self ++ ctx;
     system_prompt := system_prompt self |}.

(** The adapter with the context [ctx] in place of its own. *)
Definition set_context (ctx : list (gmap string PyVal)) (self : ConversationalXAgent)
  : ConversationalXAgent :=
  {| base := base self;
     conversation_context := ctx;
     system_prompt := system_prompt self |}.

(** What [MockXAgent] makes of an input, up to the end of its first step. *)
Definition mock_echo (input_text : string) : string :=
  "XAgent completed the following steps:" +:+ nl
    +:+ "1. Completed mock_analyze on " +:+ input_text.

End ConversationalSpec.

(** ** Instances of the conversational agent *)

Module ConversationalExamples.

Import conversational Examples.

(** [ConversationalAgent()] and [ConversationalAgent(tools=[calculator])]
    where the XAgent library is not installed. *)
Definition host : ConversationalAgent :=
  ConversationalAgent__init__ None None None None None.

Definition host_with_tools : ConversationalAgent :=
  ConversationalAgent__init__ None (Some "host") None None (Some [calculator]).

(** The text [chat] returns on an agent, for a message and a context. *)
Definition reply_of (self : ConversationalAgent) (message : string)
    (ctx : option ChatContext) : string :=
  L._format_conversation_output
    (Spec.workflow_response
       (L._format_conversation_input
          (ConversationalSpec.with_context (_prepare_context self ctx) (xagent self))
          message)
       (L.base (xagent self))).

End ConversationalExamples.

(** * Properties *)

#[local] Arguments String.append !_ _ / : simpl nomatch.

(** ** Texts *)

Module TextFacts.

Lemma append_empty_r (s : string) : s +:+ "" = s.
Proof. induction s as [|c s IH]; simpl; [done | by rewrite IH]. Qed.

Lemma append_assoc (a b c : string) : (a +:+ b) +:+ c = a +:+ (b +:+ c).
Proof. induction a as [|x a IH]; simpl; [done | by rewrite IH]. Qed.

Lemma append_inv_head (a b c : string) : a +:+ b = a +:+ c → b = c.
Proof. induction a as [|x a IH]; simpl; [done | intros [= H]; auto]. Qed.

Lemma startswith_spec (p s : string) :
  startswith p s = true ↔ ∃ rest, s = p +:+ rest.
Proof.
  revert s. induction p as [|a p IH]; intros s; simpl.
  - split; [intros _; by exists s | by destruct s].
  - destruct s as [|b s].
    + split; [done | intros [rest [=]]].
    + rewrite andb_true_iff, bool_decide_eq_true, IH. split.
      * intros [-> [rest ->]]. by exists rest.
      * intros [rest [= -> ->]]. split; [done | by exists rest].
Qed.

Lemma startswith_append (p rest : string) : startswith p (p +:+ rest) = true.
Proof. apply startswith_spec. by exists rest. Qed.

Lemma contains_spec (sub s : string) :
  contains sub s = true ↔ ∃ front back, s = front +:+ sub +:+ back.
Proof.
  induction s as [|c s IH].
  - simpl. rewrite orb_false_r, startswith_spec. split.
    + intros [rest ->]. by exists "", rest.
    + intros [[|x front] [back H]]; [by exists back | done].
  - cbn [contains]. rewrite orb_true_iff, IH, startswith_spec. split.
    + intros [[rest ->] | (front & back & ->)].
      * by exists "", rest.
      * by exists (String c front), back.
    + intros [[|x front] [back H]].
      * left. by exists back.
      * right. injection H as -> ->. by exists front, back.
Qed.

(** A text that occurs in a part of [s] occurs in [s]. *)
Lemma contains_infix (sub front t back : string) :
  contains sub t = true → contains sub (front +:+ t +:+ back) = true.
Proof.
  rewrite !contains_spec. intros (f & b & ->).
  exists (front +:+ f), (b +:+ back). by rewrite !append_assoc.
Qed.

Lemma split_head_prefix (sep s : string) : ∃ rest, s = split_head sep s +:+ rest.
Proof.
  induction s as [|c s [rest IH]]; simpl.
  - destruct (startswith sep ""); by exists "".
  - destruct (startswith sep (String c s)); simpl.
    + by eexists.
    + exists rest. by rewrite <- IH.
Qed.

(** [split_head] stops at an occurrence of the separator... *)
Lemma split_head_at_sep (sep s : string) :
  contains sep s = true → ∃ rest, s = split_head sep s +:+ sep +:+ rest.
Proof.
  induction s as [|c s IH]; cbn [contains split_head].
  - rewrite orb_false_r. intros H. rewrite H.
    apply startswith_spec in H as [rest H]. by exists rest.
  - destruct (startswith sep (String c s)) eqn:Hs; simpl.
    + intros _. apply startswith_spec in Hs as [rest Hs]. by exists rest.
    + intros H. destruct (IH H) as [rest Hrest]. exists rest. by rewrite <- Hrest.
Qed.

(** ...and at the first one: the separator does not occur before it. *)
Lemma split_head_no_sep (sep s : string) :
  sep ≠ "" → contains sep (split_head sep s) = false.
Proof.
  intros Hne. induction s as [|c s IH]; cbn [split_head].
  - destruct (startswith sep "") eqn:Hs; simpl; rewrite orb_false_r;
      by destruct sep.
  - destruct (startswith sep (String c s)) eqn:Hs.
    + simpl. rewrite orb_false_r. by destruct sep.
    + cbn [contains]. rewrite IH, orb_false_r.
      apply not_true_is_false. intros H.
      apply startswith_spec in H as [rest H].
      destruct (split_head_prefix sep s) as [rest' Hs'].
      assert (startswith sep (String c s) = true) as Hc; [|congruence].
      apply startswith_spec. exists (rest +:+ rest').
      rewrite <- append_assoc, <- H. simpl. by rewrite <- Hs'.
Qed.

Lemma lstrip_suffix (s : string) : ∃ front, s = front +:+ lstrip s.
Proof.
  induction s as [|c s [front IH]]; simpl; [by exists "" |].
  destruct (isspace c).
  - exists (String c front). simpl. by rewrite <- IH.
  - by exists "".
Qed.

Lemma rstrip_prefix (s : string) : ∃ back, s = rstrip s +:+ back.
Proof.
  induction s as [|c s [back IH]]; simpl; [by exists "" |].
  destruct (rstrip s) as [|x r] eqn:Hr.
  - destruct (isspace c).
    + exists (String c s). done.
    + exists back. simpl in *. congruence.
  - exists back. simpl in *. congruence.
Qed.

Lemma strip_infix (s : string) : ∃ front back, s = front +:+ strip s +:+ back.
Proof.
  destruct (lstrip_suffix s) as [front Hf].
  destruct (rstrip_prefix (lstrip s)) as [back Hb].
  exists front, back. unfold strip. by rewrite <- Hb.
Qed.

Lemma strip_no_new_occurrence (sub s : string) :
  contains sub s = false → contains sub (strip s) = false.
Proof.
  intros H. apply not_true_is_false. intros Hc.
  destruct (strip_infix s) as (front & back & Hs).
  rewrite Hs in H. by rewrite (contains_infix _ front _ back Hc) in H.
Qed.

Lemma take_prefix (n : nat) (s : string) : startswith (take n s) s = true.
Proof.
  revert s. induction n as [|n IH]; intros [|c s]; simpl; try done.
  rewrite bool_decide_eq_true_2 by done. apply IH.
Qed.

Lemma take_length (n : nat) (s : string) :
  String.length (take n s) = n `min` String.length s.
Proof.
  revert s. induction n as [|n IH]; intros [|c s]; simpl; try done.
  by rewrite IH.
Qed.

Lemma append_length (a b : string) :
  String.length (a +:+ b) = String.length a + String.length b.
Proof. induction a as [|c a IH]; simpl; [done | by rewrite IH]. Qed.

Lemma strict_prefix_append (p rest : string) :
  rest ≠ "" → strict_prefix p (p +:+ rest).
Proof. intros H. by exists rest. Qed.

End TextFacts.

(** ** The pipeline of [xagent_core] *)

Module PipelineFacts.

Import xagent_core Client Spec TextFacts.

Ltac monad := unfold bind, ret, raise, get, modify, try_except.

Lemma create_plan_of_None (b : Backend) :
  hasattr_create_plan b = false → create_plan_of b = None.
Proof.
  unfold hasattr_create_plan. intros H%bool_decide_eq_false.
  destruct (create_plan_of b); [exfalso; apply H; eauto | done].
Qed.

(** *** Planning and execution read the instance and leave it as it is *)

Lemma _create_plan_frame (x : string) (w : XAgentWrapper) :
  _create_plan x w = (outcome (_create_plan x w), w).
Proof.
  unfold _create_plan, outcome. monad.
  destruct (create_plan_of (xagent w)) as [f|]; [destruct (f x)|]; done.
Qed.

Lemma _create_plan_default (x : string) (w : XAgentWrapper) :
  hasattr_create_plan (xagent w) = false →
  _create_plan x w = (inr (default_plan x (tools w)), w).
Proof.
  intros H%create_plan_of_None. unfold _create_plan. monad. by rewrite H.
Qed.

Lemma _create_plan_setup (x : string) (w1 w2 : XAgentWrapper) :
  same_setup w1 w2 → outcome (_create_plan x w1) = outcome (_create_plan x w2).
Proof.
  intros (Hx & Ht & _). unfold _create_plan, outcome. monad. rewrite Hx, Ht.
  destruct (create_plan_of (xagent w2)) as [f|]; [destruct (f x)|]; done.
Qed.

Lemma _execute_step_dict (d : gmap string PyVal) (w : XAgentWrapper) :
  _execute_step (StepDict d) w = (inr (step_line d), w).
Proof.
  unfold _execute_step, step_line.
  destruct (dict_get d "action" (PyStr "unknown")) as [| b | n | a];
    repeat case_decide; simplify_eq; try done.
  repeat match goal with
         | H : PyStr a ≠ PyStr ?k |- _ =>
             rewrite (proj2 (String.eqb_neq a k)) by congruence; clear H
         end.
  done.
Qed.

Lemma _execute_step_pure (stp : StepVal) (w w' : XAgentWrapper) :
  _execute_step stp w = (outcome (_execute_step stp w'), w).
Proof. destruct stp; [by rewrite !_execute_step_dict | done]. Qed.

Lemma execute_steps_pure (items : list StepVal) (results : list string)
    (w w' : XAgentWrapper) :
  execute_steps items results w = (outcome (execute_steps items results w'), w).
Proof.
  revert results. induction items as [|stp items IH]; intros results; [done|].
  cbn [execute_steps]. monad.
  rewrite (_execute_step_pure stp w w'), (_execute_step_pure stp w' w').
  destruct (outcome (_execute_step stp w')); [done | apply IH].
Qed.

Lemma execute_steps_dicts (ds : list (gmap string PyVal)) (results : list string)
    (w : XAgentWrapper) :
  execute_steps (StepDict <$> ds) results w = (inr (results ++ (step_line <$> ds)), w).
Proof.
  revert results. induction ds as [|d ds IH]; intros results.
  - simpl. by rewrite app_nil_r.
  - cbn [fmap list_fmap execute_steps]. monad. rewrite _execute_step_dict.
    change (list_fmap _ _ ?f ?l) with (f <$> l).
    by rewrite IH, <- app_assoc.
Qed.

Lemma _execute_plan_pure (plan : PlanVal) (w w' : XAgentWrapper) :
  _execute_plan plan w = (outcome (_execute_plan plan w'), w).
Proof.
  unfold _execute_plan. monad.
  destruct plan as [d | v]; simpl; [|done].
  destruct (default (StepsList []) (steps d)) as [l | [| b | n | s]]; simpl;
    try done;
    rewrite (execute_steps_pure _ [] w w'), (execute_steps_pure _ [] w' w');
    by destruct (outcome (execute_steps _ [] w')).
Qed.

Lemma reflection_phase_eq (result x : string) (w : XAgentWrapper) :
  reflection_phase result x w =
  (inr (if reflection_enabled w then result +:+ reflection_suffix x else result), w).
Proof. unfold reflection_phase. monad. by destruct (reflection_enabled w). Qed.

(** *** Which exceptions the phases raise *)

Lemma Mock_raises_only_Exception (m : MockXAgent) : raises_only_Exception (Mock m).
Proof. intros f x e [= <-]. done. Qed.

Lemma default_policy_raises_only_Exception (b : Backend) :
  hasattr_create_plan b = false → raises_only_Exception b.
Proof. intros H%create_plan_of_None f x e Hf. congruence. Qed.

Lemma raises_only_Exception_uninterrupted (x : string) (w : XAgentWrapper) :
  raises_only_Exception (xagent w) → uninterrupted x w.
Proof.
  intros H e. unfold _create_plan, outcome. monad.
  destruct (create_plan_of (xagent w)) as [f|] eqn:Hf; [|done].
  destruct (f x) as [e'|plan] eqn:Hx; [|done].
  simpl. intros [= <-]. by apply (H f x).
Qed.

Lemma uninterrupted_setup (x : string) (w1 w2 : XAgentWrapper) :
  same_setup w1 w2 → uninterrupted x w2 → uninterrupted x w1.
Proof.
  intros Hs H e He. apply H. by rewrite <- (_create_plan_setup x w1 w2).
Qed.

(** The steps of a plan raise [AttributeError] and [TypeError] only. *)
Lemma execute_steps_Exception (items : list StepVal) (results : list string)
    (w : XAgentWrapper) (e : PyException) :
  outcome (execute_steps items results w) = inl e → is_Exception e = true.
Proof.
  revert results. induction items as [|stp items IH]; intros results; [done|].
  cbn [execute_steps]. monad. destruct stp as [d | v].
  - rewrite _execute_step_dict. apply IH.
  - unfold outcome. simpl. by intros [= <-].
Qed.

Lemma _execute_plan_Exception (plan : PlanVal) (w : XAgentWrapper) (e : PyException) :
  outcome (_execute_plan plan w) = inl e → is_Exception e = true.
Proof.
  unfold _execute_plan. monad.
  destruct plan as [d | v]; simpl; [|by intros [= <-]].
  destruct (default (StepsList []) (steps d)) as [l | [| b | n | s]]; simpl;
    try (by intros [= <-]).
  - pose proof (execute_steps_Exception l [] w e) as H. unfold outcome in *.
    destruct (execute_steps l [] w) as [[e' | r] w1]; [|done].
    simpl in *. intros [= <-]. by apply H.
  - pose proof (execute_steps_Exception (map (λ c, StepObj (PyStr c)) (chars s))
                  [] w e) as H. unfold outcome in *.
    destruct (execute_steps _ [] w) as [[e' | r] w1]; [|done].
    simpl in *. intros [= <-]. by apply H.
Qed.

(** *** The workflow: its response is [workflow_response], unless planning is
    interrupted *)

Lemma _execute_xagent_workflow_eq (x : string) (w : XAgentWrapper) :
  uninterrupted x w →
  _execute_xagent_workflow x w = (inr (workflow_response x w), w).
Proof.
  intros Hu. unfold uninterrupted in Hu.
  unfold _execute_xagent_workflow, workflow_response. monad.
  pose proof (_create_plan_frame x w) as F. unfold outcome in *.
  destruct (_create_plan x w) as [[e | plan] w1]; simpl in F; simplify_eq.
  { cbn [fst]. by rewrite (Hu e). }
  cbn [fst].
  pose proof (_execute_plan_pure plan w w) as F.
  pose proof (_execute_plan_Exception plan w) as He. unfold outcome in *.
  destruct (_execute_plan plan w) as [[e | result] w1]; simpl in F; simplify_eq.
  { cbn [fst]. by rewrite (He e). }
  rewrite reflection_phase_eq. reflexivity.
Qed.

Lemma _execute_xagent_workflow_interrupted (x : string) (w : XAgentWrapper)
    (e : PyException) :
  outcome (_create_plan x w) = inl e → is_Exception e = false →
  _execute_xagent_workflow x w = (inl e, w).
Proof.
  intros Hp He. unfold _execute_xagent_workflow. monad.
  pose proof (_create_plan_frame x w) as F. rewrite Hp in F. rewrite F.
  by rewrite He.
Qed.

(** Planning is interrupted, or it is not. *)
Lemma interrupted_or_not (x : string) (w : XAgentWrapper) :
  (∃ e, outcome (_create_plan x w) = inl e ∧ is_Exception e = false) ∨
  uninterrupted x w.
Proof.
  unfold uninterrupted.
  destruct (outcome (_create_plan x w)) as [e | plan]; [|by right].
  destruct (is_Exception e) eqn:He.
  - right. by intros e' [= <-].
  - left. by exists e.
Qed.

Lemma workflow_response_setup (x : string) (w1 w2 : XAgentWrapper) :
  same_setup w1 w2 → workflow_response x w1 = workflow_response x w2.
Proof.
  intros H. unfold workflow_response. rewrite (_create_plan_setup x w1 w2 H).
  destruct (outcome (_create_plan x w2)) as [e | plan]; [done|].
  rewrite (_execute_plan_pure plan w1 w2). unfold outcome at 1. simpl.
  destruct H as (_ & _ & Hm). unfold reflection_enabled. by rewrite Hm.
Qed.

(** *** What [run] does *)

Lemma run_eq (x : string) (w : XAgentWrapper) :
  uninterrupted x w →
  run x w =
  (inr (workflow_response x w),
   {| agent_name := agent_name w; tools := tools w;
      memory_config := memory_config w;
      conversation_history :=
        conversation_history w ++
        [ {| role := "user"; content := x;
             timestamp := clock w; metadata := None |};
          {| role := "assistant"; content := workflow_response x w;
             timestamp := S (clock w); metadata := None |} ];
      xagent := xagent w;
      logger := logger w ++ [INFO ("Processing input: " +:+ take 100 x +:+ "...")];
      clock := S (S (clock w)) |}).
Proof.
  intros Hu.
  unfold run, logger_info, datetime_now, conversation_history_append. monad.
  cbn -[_execute_xagent_workflow String.append take].
  rewrite _execute_xagent_workflow_eq
    by (by apply (uninterrupted_setup x _ w)).
  cbn -[String.append take workflow_response].
  rewrite <- (app_assoc _ [_] [_]). simpl app.
  match goal with
  | |- context [workflow_response x ?w0] =>
      rewrite (workflow_response_setup x w0 w) by done
  end.
  done.
Qed.

(** With a backend that raises instances of [Exception] only. *)
Lemma run_eq_backend (x : string) (w : XAgentWrapper) :
  raises_only_Exception (xagent w) →
  run x w =
  (inr (workflow_response x w),
   {| agent_name := agent_name w; tools := tools w;
      memory_config := memory_config w;
      conversation_history :=
        conversation_history w ++
        [ {| role := "user"; content := x;
             timestamp := clock w; metadata := None |};
          {| role := "assistant"; content := workflow_response x w;
             timestamp := S (clock w); metadata := None |} ];
      xagent := xagent w;
      logger := logger w ++ [INFO ("Processing input: " +:+ take 100 x +:+ "...")];
      clock := S (S (clock w)) |}).
Proof. intros H. by apply run_eq, raises_only_Exception_uninterrupted. Qed.

(** When planning is interrupted, [run] is: the exception reaches the caller
    after the user message has been recorded. *)
Lemma run_interrupted (x : string) (w : XAgentWrapper) (e : PyException) :
  outcome (_create_plan x w) = inl e → is_Exception e = false →
  run x w =
  (inl e,
   {| agent_name := agent_name w; tools := tools w;
      memory_config := memory_config w;
      conversation_history :=
        conversation_history w ++
        [ {| role := "user"; content := x;
             timestamp := clock w; metadata := None |} ];
      xagent := xagent w;
      logger := logger w ++ [INFO ("Processing input: " +:+ take 100 x +:+ "...")];
      clock := S (clock w) |}).
Proof.
  intros Hp He.
  unfold run, logger_info, datetime_now, conversation_history_append. monad.
  cbn -[_execute_xagent_workflow String.append take].
  rewrite (_execute_xagent_workflow_interrupted x _ e); [by rewrite He | | done].
  by rewrite <- Hp; apply _create_plan_setup.
Qed.

Lemma run_setup (x : string) (w : XAgentWrapper) :
  same_setup (state_after (run x w)) w.
Proof.
  destruct (interrupted_or_not x w) as [(e & Hp & He) | Hu].
  - by rewrite (run_interrupted x w e).
  - by rewrite run_eq.
Qed.

(** What [run] returns or raises depends on the setup alone. *)
Lemma run_outcome_setup (x : string) (w1 w2 : XAgentWrapper) :
  same_setup w1 w2 → outcome (run x w1) = outcome (run x w2).
Proof.
  intros Hs. destruct (interrupted_or_not x w2) as [(e & Hp & He) | Hu].
  - rewrite (run_interrupted x w2 e), (run_interrupted x w1 e); try done.
    by rewrite (_create_plan_setup x w1 w2).
  - rewrite (run_eq x w2), (run_eq x w1); [|by apply (uninterrupted_setup x w1 w2)|done].
    unfold outcome. simpl. f_equal. by apply workflow_response_setup.
Qed.

Lemma init_raises_only_Exception (lib : XAgentLibrary) (name : option string)
    (tools_arg : option (list Tool)) (memory_config_arg : option (gmap string PyVal))
    (kwargs : gmap string PyVal) :
  library_raises_only_Exception lib →
  raises_only_Exception (xagent (__init__ lib name tools_arg memory_config_arg kwargs)).
Proof.
  intros H. unfold __init__, _init_xagent.
  destruct lib as [XAgent|]; [|apply Mock_raises_only_Exception].
  destruct (XAgent _) as [e | a] eqn:E.
  - apply Mock_raises_only_Exception.
  - by eapply (H XAgent).
Qed.

Lemma simulation_raises_only_Exception : library_raises_only_Exception None.
Proof. by intros XAgent config a. Qed.

Lemma failing_raises_only_Exception :
  raises_only_Exception (xagent Examples.failing).
Proof. intros f x e [= <-] [= <-]. reflexivity. Qed.

Lemma call_setup (c : Call) (w : XAgentWrapper) : same_setup (call c w) w.
Proof.
  destruct c as [x | x | |]; unfold call.
  - apply run_setup.
  - by rewrite _create_plan_frame.
  - done.
  - done.
Qed.


(** *** The synthesis of the results *)

Lemma fold_left_numbered (results : list string) (start : nat) (acc : string) :
  fold_left (λ synthesized '(i, result),
               synthesized +:+ (str_of_nat i +:+ ". " +:+ result +:+ nl))
            (enumerate start results) acc
  = acc +:+ join (imap (λ i line, numbered_line (start + i) line) results).
Proof.
  revert start acc. induction results as [|r results IH]; intros start acc.
  - simpl. by rewrite append_empty_r.
  - cbn [enumerate fold_left]. rewrite IH, append_assoc.
    unfold join. cbn [imap foldr]. rewrite Nat.add_0_r.
    unfold numbered_line at 2. do 3 f_equal.
    apply imap_ext. intros i line _. simpl. by rewrite Nat.add_succ_r.
Qed.

Lemma _synthesize_results_nonempty (results : list string) :
  results ≠ [] → _synthesize_results results = synthesis results.
Proof.
  destruct results as [|r results]; [done | intros _].
  unfold _synthesize_results, synthesis, numbered_lines.
  rewrite fold_left_numbered. by rewrite !append_assoc.
Qed.

Lemma _execute_plan_dicts (ds : list (gmap string PyVal)) (tn : option (list string))
    (w : XAgentWrapper) :
  _execute_plan (plan_of ds tn) w = (inr (_synthesize_results (step_line <$> ds)), w).
Proof.
  unfold _execute_plan, plan_of. monad. simpl.
  by rewrite execute_steps_dicts.
Qed.

Lemma numbered_lines_lookup (lines : list string) (i : nat) (line : string) :
  lines !! i = Some line →
  numbered_lines lines !! i = Some (numbered_line (S i) line).
Proof. intros H. unfold numbered_lines. by rewrite list_lookup_imap, H. Qed.

Lemma reorder_fmap {A B} (f : A → B) (σ : list nat) (l : list A) :
  f <$> reorder σ l = reorder σ (f <$> l).
Proof.
  unfold reorder. induction σ as [|i σ IH]; [done|].
  simpl. rewrite list_lookup_fmap.
  destruct (l !! i); simpl; [f_equal|]; exact IH.
Qed.

Lemma endswith_append (front suffix : string) : endswith (front +:+ suffix) suffix.
Proof. by exists front. Qed.

End PipelineFacts.

(** ** The claims about the pipeline *)

Module Pipeline.

Import xagent_core Client Spec Examples TextFacts PipelineFacts.

(** C1, as it stands, does not hold when the backend is cancelled while it
    plans: [asyncio.CancelledError] is no instance of [Exception], so neither
    [except Exception] of the wrapper takes it.  [run] raises it to the caller,
    and the history has gained the user message alone. *)
Lemma cancelled_run_raises_after_the_user_message :
  outcome (_create_plan "hello" cancelled) = inl (Raise "CancelledError" "") ∧
  is_Exception (Raise "CancelledError" "") = false ∧
  outcome (run "hello" cancelled) = inl (Raise "CancelledError" "") ∧
  conversation_history cancelled = [] ∧
  conversation_history (state_after (run "hello" cancelled))
  = [ {| role := "user"; content := "hello"; timestamp := 0; metadata := None |} ].
Proof. repeat split; vm_compute; reflexivity. Qed.

(** C1, amended.  For every text input for which planning raises nothing
    outside [Exception], [run] returns a text and raises nothing, and it
    appends exactly two messages to the conversation history: first a user
    message whose content is the input, then an assistant message whose
    content is the text returned.  When planning raises an exception that is
    no instance of [Exception], [run] raises that exception, and has appended
    the user message alone. *)
Theorem run_returns_text_and_appends_two_messages :
  ∀ (self : XAgentWrapper) (input_text : string),
    (uninterrupted input_text self →
     ∃ (response : string) (self' : XAgentWrapper) (m_user m_assistant : AgentMessage),
       run input_text self = (inr response, self') ∧
       conversation_history self' = conversation_history self ++ [m_user; m_assistant] ∧
       role m_user = "user" ∧ content m_user = input_text ∧
       role m_assistant = "assistant" ∧ content m_assistant = response) ∧
    (∀ (e : PyException),
       outcome (_create_plan input_text self) = inl e → is_Exception e = false →
       ∃ (self' : XAgentWrapper) (m_user : AgentMessage),
         run input_text self = (inl e, self') ∧
         conversation_history self' = conversation_history self ++ [m_user] ∧
         role m_user = "user" ∧ content m_user = input_text).
Proof.
  intros self input_text. split.
  - intros Hu. rewrite run_eq by done.
    eexists _, _, _, _. split; [reflexivity|]. simpl. done.
  - intros e Hp He. rewrite (run_interrupted input_text self e) by done.
    eexists _, _. split; [reflexivity|]. simpl. done.
Qed.

Lemma run_returns_text_and_appends_two_messages_witness :
  uninterrupted "hello" failing ∧
  ∃ (response : string) (self' : XAgentWrapper) (m_user m_assistant : AgentMessage),
    run "hello" failing = (inr response, self') ∧
    conversation_history self' = conversation_history failing ++ [m_user; m_assistant] ∧
    role m_user = "user" ∧ content m_user = "hello" ∧
    role m_assistant = "assistant" ∧ content m_assistant = response.
Proof.
  assert (uninterrupted "hello" failing) as Hu.
  { intros e He. vm_compute in He. injection He as <-. reflexivity. }
  split; [exact Hu|].
  exact (proj1 (run_returns_text_and_appends_two_messages failing "hello") Hu).
Defined.

(** The backends met in practice qualify: the mock of simulation mode, a
    backend without [create_plan], and one that raises [RuntimeError]. *)
Example uninterrupted_backends :
  (∀ x, uninterrupted x simulated) ∧ (∀ x, uninterrupted x planless) ∧
  (∀ x, uninterrupted x failing).
Proof.
  repeat split; intros x; apply raises_only_Exception_uninterrupted.
  - apply Mock_raises_only_Exception.
  - by apply default_policy_raises_only_Exception.
  - apply failing_raises_only_Exception.
Qed.

Example run_simulated :
  outcome (run "hello" simulated) =
  inr ("XAgent completed the following steps:" +:+ nl
       +:+ "1. Completed mock_analyze on hello" +:+ nl
       +:+ "2. Completed mock_respond on generated_response" +:+ nl
       +:+ nl +:+ "Task completed successfully."
       +:+ nl +:+ "[Reflection] Evaluated result for input: 'hello...'").
Proof. vm_compute. reflexivity. Qed.

Example run_malformed :
  outcome (run "hello" malformed) =
  inr "Workflow execution error: 'str' object has no attribute 'get'".
Proof. vm_compute. reflexivity. Qed.

(** C6. On every instance, whatever its history and whatever calls were made
    on it before, [clear_memory()] followed by [get_memory()] returns the
    empty sequence. *)
Theorem clear_memory_then_get_memory_is_empty :
  ∀ (self : XAgentWrapper) (earlier : list Call),
    ∃ (self1 self2 : XAgentWrapper),
      clear_memory (calls earlier self) = (inr (), self1) ∧
      get_memory self1 = (inr [], self2).
Proof.
  intros self earlier. eexists _, _. split; reflexivity.
Qed.

Example clear_memory_after_two_runs :
  length (conversation_history (calls [CallRun "a"; CallRun "b"] simulated)) = 4 ∧
  outcome (get_memory (calls [CallRun "a"; CallRun "b"; CallClearMemory] simulated))
  = inr [].
Proof. split; vm_compute; reflexivity. Qed.

(** C9. For a plan whose list of steps is empty (or that has no ["steps"] at
    all), [_execute_plan] returns ["No results to synthesize"], a text with
    neither the header of the numbered steps nor the completion sentence. *)
Theorem _execute_plan_of_no_steps :
  ∀ (self : XAgentWrapper) (tn : option (list string)),
    _execute_plan (Plan {| steps := Some (StepsList []); tools_needed := tn |}) self
      = (inr "No results to synthesize", self) ∧
    _execute_plan (Plan {| steps := None; tools_needed := tn |}) self
      = (inr "No results to synthesize", self) ∧
    contains "XAgent completed the following steps:" "No results to synthesize" = false ∧
    contains completion_sentence "No results to synthesize" = false.
Proof.
  intros self tn. repeat split; reflexivity.
Qed.

(** C5. For every result text and original input: with reflection disabled the
    reflection phase returns the result unchanged; with reflection enabled,
    which is the default, it returns the result followed by a suffix of a
    fixed format that quotes the first 50 characters of the original input.
    The result is always a strict prefix of the reflected text. *)
Theorem reflection_is_identity_or_appends_suffix :
  ∀ (self : XAgentWrapper) (result original_input : string),
    reflection_phase result original_input self
      = (inr (if reflection_enabled self
              then result +:+ reflection_suffix original_input
              else result), self) ∧
    _reflect_on_result result original_input self
      = (inr (result +:+ reflection_suffix original_input), self) ∧
    reflection_suffix original_input
      = nl +:+ "[Reflection] Evaluated result for input: '"
           +:+ take 50 original_input +:+ "...'" ∧
    startswith (take 50 original_input) original_input = true ∧
    String.length (take 50 original_input) = 50 `min` String.length original_input ∧
    strict_prefix result (result +:+ reflection_suffix original_input) ∧
    (∀ lib name tools_arg kwargs,
       reflection_enabled (__init__ lib name tools_arg None kwargs) = true).
Proof.
  intros self result original_input.
  split; [apply reflection_phase_eq|].
  split; [reflexivity|]. split; [reflexivity|].
  split; [apply take_prefix|]. split; [apply take_length|].
  split; [by apply strict_prefix_append|].
  intros lib name tools_arg kwargs. unfold __init__.
  by destruct (_init_xagent lib (default "XAgent" name) kwargs).
Qed.

Example reflection_disabled :
  outcome (run "hello"
             (__init__ None None None (Some {["enable_reflection" := PyBool false]}) ∅)) =
  inr ("XAgent completed the following steps:" +:+ nl
       +:+ "1. Completed mock_analyze on hello" +:+ nl
       +:+ "2. Completed mock_respond on generated_response" +:+ nl
       +:+ nl +:+ "Task completed successfully.").
Proof. vm_compute. reflexivity. Qed.



(** C7, as it stands, does not hold of an exception that is no instance of
    [Exception]: when the backend is interrupted from the keyboard while it
    plans, the [KeyboardInterrupt] passes both [except Exception] handlers.
    [run] raises it instead of returning a text with the error marker, and no
    assistant message is recorded. *)
Lemma keyboard_interrupt_is_not_reported_as_text :
  outcome (_create_plan "hello" interrupted) = inl (Raise "KeyboardInterrupt" "") ∧
  is_Exception (Raise "KeyboardInterrupt" "") = false ∧
  outcome (_execute_xagent_workflow "hello" interrupted)
    = inl (Raise "KeyboardInterrupt" "") ∧
  outcome (run "hello" interrupted) = inl (Raise "KeyboardInterrupt" "") ∧
  outcome (run "hello" interrupted) ≠ inr (error_marker +:+ "") ∧
  role <$> conversation_history (state_after (run "hello" interrupted)) = ["user"].
Proof. repeat split; try (vm_compute; reflexivity). by vm_compute. Qed.

(** C7, amended.  When plan creation or plan execution raises an instance of
    [Exception], the exception does not reach the caller of [run]: the call
    returns the text of the exception behind the fixed marker
    ["Workflow execution error: "], and records it as the assistant message.
    (Plan execution raises nothing else.)  The instance stays usable: a later
    call does what it would have done before, since a call depends on earlier
    ones through the history alone, and so returns a text again unless its
    own planning is interrupted.  (Planning and execution read only the
    backend and the tools, so their outcome is the same on the instance before
    the call and on the instance during it.)  An exception of planning that is
    no instance of [Exception] is not caught: [run] raises it, and records no
    assistant message. *)
Theorem workflow_exception_is_reported_as_text :
  ∀ (self : XAgentWrapper) (input_text : string) (e : PyException),
    ((outcome (_create_plan input_text self) = inl e ∧ is_Exception e = true ∨
      ∃ plan, outcome (_create_plan input_text self) = inr plan ∧
              outcome (_execute_plan plan self) = inl e) →
     is_Exception e = true ∧
     ∃ (self' : XAgentWrapper) (m_user m_assistant : AgentMessage),
       run input_text self = (inr (error_marker +:+ exc_str e), self') ∧
       startswith "Workflow execution error: " (error_marker +:+ exc_str e) = true ∧
       conversation_history self' = conversation_history self ++ [m_user; m_assistant] ∧
       content m_user = input_text ∧
       content m_assistant = error_marker +:+ exc_str e ∧
       same_setup self' self ∧
       ∀ (next_input : string),
         outcome (run next_input self') = outcome (run next_input self) ∧
         (uninterrupted next_input self →
          ∃ (response : string) (self'' : XAgentWrapper),
            run next_input self' = (inr response, self'') ∧
            outcome (run next_input self) = inr response)) ∧
    (outcome (_create_plan input_text self) = inl e → is_Exception e = false →
     outcome (_execute_xagent_workflow input_text self) = inl e ∧
     ∃ (self' : XAgentWrapper) (m_user : AgentMessage),
       run input_text self = (inl e, self') ∧
       conversation_history self' = conversation_history self ++ [m_user] ∧
       content m_user = input_text).
Proof.
  intros self input_text e. split; last first.
  { intros Hp He. rewrite (_execute_xagent_workflow_interrupted input_text self e),
      (run_interrupted input_text self e) by done.
    split; [done|]. eexists _, _. split; [reflexivity|]. simpl. done. }
  intros H.
  assert (is_Exception e = true) as He.
  { destruct H as [[_ He] | (plan & _ & Hx)]; [done|].
    by apply (_execute_plan_Exception plan self). }
  split; [done|].
  assert (uninterrupted input_text self) as Hu.
  { intros e'. destruct H as [[-> _] | (plan & -> & _)]; [by intros [= <-] | done]. }
  assert (workflow_response input_text self = error_marker +:+ exc_str e) as Hr.
  { unfold workflow_response.
    destruct H as [[-> _] | (plan & -> & ->)]; reflexivity. }
  rewrite run_eq, Hr by done. eexists _, _, _.
  split; [reflexivity|]. split; [apply startswith_append|].
  split; [reflexivity|]. split; [reflexivity|]. split; [reflexivity|].
  split; [done|].
  intros next_input. split; [by apply run_outcome_setup|].
  intros Hn. rewrite (run_eq next_input self) by done.
  rewrite run_eq by (by apply (uninterrupted_setup next_input _ self)).
  eexists _, _.
  split; [reflexivity|]. unfold outcome. simpl. f_equal.
  by apply workflow_response_setup.
Qed.

Lemma workflow_exception_is_reported_as_text_witness :
  ∃ (self' : XAgentWrapper) (m_user m_assistant : AgentMessage),
    run "hello" failing
      = (inr (error_marker +:+ "backend unavailable"), self') ∧
    startswith "Workflow execution error: "
               (error_marker +:+ "backend unavailable") = true ∧
    conversation_history self' = conversation_history failing ++ [m_user; m_assistant] ∧
    content m_user = "hello" ∧
    content m_assistant = error_marker +:+ "backend unavailable" ∧
    same_setup self' failing.
Proof.
  destruct (proj1 (workflow_exception_is_reported_as_text
                     failing "hello" (Raise "RuntimeError" "backend unavailable")))
    as (_ & self' & m_user & m_assistant & H1 & H2 & H3 & H4 & H5 & H6 & _).
  { left. split; reflexivity. }
  by exists self', m_user, m_assistant.
Defined.

Example execution_exception_is_reported_as_text :
  outcome (_create_plan "hello" malformed)
    = inr (Plan {| steps := Some (StepsList [ step "analyze" "hello";
                                              StepObj (PyStr "execute") ]);
                   tools_needed := None |}) ∧
  outcome (_execute_plan
             (Plan {| steps := Some (StepsList [ step "analyze" "hello";
                                                 StepObj (PyStr "execute") ]);
                      tools_needed := None |}) malformed)
    = inl (Raise "AttributeError" "'str' object has no attribute 'get'") ∧
  outcome (run "hello" malformed)
    = inr "Workflow execution error: 'str' object has no attribute 'get'".
Proof. repeat split; vm_compute; reflexivity. Qed.

(** *** The steps and their lines *)

Lemma synthesis_endswith (lines : list string) :
  endswith (synthesis lines) completion_sentence.
Proof.
  unfold synthesis.
  exists ("XAgent completed the following steps:" +:+ nl
            +:+ join (numbered_lines lines) +:+ nl).
  by rewrite !append_assoc.
Qed.

Lemma step_line_rule (d : gmap string PyVal) :
  let action := dict_get d "action" (PyStr "unknown") in
  let target := str (dict_get d "target" (PyStr "")) in
  (action = PyStr "analyze" → step_line d = "Analysis of: " +:+ target) ∧
  (action = PyStr "execute" → step_line d = "Executed: " +:+ target) ∧
  (action = PyStr "validate" → step_line d = "Validated: " +:+ target) ∧
  (action ≠ PyStr "analyze" → action ≠ PyStr "execute" → action ≠ PyStr "validate" →
   step_line d = "Completed " +:+ str action +:+ " on " +:+ target).
Proof.
  intros action target. unfold step_line. fold action. fold target.
  repeat split.
  - by intros ->.
  - by intros ->.
  - by intros ->.
  - intros H1 H2 H3. destruct action as [| b | n | a]; try done.
    rewrite !(proj2 (String.eqb_neq a _)) by congruence. done.
Qed.

(** C4, as it stands, does not hold of the plan without steps: its result is
    not the synthesis of no lines, and does not end with the completion
    sentence. *)
Lemma empty_plan_has_no_completion_sentence :
  outcome (_execute_plan (plan_of [] None) simulated) = inr "No results to synthesize" ∧
  "No results to synthesize" ≠ synthesis (step_line <$> []) ∧
  ¬ endswith "No results to synthesize" completion_sentence.
Proof.
  split; [reflexivity|]. split; [by vm_compute|].
  intros [front H]. apply (f_equal String.length) in H.
  rewrite append_length in H. simpl in H. lia.
Qed.

(** C4, amended.  For every plan with at least one step, [_execute_plan] takes
    the steps in the order given: each step yields one line by the fixed rule
    (analyze, execute and validate have their own line, any other action is
    reported as completed), the lines are numbered 1..N in that order, so that
    the steps given in another order [σ] yield the same lines in that other
    order, and the synthesis ends with the completion sentence. *)
Theorem _execute_plan_lines_follow_steps :
  ∀ (self : XAgentWrapper) (ds : list (gmap string PyVal)) (tn : option (list string)),
    ds ≠ [] →
    (∀ d, _execute_step (StepDict d) self = (inr (step_line d), self)) ∧
    _execute_plan (plan_of ds tn) self = (inr (synthesis (step_line <$> ds)), self) ∧
    length (numbered_lines (step_line <$> ds)) = length ds ∧
    (∀ i d, ds !! i = Some d →
       numbered_lines (step_line <$> ds) !! i
       = Some (str_of_nat (S i) +:+ ". " +:+ step_line d +:+ nl)) ∧
    (∀ σ, reorder σ ds ≠ [] →
       _execute_plan (plan_of (reorder σ ds) tn) self
       = (inr (synthesis (reorder σ (step_line <$> ds))), self)) ∧
    endswith (synthesis (step_line <$> ds)) completion_sentence ∧
    (∀ d,
       let action := dict_get d "action" (PyStr "unknown") in
       let target := str (dict_get d "target" (PyStr "")) in
       (action = PyStr "analyze" → step_line d = "Analysis of: " +:+ target) ∧
       (action = PyStr "execute" → step_line d = "Executed: " +:+ target) ∧
       (action = PyStr "validate" → step_line d = "Validated: " +:+ target) ∧
       (action ≠ PyStr "analyze" → action ≠ PyStr "execute" →
        action ≠ PyStr "validate" →
        step_line d = "Completed " +:+ str action +:+ " on " +:+ target)).
Proof.
  intros self ds tn Hne.
  split; [intros d; apply _execute_step_dict|].
  split.
  { rewrite _execute_plan_dicts, _synthesize_results_nonempty; [done|].
    by destruct ds. }
  split; [unfold numbered_lines; by rewrite length_imap, length_fmap|].
  split.
  { intros i d Hd. apply numbered_lines_lookup.
    by rewrite list_lookup_fmap, Hd. }
  split.
  { intros σ Hσ.
    rewrite _execute_plan_dicts, _synthesize_results_nonempty, reorder_fmap; [done|].
    by destruct (reorder σ ds). }
  split; [apply synthesis_endswith|].
  apply step_line_rule.
Qed.

Lemma _execute_plan_lines_follow_steps_witness :
  _execute_plan
    (plan_of [ {["action" := PyStr "validate"]}; {["target" := PyStr "site"]};
               <["action" := PyStr "deploy"]> {["target" := PyInt 7]} ] None)
    simulated
  = (inr ("XAgent completed the following steps:" +:+ nl
          +:+ "1. Validated: " +:+ nl
          +:+ "2. Completed unknown on site" +:+ nl
          +:+ "3. Completed deploy on 7" +:+ nl
          +:+ nl +:+ "Task completed successfully."),
     simulated).
Proof.
  destruct (_execute_plan_lines_follow_steps simulated
              [ {["action" := PyStr "validate"]}; {["target" := PyStr "site"]};
                <["action" := PyStr "deploy"]> {["target" := PyInt 7]} ] None)
    as (_ & H & _); [discriminate|].
  etrans; [exact H|]. vm_compute. reflexivity.
Defined.

(** C3, as it stands, fails where the XAgent library is not installed: the
    instance then plans with [MockXAgent], whose steps are mock_analyze and
    mock_respond. *)
Lemma run_example_in_simulation_mode :
  tools simulated = [] ∧
  ∃ response,
    outcome (run "Calculate 5 + 3" simulated) = inr response ∧
    response = "XAgent completed the following steps:" +:+ nl
       +:+ "1. Completed mock_analyze on Calculate 5 + 3" +:+ nl
       +:+ "2. Completed mock_respond on generated_response" +:+ nl
       +:+ nl +:+ "Task completed successfully."
       +:+ nl +:+ "[Reflection] Evaluated result for input: 'Calculate 5 + 3...'" ∧
    contains "Analysis of: Calculate 5 + 3" response = false ∧
    ¬ example_response (reflection_enabled simulated) response.
Proof.
  split; [reflexivity|]. eexists.
  split; [vm_compute; reflexivity|]. split; [vm_compute; reflexivity|].
  split; [vm_compute; reflexivity|].
  intros [H _]. vm_compute in H. discriminate.
Qed.

(** C3, amended.  On an instance with zero tools whose backend has no
    [create_plan] method, so that the default policy plans,
    [run("Calculate 5 + 3")] returns a text that contains
    "Analysis of: Calculate 5 + 3", "Executed: planned_response" and
    "Validated: result" and ends with "Task completed successfully.",
    followed by the reflection suffix when reflection is enabled. *)
Theorem run_example_under_default_policy :
  ∀ (self : XAgentWrapper),
    tools self = [] →
    hasattr_create_plan (xagent self) = false →
    ∃ (response : string) (self' : XAgentWrapper),
      run "Calculate 5 + 3" self = (inr response, self') ∧
      example_response (reflection_enabled self) response.
Proof.
  intros self Ht Hx.
  rewrite run_eq_backend by (by apply default_policy_raises_only_Exception).
  eexists _, _. split; [reflexivity|].
  unfold workflow_response.
  rewrite _create_plan_default, Ht by done. unfold outcome at 1. cbn [fst].
  rewrite (_execute_plan_pure _ self simulated).
  unfold outcome at 1. cbn [fst].
  assert (outcome (_execute_plan (default_plan "Calculate 5 + 3" []) simulated)
          = inr (synthesis [ "Analysis of: Calculate 5 + 3";
                             "Executed: planned_response";
                             "Validated: result" ])) as ->
    by (vm_compute; reflexivity).
  unfold example_response.
  destruct (reflection_enabled self).
  - split; [vm_compute; reflexivity|]. split; [vm_compute; reflexivity|].
    split; [vm_compute; reflexivity|].
    eexists. split; [apply synthesis_endswith | reflexivity].
  - split; [vm_compute; reflexivity|]. split; [vm_compute; reflexivity|].
    split; [vm_compute; reflexivity|].
    eexists. split; [apply synthesis_endswith | by rewrite append_empty_r].
Qed.

Lemma run_example_under_default_policy_witness :
  ∃ (response : string) (self' : XAgentWrapper),
    run "Calculate 5 + 3" planless_no_tools = (inr response, self') ∧
    example_response (reflection_enabled planless_no_tools) response.
Proof.
  apply (run_example_under_default_policy planless_no_tools); reflexivity.
Defined.

Example run_example_text :
  outcome (run "Calculate 5 + 3" planless_no_tools)
  = inr ("XAgent completed the following steps:" +:+ nl
         +:+ "1. Analysis of: Calculate 5 + 3" +:+ nl
         +:+ "2. Executed: planned_response" +:+ nl
         +:+ "3. Validated: result" +:+ nl
         +:+ nl +:+ "Task completed successfully."
         +:+ nl +:+ "[Reflection] Evaluated result for input: 'Calculate 5 + 3...'").
Proof. vm_compute. reflexivity. Qed.

End Pipeline.

(** ** The conversational adapter *)

Module Conversational.

Import xagent_core l3agi_compatibility Spec Examples TextFacts PipelineFacts.

Lemma _format_conversation_output_has_no_marker (response : string) :
  contains "[Reflection]" (_format_conversation_output response) = false.
Proof.
  unfold _format_conversation_output.
  destruct (contains "[Reflection]" response) eqn:H; [|done].
  apply strip_no_new_occurrence, split_head_no_sep. done.
Qed.

(** [chat] does what [run] does on the formatted input, and formats the
    response. *)
Lemma chat_run (message : string) (context : option (list (gmap string PyVal)))
    (self : ConversationalXAgent) :
  ∃ (self1 : ConversationalXAgent),
    base self1 = base self ∧
    chat message context self
      = (let formatted_input := _format_conversation_input self1 message in
         (match outcome (run formatted_input (base self)) with
          | inr response => inr (_format_conversation_output response)
          | inl e => inl e
          end,
          set_base (state_after (run formatted_input (base self))) self1)).
Proof.
  unfold chat, inherited, lift. monad.
  destruct context as [[|msg context]|]; cbn [fst snd base];
    [ exists self
    | exists {| base := base self;
                conversation_context := conversation_context self ++ msg :: context;
                system_prompt := system_prompt self |}
    | exists self ];
    (split; [reflexivity|]); cbv zeta; unfold outcome, state_after;
    match goal with |- context [run ?x (base self)] =>
      destruct (run x (base self)) as [[e|r] w'] end;
    reflexivity.
Qed.

(** [chat] returns the formatted response of [run] on the formatted input. *)
Lemma chat_eq (message : string) (context : option (list (gmap string PyVal)))
    (self : ConversationalXAgent) :
  raises_only_Exception (xagent (base self)) →
  ∃ (self1 : ConversationalXAgent),
    base self1 = base self ∧
    chat message context self
      = (let formatted_input := _format_conversation_input self1 message in
         (inr (_format_conversation_output
                 (workflow_response formatted_input (base self))),
          set_base (state_after (run formatted_input (base self))) self1)).
Proof.
  intros H. destruct (chat_run message context self) as (self1 & Hb & ->).
  exists self1. split; [done|]. cbv zeta. by rewrite !run_eq_backend.
Qed.

(** C10. [chat] returns the response of [run] without its reflection suffix:
    for every response, when it contains the marker ["[Reflection]"] the text
    returned is the part before the first occurrence of the marker, stripped
    of the whitespace around it, and otherwise it is the response itself; so
    the text returned by [chat] never contains the marker.  ([chat] returns
    when [run] does, that is with a backend that raises instances of
    [Exception] only; whatever the backend, a text that [chat] returns is
    free of the marker.) *)
Theorem chat_strips_reflection_suffix :
  (∀ (response : string),
     contains "[Reflection]" (_format_conversation_output response) = false ∧
     (contains "[Reflection]" response = true →
        _format_conversation_output response
          = strip (split_head "[Reflection]" response) ∧
        contains "[Reflection]" (split_head "[Reflection]" response) = false ∧
        ∃ rest, response
                = split_head "[Reflection]" response +:+ "[Reflection]" +:+ rest) ∧
     (contains "[Reflection]" response = false →
        _format_conversation_output response = response)) ∧
  (∀ (self : ConversationalXAgent) (message : string)
     (context : option (list (gmap string PyVal))),
     raises_only_Exception (xagent (base self)) →
     ∃ (response : string) (self' : ConversationalXAgent)
       (m_user m_assistant : AgentMessage),
       chat message context self
         = (inr (_format_conversation_output response), self') ∧
       conversation_history (base self')
         = conversation_history (base self) ++ [m_user; m_assistant] ∧
       role m_assistant = "assistant" ∧
       content m_assistant = response ∧
       contains "[Reflection]" (_format_conversation_output response) = false) ∧
  (∀ (self : ConversationalXAgent) (message : string)
     (context : option (list (gmap string PyVal))) (text : string),
     outcome (chat message context self) = inr text →
     contains "[Reflection]" text = false).
Proof.
  split.
  - intros response. split; [apply _format_conversation_output_has_no_marker|].
    unfold _format_conversation_output. split; intros H; rewrite H; [|done].
    split; [done|]. split; [by apply split_head_no_sep|].
    by apply split_head_at_sep.
  - split.
    + intros self message context Hb.
      destruct (chat_eq message context self Hb) as (self1 & _ & ->).
      cbv zeta. rewrite run_eq_backend by done.
      eexists _, _, _, _. split; [reflexivity|]. simpl.
      split; [reflexivity|]. split; [reflexivity|]. split; [reflexivity|].
      apply _format_conversation_output_has_no_marker.
    + intros self message context text.
      destruct (chat_run message context self) as (self1 & _ & ->).
      cbv zeta. unfold outcome at 1. cbn [fst].
      destruct (outcome (run _ (base self))) as [e | response]; [done|].
      intros [= <-]. apply _format_conversation_output_has_no_marker.
Qed.

Lemma chat_strips_reflection_suffix_witness :
  _format_conversation_output
    ("  Task completed successfully." +:+ nl
       +:+ "[Reflection] Evaluated result for input: '[Reflection]...'")
  = "Task completed successfully.".
Proof.
  destruct chat_strips_reflection_suffix as [H _].
  destruct (H ("  Task completed successfully." +:+ nl
       +:+ "[Reflection] Evaluated result for input: '[Reflection]...'"))
    as (_ & Hm & _).
  destruct Hm as (Hm & _); [vm_compute; reflexivity|].
  etrans; [exact Hm|]. vm_compute. reflexivity.
Defined.

Example chat_simulated :
  outcome (chat "hello" None talker)
  = inr ("XAgent completed the following steps:" +:+ nl
         +:+ "1. Completed mock_analyze on You are a helpful AI assistant."
         +:+ nl +:+ nl +:+ nl +:+ "Current message: hello" +:+ nl
         +:+ "2. Completed mock_respond on generated_response" +:+ nl
         +:+ nl +:+ "Task completed successfully.").
Proof. vm_compute. reflexivity. Qed.

(** The marker inside the message itself cuts the response short as well. *)
Example chat_marker_in_message :
  outcome (chat "what is [Reflection]?" None talker)
  = inr ("XAgent completed the following steps:" +:+ nl
         +:+ "1. Completed mock_analyze on You are a helpful AI assistant."
         +:+ nl +:+ nl +:+ nl +:+ "Current message: what is").
Proof. vm_compute. reflexivity. Qed.

End Conversational.

(** ** The tools of a dialogue agent *)

Module ToolRegistry.

Import dialogue_agent_with_tools Examples.

Lemma remove_tool_loop_not_found (items : list (nat * Tool)) (tool_name : string)
    (self : DialogueAgentWithTools) :
  tool_name ∉ (derived_name ∘ snd <$> items) →
  remove_tool_loop items tool_name self = (inr false, self).
Proof.
  induction items as [|[i tool] items IH]; intros H; [done|].
  cbn [remove_tool_loop]. rewrite fmap_cons, not_elem_of_cons in H.
  destruct H as [Hne Hrest]. simpl in Hne.
  case_decide; [congruence | by apply IH].
Qed.

Lemma enumerate_snd {A} (start : nat) (l : list A) :
  snd <$> enumerate start l = l.
Proof.
  revert start. induction l as [|x l IH]; intros start; [done|].
  simpl. by rewrite IH.
Qed.

(** C8. For every tool name that is not the derived name of a tool in the
    agent's collection, [remove_tool(name)] raises nothing and returns
    [False], and it leaves the agent, and so the collection and its length,
    as they were. *)
Theorem remove_tool_of_unknown_name :
  ∀ (self : DialogueAgentWithTools) (tool_name : string),
    tool_name ∉ (derived_name <$> deref self (tools self)) →
    remove_tool tool_name self = (inr false, self) ∧
    let self' := state_after (remove_tool tool_name self) in
    deref self' (tools self') = deref self (tools self) ∧
    length (deref self' (tools self')) = length (deref self (tools self)) ∧
    deref self' (xagent_tools self') = deref self (xagent_tools self).
Proof.
  intros self tool_name H.
  assert (remove_tool tool_name self = (inr false, self)) as Heq.
  { unfold remove_tool, bind, get.
    apply remove_tool_loop_not_found.
    by rewrite list_fmap_compose, enumerate_snd. }
  rewrite Heq. done.
Qed.

Lemma remove_tool_of_unknown_name_witness :
  remove_tool "translator" helper = (inr false, helper).
Proof.
  apply (remove_tool_of_unknown_name helper "translator").
  apply (bool_decide_unpack _). vm_compute. exact I.
Defined.

Example remove_tool_registered :
  outcome (remove_tool "web_search"
             (dialogue_agent_with_tools.__init__ "helper" "sys" None)) = inr false ∧
  derived_name calculator = "calculator" ∧
  derived_name web_search = "web_search".
Proof. repeat split; vm_compute; reflexivity. Qed.

End ToolRegistry.

(** ** More about the pipeline *)

Module PipelineExtra.

Import xagent_core Client ClientExtra Spec Examples TextFacts PipelineFacts.

Lemma call_history (c : Call) (w : XAgentWrapper) (n : nat) :
  raises_only_Exception (xagent w) →
  role <$> conversation_history w = turns n →
  role <$> conversation_history (call c w) = turns (pending_runs [c] n).
Proof.
  intros Hb H. destruct c as [x | x | |]; unfold call.
  - rewrite run_eq_backend by done. simpl. by rewrite fmap_app, H.
  - by rewrite _create_plan_frame.
  - done.
  - done.
Qed.

Lemma pending_runs_cons (c : Call) (cs : list Call) (n : nat) :
  pending_runs (c :: cs) n = pending_runs cs (pending_runs [c] n).
Proof. by destruct c. Qed.

(** X1. With a backend that raises instances of [Exception] only, the
    conversation history is a sequence of exchanges: if it is [n]
    user/assistant pairs before, then after any sequence of calls of the
    public methods it is again such a sequence, with one pair for each [run]
    since the last [clear_memory].  (A run that is interrupted while the
    backend plans leaves a user message without its answer: see
    [interrupted_run_breaks_the_exchanges].) *)
Theorem history_is_a_sequence_of_exchanges :
  ∀ (cs : list Call) (self : XAgentWrapper) (n : nat),
    raises_only_Exception (xagent self) →
    role <$> conversation_history self = turns n →
    role <$> conversation_history (calls cs self) = turns (pending_runs cs n) ∧
    length (conversation_history (calls cs self)) = 2 * pending_runs cs n.
Proof.
  assert (∀ n, length (turns n) = 2 * n) as Hlen.
  { induction n as [|n IH]; [done|]. simpl. rewrite length_app, IH. simpl. lia. }
  intros cs self n Hb H.
  assert (role <$> conversation_history (calls cs self) = turns (pending_runs cs n))
    as Hr.
  { revert self n Hb H. induction cs as [|c cs IH]; intros self n Hb H; [done|].
    rewrite pending_runs_cons. unfold calls. simpl. apply IH.
    - destruct (call_setup c self) as (-> & _). done.
    - by apply call_history. }
  split; [done|].
  by rewrite <- (length_fmap role), Hr.
Qed.

Lemma history_is_a_sequence_of_exchanges_witness :
  role <$> conversation_history
             (calls [CallRun "a"; CallClearMemory; CallRun "b"; CallCreatePlan "c";
                     CallRun "d"] failing)
  = ["user"; "assistant"; "user"; "assistant"].
Proof.
  apply (history_is_a_sequence_of_exchanges
           [CallRun "a"; CallClearMemory; CallRun "b"; CallCreatePlan "c";
            CallRun "d"] failing 0).
  - intros f x e H. vm_compute in H. injection H as <-.
    intros H. injection H as <-. reflexivity.
  - reflexivity.
Defined.

Example interrupted_run_breaks_the_exchanges :
  role <$> conversation_history (calls [CallRun "a"; CallRun "b"] interrupted)
  = ["user"; "user"].
Proof. vm_compute. reflexivity. Qed.

(** X2. A plan that is not well formed makes [_execute_plan] raise, whatever
    came before the defect: a value without [get] in place of the plan dict, a
    value that cannot be iterated under ["steps"], or a list of steps whose
    first element that is not a dict comes after any number of proper steps.
    The lines of the steps before it are lost, and the instance is as before.
    A text under ["steps"] is iterated character by character, so it fails on
    its first character, or counts as no steps when it is empty. *)
Theorem _execute_plan_of_malformed_plans :
  ∀ (self : XAgentWrapper) (tn : option (list string)),
    (∀ v, _execute_plan (PlanObj v) self = (inl (AttributeError v "get"), self)) ∧
    (∀ v, (∀ s, v ≠ PyStr s) →
       _execute_plan (Plan {| steps := Some (StepsObj v); tools_needed := tn |}) self
       = (inl (not_iterable v), self)) ∧
    (∀ (ds : list (gmap string PyVal)) v rest,
       _execute_plan (Plan {| steps := Some (StepsList ((StepDict <$> ds)
                                                          ++ StepObj v :: rest));
                              tools_needed := tn |}) self
       = (inl (AttributeError v "get"), self)) ∧
    (∀ c s,
       _execute_plan (Plan {| steps := Some (StepsObj (PyStr (String c s)));
                              tools_needed := tn |}) self
       = (inl (AttributeError (PyStr (String c "")) "get"), self)) ∧
    _execute_plan (Plan {| steps := Some (StepsObj (PyStr "")); tools_needed := tn |})
                  self
      = (inr "No results to synthesize", self).
Proof.
  intros self tn. split; [done|]. split.
  { intros v Hv. destruct v as [| b | n | s]; try done. by destruct (Hv s). }
  split; [|split; done].
  intros ds v rest. unfold _execute_plan. monad. simpl.
  assert (∀ results,
            execute_steps ((StepDict <$> ds) ++ StepObj v :: rest) results self
            = (inl (AttributeError v "get"), self)) as ->; [|done].
  induction ds as [|d ds IH]; intros results; [done|].
  cbn [fmap list_fmap app execute_steps]. monad. rewrite _execute_step_dict.
  apply IH.
Qed.

Example run_on_half_good_plan :
  outcome (_execute_plan
             (Plan {| steps := Some (StepsList [ step "analyze" "x"; StepObj PyNone;
                                                 step "validate" "y" ]);
                      tools_needed := None |}) simulated)
  = inl (Raise "AttributeError" "'NoneType' object has no attribute 'get'").
Proof. vm_compute. reflexivity. Qed.

End PipelineExtra.

(** ** More about the tools of a dialogue agent *)

Module ToolRegistryExtra.

Import dialogue_agent_with_tools Examples.

Ltac monad := unfold bind, ret, raise, get, modify, try_except.

Lemma deref_assign_eq (self : DialogueAgentWithTools) (ref : nat) (l : list Tool) :
  deref (state_after (assign ref l self)) ref = l.
Proof. unfold deref, assign, state_after. monad. simpl. by rewrite lookup_insert_eq. Qed.

Lemma deref_assign_ne (self : DialogueAgentWithTools) (ref ref' : nat) (l : list Tool) :
  ref ≠ ref' → deref (state_after (assign ref l self)) ref' = deref self ref'.
Proof.
  intros H. unfold deref, assign, state_after. monad. simpl.
  by rewrite lookup_insert_ne.
Qed.

Lemma remove_first_unique (t : Tool) (pre post : list Tool) :
  t ∉ pre → remove_first t (pre ++ t :: post) = Some (pre ++ post).
Proof.
  induction pre as [|y pre IH]; intros H; simpl.
  - by rewrite decide_True.
  - apply not_elem_of_cons in H as [Hne Hpre].
    rewrite decide_False by done. by rewrite IH.
Qed.

Lemma remove_first_absent (t : Tool) (l : list Tool) :
  t ∉ l → remove_first t l = None.
Proof.
  induction l as [|y l IH]; intros H; [done|]. simpl.
  apply not_elem_of_cons in H as [Hne Hl].
  rewrite decide_False by done. by rewrite IH.
Qed.

Lemma not_named_not_elem (t : Tool) (l : list Tool) :
  derived_name t ∉ (derived_name <$> l) → t ∉ l.
Proof. intros H Ht. apply H. by apply list_elem_of_fmap_2. Qed.

(** The loop reaches the first tool with the name; what it does there. *)
Lemma remove_tool_loop_found (k : nat) (pre : list Tool) (t : Tool) (post : list Tool)
    (tool_name : string) (self : DialogueAgentWithTools) :
  tool_name ∉ (derived_name <$> pre) →
  derived_name t = tool_name →
  remove_tool_loop (enumerate k (pre ++ t :: post)) tool_name self
  = (removed_tool <- tools_pop (k + length pre) ;;
     xagent_tools_remove removed_tool ;;;
     logger_info ("Tool removed: " +:+ tool_name) ;;;
     ret true) self.
Proof.
  revert k. induction pre as [|y pre IH]; intros k Hpre Ht.
  - cbn [app enumerate remove_tool_loop length]. rewrite decide_True by done.
    by rewrite Nat.add_0_r.
  - cbn [app enumerate remove_tool_loop length].
    rewrite fmap_cons in Hpre. apply not_elem_of_cons in Hpre as [Hne Hpre].
    rewrite decide_False by done. rewrite IH by done.
    by replace (S k + length pre) with (k + S (length pre)) by lia.
Qed.

(** X3. When [self.tools] and [self.xagent.tools] are two lists with the same
    content, [remove_tool(name)] for the name of a tool in them returns [True]
    and takes the first tool of that name out of both lists, which stay equal;
    the removal is logged. *)
Theorem remove_tool_from_separate_lists :
  ∀ (self : DialogueAgentWithTools) (tool_name : string)
    (pre : list Tool) (t : Tool) (post : list Tool),
    tools self ≠ xagent_tools self →
    deref self (tools self) = pre ++ t :: post →
    deref self (xagent_tools self) = pre ++ t :: post →
    tool_name ∉ (derived_name <$> pre) →
    derived_name t = tool_name →
    ∃ self',
      remove_tool tool_name self = (inr true, self') ∧
      deref self' (tools self') = pre ++ post ∧
      deref self' (xagent_tools self') = pre ++ post ∧
      logger self' = logger self ++ [INFO ("Tool removed: " +:+ tool_name)].
Proof.
  intros self tool_name pre t post Hne Hl Hx Hpre Ht.
  unfold remove_tool. unfold bind at 1. unfold get at 1. rewrite Hl.
  rewrite remove_tool_loop_found by done. simpl.
  unfold tools_pop. monad. rewrite Hl.
  rewrite list_lookup_middle by done.
  set (self1 := state_after (assign (tools self) (delete (length pre) (pre ++ t :: post)) self)).
  assert (assign (tools self) (delete (length pre) (pre ++ t :: post)) self
          = (inr (), self1)) as -> by done.
  unfold xagent_tools_remove. monad.
  assert (deref self1 (xagent_tools self1) = pre ++ t :: post) as ->.
  { unfold self1. rewrite <- Hx. by apply deref_assign_ne. }
  rewrite remove_first_unique
    by (apply not_named_not_elem; by rewrite Ht).
  eexists. split; [reflexivity|]. unfold deref. simpl.
  rewrite lookup_insert_ne by done. rewrite !lookup_insert_eq. simpl.
  split; [apply delete_middle | done].
Qed.

End ToolRegistryExtra.

(** ** More about texts *)

Module TextFactsExtra.

Import PyExtra TextFacts.

Lemma contains_refl (s : string) : contains s s = true.
Proof. apply contains_spec. exists "", "". simpl. by rewrite append_empty_r. Qed.

Lemma contains_append_l (sub a b : string) :
  contains sub a = true → contains sub (a +:+ b) = true.
Proof.
  intros H. pose proof (contains_infix sub "" a b H) as H'. by simpl in H'.
Qed.

Lemma contains_append_r (sub a b : string) :
  contains sub b = true → contains sub (a +:+ b) = true.
Proof.
  intros H. pose proof (contains_infix sub a b "" H) as H'.
  by rewrite append_empty_r in H'.
Qed.

Lemma contains_trans (a b c : string) :
  contains a b = true → contains b c = true → contains a c = true.
Proof.
  intros H (f & k & ->)%contains_spec. by apply contains_infix.
Qed.

Lemma lower_append (a b : string) : lower (a +:+ b) = lower a +:+ lower b.
Proof. induction a as [|c a IH]; simpl; [done | by rewrite IH]. Qed.

Lemma contains_lower (sub s : string) :
  contains sub s = true → contains (lower sub) (lower s) = true.
Proof.
  intros (f & k & ->)%contains_spec. rewrite !lower_append.
  apply contains_infix, contains_refl.
Qed.

Lemma contains_join_with (sep x : string) (l : list string) :
  x ∈ l → contains x (join_with sep l) = true.
Proof.
  induction l as [|y l IH]; intros H; [by apply elem_of_nil in H|].
  apply elem_of_cons in H as [-> | H].
  - destruct l; simpl; [apply contains_refl|].
    apply contains_append_l, contains_refl.
  - destruct l as [|z l]; [by apply elem_of_nil in H|].
    cbn [join_with]. do 2 apply contains_append_r. by apply IH.
Qed.

End TextFactsExtra.

(** ** Adding and removing tools *)

Module ToolLists.

Import dialogue_agent_with_tools dialogue_agent Examples DialogueExamples.
Import ToolRegistryExtra.

Lemma remove_tool_from_separate_lists_witness :
  ∃ self',
    remove_tool "calculator" grown = (inr true, self') ∧
    deref self' (tools self') = [web_search] ∧
    deref self' (xagent_tools self') = [web_search] ∧
    logger self' = logger grown ++ [INFO "Tool removed: calculator"].
Proof.
  apply (remove_tool_from_separate_lists grown "calculator" [] calculator [web_search]).
  - vm_compute. discriminate.
  - reflexivity.
  - reflexivity.
  - apply not_elem_of_nil.
  - reflexivity.
Defined.

(** Whatever [remove_tool] does, [self.tools] and [self.xagent.tools] keep
    pointing to the lists they pointed to. *)
Lemma remove_tool_refs (tool_name : string) (self : DialogueAgentWithTools) :
  tools (state_after (remove_tool tool_name self)) = tools self ∧
  xagent_tools (state_after (remove_tool tool_name self)) = xagent_tools self.
Proof.
  unfold remove_tool, bind, get.
  generalize (enumerate 0 (deref self (tools self))) as items.
  induction items as [|[i y] items IH]; [done|].
  cbn [remove_tool_loop]. case_decide; [|apply IH].
  unfold tools_pop, xagent_tools_remove, state_after. monad.
  destruct (deref self (tools self) !! i); [|done]. simpl.
  by destruct (remove_first _ _).
Qed.

(** The removal from two lists, which need not have the same content. *)
Lemma remove_tool_separate (self : DialogueAgentWithTools) (tool_name : string)
    (pre : list Tool) (t : Tool) (post xpre xpost : list Tool) :
  tools self ≠ xagent_tools self →
  deref self (tools self) = pre ++ t :: post →
  deref self (xagent_tools self) = xpre ++ t :: xpost →
  tool_name ∉ (derived_name <$> pre) →
  derived_name t = tool_name →
  t ∉ xpre →
  ∃ self',
    remove_tool tool_name self = (inr true, self') ∧
    deref self' (tools self') = pre ++ post ∧
    deref self' (xagent_tools self') = xpre ++ xpost.
Proof.
  intros Hne Hl Hx Hpre Ht Hxpre.
  unfold remove_tool. unfold bind at 1. unfold get at 1. rewrite Hl.
  rewrite remove_tool_loop_found by done. simpl.
  unfold tools_pop. monad. rewrite Hl.
  rewrite list_lookup_middle by done. rewrite delete_middle.
  set (self1 := state_after (assign (tools self) (pre ++ post) self)).
  assert (assign (tools self) (pre ++ post) self = (inr (), self1)) as -> by done.
  unfold xagent_tools_remove. monad.
  assert (deref self1 (xagent_tools self1) = xpre ++ t :: xpost) as ->.
  { change (xagent_tools self1) with (xagent_tools self).
    rewrite <- Hx. by apply deref_assign_ne. }
  rewrite remove_first_unique by done.
  eexists. split; [reflexivity|]. unfold deref. simpl.
  rewrite lookup_insert_ne by done. by rewrite !lookup_insert_eq.
Qed.

Lemma remove_tool_shared :
  ∀ (self : DialogueAgentWithTools) (tool_name : string)
    (pre : list Tool) (t : Tool) (post : list Tool),
    tools self = xagent_tools self →
    deref self (tools self) = pre ++ t :: post →
    tool_name ∉ (derived_name <$> pre) →
    derived_name t = tool_name →
    (t ∉ post →
       ∃ self',
         remove_tool tool_name self = (inl not_in_list, self') ∧
         deref self' (tools self') = pre ++ post ∧
         logger self' = logger self) ∧
    (∀ post1 post2, post = post1 ++ t :: post2 → t ∉ post1 →
       ∃ self',
         remove_tool tool_name self = (inr true, self') ∧
         deref self' (tools self') = pre ++ post1 ++ post2).
Proof.
  intros self tool_name pre t post Hsame Hl Hpre Ht.
  assert (t ∉ pre) as Htpre by (apply not_named_not_elem; by rewrite Ht).
  assert (∀ r,
    remove_first t (pre ++ post) = r →
    remove_tool tool_name self
    = match r with
      | Some l =>
          (logger_info ("Tool removed: " +:+ tool_name) ;;; ret true)
            (state_after (assign (tools self) l
               (state_after (assign (tools self) (pre ++ post) self))))
      | None => (inl not_in_list,
                 state_after (assign (tools self) (pre ++ post) self))
      end) as Hrun.
  { intros r Hr. unfold remove_tool. unfold bind at 1. unfold get at 1. rewrite Hl.
    rewrite remove_tool_loop_found by done. simpl.
    unfold tools_pop. monad. rewrite Hl.
    rewrite list_lookup_middle by done. rewrite delete_middle.
    set (self1 := state_after (assign (tools self) (pre ++ post) self)).
    assert (assign (tools self) (pre ++ post) self = (inr (), self1)) as -> by done.
    unfold xagent_tools_remove. monad.
    assert (deref self1 (xagent_tools self1) = pre ++ post) as ->.
    { change (xagent_tools self1) with (xagent_tools self).
      rewrite <- Hsame. apply deref_assign_eq. }
    rewrite Hr. destruct r; [|done].
    assert (xagent_tools self1 = tools self) as -> by (by rewrite Hsame).
    done. }
  split.
  - intros Hpost. eexists. rewrite (Hrun None).
    + split; [reflexivity|]. split; [apply deref_assign_eq | done].
    + apply remove_first_absent. rewrite elem_of_app. tauto.
  - intros post1 post2 -> Hpost1. eexists.
    rewrite (Hrun (Some (pre ++ post1 ++ post2))).
    + split; [reflexivity|].
      unfold deref. simpl. by rewrite lookup_insert_eq.
    + rewrite app_assoc. rewrite remove_first_unique; [by rewrite app_assoc|].
      rewrite elem_of_app. tauto.
Qed.

(** X4. When [self.tools] and [self.xagent.tools] are one and the same list, as
    they are in an agent built from a list of tools that is not empty,
    [remove_tool(name)] takes the first tool of that name out of the list and
    then looks for an equal tool in what is left, that is for the same object
    listed once more: if there is none the call raises [ValueError], and the
    tool is gone all the same; if there is one, that one is taken out as well
    and the call returns [True].  Another object that merely looks the same
    is not equal: see [remove_tool_with_a_look_alike]. *)
Theorem remove_tool_from_shared_list :
  ∀ (self : DialogueAgentWithTools) (tool_name : string)
    (pre : list Tool) (t : Tool) (post : list Tool),
    tools self = xagent_tools self →
    deref self (tools self) = pre ++ t :: post →
    tool_name ∉ (derived_name <$> pre) →
    derived_name t = tool_name →
    (t ∉ post →
       ∃ self',
         remove_tool tool_name self = (inl not_in_list, self') ∧
         deref self' (tools self') = pre ++ post ∧
         logger self' = logger self) ∧
    (∀ post1 post2, post = post1 ++ t :: post2 → t ∉ post1 →
       ∃ self',
         remove_tool tool_name self = (inr true, self') ∧
         deref self' (tools self') = pre ++ post1 ++ post2).
Proof. exact remove_tool_shared. Qed.

Lemma remove_tool_from_shared_list_witness :
  ∃ self',
    remove_tool "web_search" helper = (inl not_in_list, self') ∧
    deref self' (tools self') = [calculator] ∧
    logger self' = logger helper.
Proof.
  destruct (remove_tool_from_shared_list helper "web_search"
              [calculator] web_search []) as [H _].
  - reflexivity.
  - reflexivity.
  - vm_compute. intros H. repeat (apply elem_of_cons in H as [H | H]; [discriminate|]).
    by apply elem_of_nil in H.
  - reflexivity.
  - apply H, not_elem_of_nil.
Defined.

Example remove_tool_with_a_look_alike :
  let self := dialogue_agent_with_tools.__init__ "helper" "sys"
                (Some [calculator; calculator_twin]) in
  calculator ≠ calculator_twin ∧
  outcome (remove_tool "calculator" self) = inl not_in_list ∧
  deref (state_after (remove_tool "calculator" self)) 0 = [calculator_twin].
Proof. split; [discriminate|]. split; vm_compute; reflexivity. Qed.

Example remove_tool_listed_twice :
  let self := dialogue_agent_with_tools.__init__ "helper" "sys"
                (Some [calculator; web_search; calculator]) in
  outcome (remove_tool "calculator" self) = inr true ∧
  deref (state_after (remove_tool "calculator" self)) 0 = [web_search].
Proof. split; vm_compute; reflexivity. Qed.

Lemma add_tool_lists :
  ∀ (self : DialogueAgentWithTools) (t : Tool),
    ∃ self',
      add_tool t self = (inr (), self') ∧
      tools self' = tools self ∧ xagent_tools self' = xagent_tools self ∧
      logger self' = logger self ++ [INFO ("Tool added: " +:+ derived_name t)] ∧
      (tools self ≠ xagent_tools self →
         deref self' (tools self') = deref self (tools self) ++ [t] ∧
         deref self' (xagent_tools self') = deref self (xagent_tools self) ++ [t]) ∧
      (tools self = xagent_tools self →
         deref self' (tools self') = deref self (tools self) ++ [t; t] ∧
         length (deref self' (tools self')) = length (deref self (tools self)) + 2).
Proof.
  intros self t. eexists. split; [reflexivity|].
  split; [done|]. split; [done|]. split; [done|].
  unfold deref. simpl. split.
  - intros Hne. rewrite lookup_insert_eq.
    rewrite lookup_insert_ne by done. rewrite lookup_insert_eq.
    rewrite lookup_insert_ne by done. done.
  - intros ->. rewrite !lookup_insert_eq. simpl.
    rewrite <- app_assoc. split; [done|]. rewrite !length_app. simpl. lia.
Qed.

(** X5. [add_tool(tool)] appends the tool to [self.tools] and to
    [self.xagent.tools]: two lists get one tool each, but when both are one and
    the same list that list gets the tool twice. *)
Theorem add_tool_appends_to_both_lists :
  ∀ (self : DialogueAgentWithTools) (t : Tool),
    ∃ self',
      add_tool t self = (inr (), self') ∧
      tools self' = tools self ∧ xagent_tools self' = xagent_tools self ∧
      logger self' = logger self ++ [INFO ("Tool added: " +:+ derived_name t)] ∧
      (tools self ≠ xagent_tools self →
         deref self' (tools self') = deref self (tools self) ++ [t] ∧
         deref self' (xagent_tools self') = deref self (xagent_tools self) ++ [t]) ∧
      (tools self = xagent_tools self →
         deref self' (tools self') = deref self (tools self) ++ [t; t] ∧
         length (deref self' (tools self')) = length (deref self (tools self)) + 2).
Proof. exact add_tool_lists. Qed.

Lemma add_tool_appends_to_both_lists_witness :
  ∃ self',
    add_tool web_search helper = (inr (), self') ∧
    deref self' (tools self') = [calculator; web_search; web_search; web_search].
Proof.
  destruct (add_tool_appends_to_both_lists helper web_search)
    as (self' & H & _ & _ & _ & _ & Hshared).
  exists self'. split; [exact H|].
  destruct Hshared as [Hl _]; [reflexivity|].
  etrans; [exact Hl|]. reflexivity.
Defined.

(** X6. [add_tool(tool)] followed by [remove_tool] of the tool's name returns
    [True] and brings both tool lists back to what they were, provided no tool
    of that name was registered before, whether the two lists are one list or
    two (with no equal tool in the second). *)
Theorem add_tool_then_remove_tool :
  ∀ (self : DialogueAgentWithTools) (t : Tool),
    derived_name t ∉ (derived_name <$> deref self (tools self)) →
    t ∉ deref self (xagent_tools self) →
    ∃ self1 self2,
      add_tool t self = (inr (), self1) ∧
      remove_tool (derived_name t) self1 = (inr true, self2) ∧
      deref self2 (tools self2) = deref self (tools self) ∧
      deref self2 (xagent_tools self2) = deref self (xagent_tools self).
Proof.
  intros self t Hname Hx.
  destruct (add_tool_lists self t)
    as (self1 & Hadd & Ht & Hxt & _ & Hsep & Hshared).
  exists self1. rewrite Hadd.
  destruct (decide (tools self = xagent_tools self)) as [Heq | Hne].
  - destruct (Hshared Heq) as [Hl _].
    destruct (remove_tool_shared self1 (derived_name t)
                (deref self (tools self)) t [t]) as [_ H]; try done.
    { congruence. }
    destruct (H [] [] eq_refl) as (self2 & Hrm & Hl2); [apply not_elem_of_nil|].
    exists self2. rewrite app_nil_r in Hl2.
    split; [done|]. split; [done|]. split; [done|].
    destruct (remove_tool_refs (derived_name t) self1) as [Hr1 Hr2].
    rewrite Hrm in Hr1, Hr2. unfold state_after in Hr1, Hr2. simpl in Hr1, Hr2.
    assert (xagent_tools self2 = tools self2) as -> by congruence.
    by rewrite Hl2, Heq.
  - destruct (Hsep Hne) as [Hl Hxl].
    destruct (remove_tool_separate self1 (derived_name t)
                (deref self (tools self)) t [] (deref self (xagent_tools self)) [])
      as (self2 & Hrm & Hl2 & Hxl2); try done.
    { congruence. }
    exists self2. rewrite !app_nil_r in *. done.
Qed.

Lemma add_tool_then_remove_tool_witness :
  ∃ self1 self2,
    dialogue_agent.add_tool described_search helper = (inr (), self1) ∧
    dialogue_agent_with_tools.remove_tool (derived_name described_search) self1
      = (inr true, self2) ∧
    dialogue_agent_with_tools.deref self2 (dialogue_agent_with_tools.tools self2)
      = [calculator; web_search].
Proof.
  destruct (add_tool_then_remove_tool helper described_search)
    as (self1 & self2 & H1 & H2 & H3 & _).
  - apply (bool_decide_unpack _). vm_compute. exact I.
  - apply (bool_decide_unpack _). vm_compute. exact I.
  - exists self1, self2. split; [exact H1|]. split; [exact H2|].
    etrans; [exact H3|]. reflexivity.
Defined.

End ToolLists.

(** ** The dialogue adapter [DialogueAgentWithToolsXAgent] *)

Module DialogueXAgentFacts.

Import xagent_core PyExtra dialogue_xagent Spec Examples DialogueExamples.
Import TextFacts TextFactsExtra PipelineFacts.

Lemma tool_entry_ok (err : Tool → string) (t : Tool)
    (self : DialogueAgentWithToolsXAgent) :
  nameless_described t = false →
  ∃ entry, tool_entry err t self = (inr entry, self).
Proof.
  unfold tool_entry, nameless_described.
  destruct (tool_description t); [destruct (tool__name__ t)|]; intros H;
    try done; by eexists.
Qed.

Lemma tool_entry_fail (err : Tool → string) (t : Tool)
    (self : DialogueAgentWithToolsXAgent) :
  nameless_described t = true →
  tool_entry err t self = (inl (Raise "AttributeError" (err t)), self).
Proof.
  unfold tool_entry, nameless_described.
  destruct (tool_description t); [destruct (tool__name__ t)|]; by intros H.
Qed.

Lemma tool_entries_ok (err : Tool → string) (ts : list Tool) (acc : list string)
    (self : DialogueAgentWithToolsXAgent) :
  Forall (λ t, nameless_described t = false) ts →
  ∃ entries, tool_entries err ts acc self = (inr (acc ++ entries), self) ∧
             length entries = length ts.
Proof.
  intros H. revert acc. induction H as [|t ts Ht _ IH]; intros acc.
  - exists []. by rewrite app_nil_r.
  - cbn [tool_entries]. unfold bind.
    destruct (tool_entry_ok err t self Ht) as [entry ->].
    destruct (IH (acc ++ [entry])) as (entries & -> & Hlen).
    exists (entry :: entries). rewrite <- app_assoc. split; [done|].
    simpl. by rewrite Hlen.
Qed.

Lemma tool_entries_fail (err : Tool → string) (pre : list Tool) (t : Tool)
    (post : list Tool) (acc : list string) (self : DialogueAgentWithToolsXAgent) :
  Forall (λ t, nameless_described t = false) pre →
  nameless_described t = true →
  tool_entries err (pre ++ t :: post) acc self
  = (inl (Raise "AttributeError" (err t)), self).
Proof.
  intros H Ht. revert acc. induction H as [|y pre Hy _ IH]; intros acc.
  - cbn [app tool_entries]. unfold bind. by rewrite tool_entry_fail.
  - cbn [app tool_entries]. unfold bind.
    destruct (tool_entry_ok err y self Hy) as [entry ->]. apply IH.
Qed.

Lemma _prepare_tool_context_ok (err : Tool → string)
    (self : DialogueAgentWithToolsXAgent) :
  Forall (λ t, nameless_described t = false) (tools (base self)) →
  ∃ text, _prepare_tool_context err self = (inr text, self).
Proof.
  intros H. unfold _prepare_tool_context. monad.
  destruct (tools (base self)) as [|t ts] eqn:E; [by eexists|].
  destruct (tool_entries_ok err (t :: ts) [] self H) as (entries & -> & _).
  by eexists.
Qed.

Lemma _prepare_tool_context_fail (err : Tool → string)
    (self : DialogueAgentWithToolsXAgent) (pre : list Tool) (t : Tool)
    (post : list Tool) :
  tools (base self) = pre ++ t :: post →
  Forall (λ t, nameless_described t = false) pre →
  nameless_described t = true →
  _prepare_tool_context err self = (inl (Raise "AttributeError" (err t)), self).
Proof.
  intros E Hpre Ht. unfold _prepare_tool_context. monad. rewrite E.
  destruct (pre ++ t :: post) as [|y l] eqn:E'; [by destruct pre|].
  rewrite <- E'. by rewrite tool_entries_fail.
Qed.

Lemma send_ok (err : Tool → string) (message : string)
    (self : DialogueAgentWithToolsXAgent) :
  raises_only_Exception (xagent (base self)) →
  Forall (λ t, nameless_described t = false) (tools (base self)) →
  send err message self
  = (inr ("[" +:+ agent_name (base self) +:+ "]: "
            +:+ workflow_response (enhanced_message self message) (base self)),
     set_base (state_after (run (enhanced_message self message) (base self))) self).
Proof.
  intros Hb H. unfold send. unfold bind at 1.
  destruct (_prepare_tool_context_ok err self H) as [text ->].
  unfold inherited, lift, _format_dialogue_response. monad.
  rewrite run_eq_backend by done. reflexivity.
Qed.

Lemma send_fail (err : Tool → string) (message : string)
    (self : DialogueAgentWithToolsXAgent) (pre : list Tool) (t : Tool)
    (post : list Tool) :
  tools (base self) = pre ++ t :: post →
  Forall (λ t, nameless_described t = false) pre →
  nameless_described t = true →
  send err message self = (inl (Raise "AttributeError" (err t)), self).
Proof.
  intros E Hpre Ht. unfold send. unfold bind at 1.
  by rewrite (_prepare_tool_context_fail err self pre t post).
Qed.

Lemma enhanced_message_contains_message (self : DialogueAgentWithToolsXAgent)
    (message : string) :
  contains message (enhanced_message self message) = true.
Proof.
  unfold enhanced_message.
  do 12 apply contains_append_r. apply contains_append_l, contains_refl.
Qed.

Lemma enhanced_message_contains_tool (self : DialogueAgentWithToolsXAgent)
    (message : string) (t : Tool) :
  t ∈ tools (base self) →
  contains (tool_str t) (enhanced_message self message) = true.
Proof.
  intros H. unfold enhanced_message.
  do 8 apply contains_append_r. apply contains_append_l.
  apply contains_join_with. by apply list_elem_of_fmap_2.
Qed.

(** X7. [DialogueAgentWithToolsXAgent.send] does not have the guard of [run]:
    when one of the tools has a [description] but no [__name__], building the
    tool context reads [tool.__name__] and the [AttributeError] reaches the
    caller of [send]; nothing has been run or recorded by then. *)
Theorem xagent_send_raises_on_nameless_tool :
  ∀ (err : Tool → string) (self : DialogueAgentWithToolsXAgent) (message : string)
    (pre : list Tool) (t : Tool) (post : list Tool),
    tools (base self) = pre ++ t :: post →
    Forall (λ t, nameless_described t = false) pre →
    nameless_described t = true →
    send err message self = (inl (Raise "AttributeError" (err t)), self).
Proof. intros. by eapply send_fail. Qed.

Lemma xagent_send_raises_on_nameless_tool_witness :
  send tool_class_error "hello" (dialogue_agent.the_xagent fragile)
  = (inl (Raise "AttributeError" "'Tool' object has no attribute '__name__'"),
     dialogue_agent.the_xagent fragile).
Proof.
  apply (xagent_send_raises_on_nameless_tool tool_class_error
           (dialogue_agent.the_xagent fragile) "hello"
           [calculator] described_search []).
  - reflexivity.
  - repeat constructor.
  - reflexivity.
Defined.

(** X8. When every tool that has a [description] has a [__name__] too, and
    the backend raises instances of [Exception] only, so that [run] returns,
    [DialogueAgentWithToolsXAgent.send] returns the response of [run] behind
    the agent's name in brackets.  What [run] receives, and records as the user
    message, is not the message itself but a text around it that also lists
    the [str] of every tool. *)
Theorem xagent_send_wraps_run :
  ∀ (err : Tool → string) (self : DialogueAgentWithToolsXAgent) (message : string),
    raises_only_Exception (xagent (base self)) →
    Forall (λ t, nameless_described t = false) (tools (base self)) →
    ∃ (response : string) (self' : DialogueAgentWithToolsXAgent)
      (m_user m_assistant : AgentMessage),
      send err message self
        = (inr ("[" +:+ agent_name (base self) +:+ "]: " +:+ response), self') ∧
      run (enhanced_message self message) (base self) = (inr response, base self') ∧
      conversation_history (base self')
        = conversation_history (base self) ++ [m_user; m_assistant] ∧
      content m_user = enhanced_message self message ∧
      content m_assistant = response ∧
      contains message (content m_user) = true ∧
      (∀ t, t ∈ tools (base self) → contains (tool_str t) (content m_user) = true).
Proof.
  intros err self message Hb H. rewrite send_ok by done.
  eexists _, _, _, _. split; [reflexivity|].
  rewrite run_eq_backend by done.
  simpl. split; [reflexivity|]. split; [reflexivity|].
  split; [reflexivity|]. split; [reflexivity|].
  split; [apply enhanced_message_contains_message|].
  intros t. apply enhanced_message_contains_tool.
Qed.

Lemma xagent_send_wraps_run_witness :
  outcome (send tool_class_error "hello" (dialogue_agent.the_xagent assistant))
  = inr ("[helper]: XAgent completed the following steps:" +:+ nl
         +:+ "1. Completed mock_analyze on " +:+ nl
         +:+ "Agent Role: assistant" +:+ nl
         +:+ "Description: Tool-enabled agent helper" +:+ nl
         +:+ "Available Tools: <function calculator>, web_search" +:+ nl +:+ nl
         +:+ "User Message: hello" +:+ nl +:+ nl
         +:+ "2. Completed mock_respond on generated_response" +:+ nl +:+ nl
         +:+ "Task completed successfully." +:+ nl
         +:+ "[Reflection] Evaluated result for input: '" +:+ nl
         +:+ "Agent Role: assistant" +:+ nl
         +:+ "Description: Tool-enabled a...'").
Proof.
  destruct (xagent_send_wraps_run tool_class_error
              (dialogue_agent.the_xagent assistant) "hello")
    as (response & self' & mu & ma & Hs & Hr & _).
  - exact (Mock_raises_only_Exception _).
  - repeat constructor.
  - rewrite Hs. unfold outcome. cbn [fst]. f_equal.
    assert (inr response
            = outcome (run (enhanced_message (dialogue_agent.the_xagent assistant) "hello")
                           (base (dialogue_agent.the_xagent assistant)))) as Hresp
      by (by rewrite Hr).
    vm_compute in Hresp. injection Hresp as ->. vm_compute. reflexivity.
Defined.

End DialogueXAgentFacts.

(** ** The rest of [DialogueAgentWithTools] *)

Module DialogueAgentFacts.

Import PyExtra dialogue_agent_with_tools dialogue_agent.
Import Spec Examples DialogueExamples DialogueSpec.
Import TextFacts TextFactsExtra PipelineFacts DialogueXAgentFacts.

Module X := dialogue_xagent.
Module C := xagent_core.

Lemma agent_send_ok (err : Tool → string) (message : string) (self : DialogueAgent) :
  raises_only_Exception (C.xagent (X.base (xagent self))) →
  Forall (λ t, nameless_described t = false) (xagent_tools_of self) →
  ∃ self' now,
    send err message self = (inr (reply self message), self') ∧
    dialogue_history self' = dialogue_history self ++
      [ {| timestamp := now; message := message; response := reply self message;
           tools_available := length (self_tools self) |} ] ∧
    tool_usage_stats self'
      = fold_left (count_tool (reply self message)) (self_tools self)
                  (tool_usage_stats self) ∧
    self_tools self' = self_tools self ∧
    xagent_tools_of self' = xagent_tools_of self ∧
    length (C.conversation_history (X.base (xagent self')))
      = length (C.conversation_history (X.base (xagent self))) + 2.
Proof.
  intros Hb H. unfold send, try_except.
  unfold bind at 1. unfold on_tool_part at 1. unfold lift at 1.
  cbn [logger_info modify].
  unfold bind at 1. unfold on_xagent at 1. unfold lift at 1.
  change (the_xagent (set_tool_part _ self)) with (the_xagent self).
  rewrite send_ok; [|exact Hb|exact H].
  eexists _, _. split; [reflexivity|].
  split; [reflexivity|]. split; [reflexivity|]. split; [reflexivity|].
  split; [reflexivity|].
  cbn [xagent set_xagent X.base X.set_base fst snd].
  rewrite run_eq_backend by exact Hb.
  cbn. rewrite length_app. reflexivity.
Qed.

Lemma agent_send_fail (err : Tool → string) (message : string) (self : DialogueAgent)
    (pre : list Tool) (t : Tool) (post : list Tool) :
  xagent_tools_of self = pre ++ t :: post →
  Forall (λ t, nameless_described t = false) pre →
  nameless_described t = true →
  ∃ self',
    send err message self
      = (inr ("I encountered an error processing your message: " +:+ err t), self') ∧
    dialogue_history self' = dialogue_history self ∧
    tool_usage_stats self' = tool_usage_stats self ∧
    C.conversation_history (X.base (xagent self'))
      = C.conversation_history (X.base (xagent self)) ∧
    logger (tool_part self')
      = logger (tool_part self)
        ++ [INFO ("Processing message: " +:+ take 100 message +:+ "...");
            ERROR ("Dialogue send failed: " +:+ err t)].
Proof.
  intros E Hpre Ht. unfold send, try_except.
  unfold bind at 1. unfold on_tool_part at 1. unfold lift at 1.
  cbn [logger_info modify].
  unfold bind at 1. unfold on_xagent at 1. unfold lift at 1.
  change (the_xagent (set_tool_part _ self)) with (the_xagent self).
  rewrite (send_fail err message (the_xagent self) pre t post) by done.
  eexists. split; [reflexivity|].
  split; [reflexivity|]. split; [reflexivity|]. split; [reflexivity|].
  cbn. by rewrite <- app_assoc.
Qed.

(** X9. [DialogueAgentWithTools.send] turns the failure of its adapter into a
    text: with a tool that has a [description] and no [__name__] among the
    tools of [self.xagent], every call returns the apology with the text of the
    [AttributeError], records no dialogue, counts no tool use and leaves the
    conversation history of the backend alone; only the two log records tell.
    No message ever gets through to the pipeline of such an agent. *)
Theorem agent_send_apologises_for_nameless_tool :
  ∀ (err : Tool → string) (self : DialogueAgent) (message : string)
    (pre : list Tool) (t : Tool) (post : list Tool),
    xagent_tools_of self = pre ++ t :: post →
    Forall (λ t, nameless_described t = false) pre →
    nameless_described t = true →
    ∃ self',
      send err message self
        = (inr ("I encountered an error processing your message: " +:+ err t), self') ∧
      dialogue_history self' = dialogue_history self ∧
      tool_usage_stats self' = tool_usage_stats self ∧
      C.conversation_history (X.base (xagent self'))
        = C.conversation_history (X.base (xagent self)) ∧
      logger (tool_part self')
        = logger (tool_part self)
          ++ [INFO ("Processing message: " +:+ take 100 message +:+ "...");
              ERROR ("Dialogue send failed: " +:+ err t)].
Proof. intros. by eapply agent_send_fail. Qed.

Lemma agent_send_apologises_for_nameless_tool_witness :
  outcome (send tool_class_error "hello" fragile)
  = inr ("I encountered an error processing your message: "
           +:+ "'Tool' object has no attribute '__name__'").
Proof.
  destruct (agent_send_apologises_for_nameless_tool tool_class_error fragile "hello"
              [calculator] described_search []) as (self' & -> & _).
  - reflexivity.
  - repeat constructor.
  - reflexivity.
  - reflexivity.
Defined.

(** X10. When every tool of [self.xagent] that has a [description] has a
    [__name__] too, and the backend raises instances of [Exception] only,
    [DialogueAgentWithTools.send] returns the reply of its
    adapter, appends one entry with the message, the reply and the number of
    tools to the dialogue history, and passes the reply through the usage
    count; the backend's conversation history grows by two messages. *)
Theorem agent_send_records_the_dialogue :
  ∀ (err : Tool → string) (self : DialogueAgent) (message : string),
    raises_only_Exception (C.xagent (X.base (xagent self))) →
    Forall (λ t, nameless_described t = false) (xagent_tools_of self) →
    ∃ self' now,
      send err message self = (inr (reply self message), self') ∧
      dialogue_history self' = dialogue_history self ++
        [ {| timestamp := now; message := message; response := reply self message;
             tools_available := length (self_tools self) |} ] ∧
      tool_usage_stats self'
        = fold_left (count_tool (reply self message)) (self_tools self)
                    (tool_usage_stats self) ∧
      self_tools self' = self_tools self ∧
      xagent_tools_of self' = xagent_tools_of self ∧
      length (C.conversation_history (X.base (xagent self')))
        = length (C.conversation_history (X.base (xagent self))) + 2.
Proof. intros. by apply agent_send_ok. Qed.

Lemma agent_send_records_the_dialogue_witness :
  ∃ self' now,
    send tool_class_error "hello" assistant
      = (inr (reply assistant "hello"), self') ∧
    dialogue_history self' =
      [ {| timestamp := now; message := "hello"; response := reply assistant "hello";
           tools_available := 2 |} ].
Proof.
  destruct (agent_send_records_the_dialogue tool_class_error assistant "hello")
    as (self' & now & Hs & Hd & _).
  - exact (Mock_raises_only_Exception _).
  - repeat constructor.
  - exists self', now. split; [exact Hs | exact Hd].
Defined.

(** *** The usage count *)

Lemma usage_count_tool (response : string) (stats : gmap string nat) (t : Tool)
    (n : string) :
  usage (count_tool response stats t) n
  = usage stats n
    + (if contains (lower n) (lower response) then named n [t] else 0).
Proof.
  unfold count_tool, usage, named. rewrite filter_cons, filter_nil.
  destruct (decide (derived_name t = n)) as [<- | Hne].
  - destruct (contains _ _); simpl; [by rewrite lookup_insert_eq | lia].
  - destruct (contains (lower (derived_name t)) _); simpl.
    + rewrite lookup_insert_ne by done. destruct (contains _ _); simpl; lia.
    + destruct (contains _ _); simpl; lia.
Qed.

Lemma usage_fold (response : string) (ts : list Tool) (stats : gmap string nat)
    (n : string) :
  usage (fold_left (count_tool response) ts stats) n
  = usage stats n
    + (if contains (lower n) (lower response) then named n ts else 0).
Proof.
  revert stats. induction ts as [|t ts IH]; intros stats; simpl.
  - unfold named. simpl. destruct (contains _ _); lia.
  - rewrite IH, usage_count_tool. unfold named.
    rewrite (filter_cons _ t ts), !filter_cons, filter_nil.
    destruct (contains _ _); [|lia].
    destruct (decide (derived_name t = n)); simpl; lia.
Qed.

(** X11. [_update_tool_stats(response)] adds to the count of every name the
    number of tools of [self.tools] with that derived name, when the name
    occurs in the response without regard to upper and lower case, and nothing
    otherwise.  So a count never goes down, a tool listed twice counts twice,
    and whether a tool was used plays no part. *)
Theorem _update_tool_stats_counts_names_in_the_response :
  ∀ (self : DialogueAgent) (response : string),
    ∃ self',
      _update_tool_stats response self = (inr (), self') ∧
      (∀ n, usage (tool_usage_stats self') n
            = usage (tool_usage_stats self) n
              + (if contains (lower n) (lower response)
                 then named n (self_tools self) else 0)) ∧
      tool_part self' = tool_part self ∧ xagent self' = xagent self ∧
      dialogue_history self' = dialogue_history self.
Proof.
  intros self response. eexists. split; [reflexivity|].
  split; [|done]. intros n. apply usage_fold.
Qed.

Example _update_tool_stats_ignores_case :
  let self' := state_after (_update_tool_stats "I used the CALCULATOR twice" assistant) in
  usage (tool_usage_stats self') "calculator" = 1 ∧
  usage (tool_usage_stats self') "web_search" = 0.
Proof. split; vm_compute; reflexivity. Qed.

End DialogueAgentFacts.

(** ** Simulation mode echoes its input *)

Module SimulationFacts.

Import xagent_core Spec Examples TextFacts TextFactsExtra PipelineFacts.

Lemma step_line_mock_analyze (x : string) :
  step_line (<["action" := PyStr "mock_analyze"]> (<["target" := PyStr x]> ∅))
  = "Completed mock_analyze on " +:+ x.
Proof.
  unfold step_line, dict_get.
  rewrite lookup_insert_eq, lookup_insert_ne, lookup_insert_eq by done.
  reflexivity.
Qed.

(** With [MockXAgent] behind it, the workflow answers with a text that holds
    its whole input. *)
Lemma mock_response_contains_input (x : string) (w : XAgentWrapper) (m : MockXAgent) :
  xagent w = Mock m → contains x (workflow_response x w) = true.
Proof.
  intros Hm. unfold workflow_response.
  assert (outcome (_create_plan x w)
          = inr (plan_of [ <["action" := PyStr "mock_analyze"]>
                             (<["target" := PyStr x]> ∅);
                           <["action" := PyStr "mock_respond"]>
                             (<["target" := PyStr "generated_response"]> ∅) ]
                         (Some ["mock_tool"]))) as ->.
  { unfold outcome, _create_plan. monad. by rewrite Hm. }
  rewrite _execute_plan_dicts. unfold outcome. cbn [fst].
  rewrite _synthesize_results_nonempty by done.
  cbn [fmap list_fmap]. rewrite step_line_mock_analyze.
  assert (contains x (synthesis ["Completed mock_analyze on " +:+ x;
            step_line (<["action" := PyStr "mock_respond"]>
                         (<["target" := PyStr "generated_response"]> ∅))]) = true)
    as H.
  { unfold synthesis, numbered_lines, join, numbered_line. cbn [imap foldr].
    apply contains_append_r, contains_append_r, contains_append_l.
    apply contains_append_l.
    do 2 apply contains_append_r. apply contains_append_l.
    apply contains_append_r, contains_refl. }
  destruct (reflection_enabled w); [by apply contains_append_l | done].
Qed.

End SimulationFacts.

(** ** Usage counts, clearing and replies of a dialogue agent *)

Module DialogueAgentMore.

Import PyExtra dialogue_agent_with_tools dialogue_agent.
Import Spec Examples DialogueExamples DialogueSpec.
Import TextFacts TextFactsExtra PipelineFacts DialogueXAgentFacts DialogueAgentFacts.
Import SimulationFacts.

Module X := dialogue_xagent.
Module C := xagent_core.

Lemma reply_contains_tool (self : DialogueAgent) (message : string) (t : Tool)
    (m : C.MockXAgent) :
  C.xagent (X.base (xagent self)) = C.Mock m →
  t ∈ xagent_tools_of self →
  contains (tool_str t) (reply self message) = true.
Proof.
  intros Hm Ht. unfold reply. do 3 apply contains_append_r.
  eapply contains_trans; [|by eapply mock_response_contains_input].
  by apply enhanced_message_contains_tool.
Qed.

(** X12. In simulation mode the reply of [send] repeats the text that was sent
    to the pipeline, and that text lists the [str] of every tool.  So at every
    [send] that succeeds, each tool of [self.tools] that is also among the
    tools of [self.xagent] and whose name shows in its own [str] form (every
    tool without [__name__], whose name is its [str] form) has its usage
    count raised, whatever the message is and although no tool is ever run. *)
Theorem simulated_send_counts_every_listed_tool :
  ∀ (err : Tool → string) (self : DialogueAgent) (message : string)
    (m : C.MockXAgent) (t : Tool),
    C.xagent (X.base (xagent self)) = C.Mock m →
    Forall (λ t, nameless_described t = false) (xagent_tools_of self) →
    t ∈ self_tools self →
    t ∈ xagent_tools_of self →
    contains (lower (derived_name t)) (lower (tool_str t)) = true →
    ∃ text self',
      send err message self = (inr text, self') ∧
      usage (tool_usage_stats self') (derived_name t)
        = usage (tool_usage_stats self) (derived_name t)
          + named (derived_name t) (self_tools self) ∧
      1 ≤ named (derived_name t) (self_tools self).
Proof.
  intros err self message m t Hm Hgood Ht Hxt Hname.
  assert (raises_only_Exception (C.xagent (X.base (xagent self)))) as Hb
    by (rewrite Hm; apply Mock_raises_only_Exception).
  destruct (agent_send_ok err message self Hb Hgood)
    as (self' & now & Hs & _ & Hstats & _).
  exists (reply self message), self'. split; [done|].
  rewrite Hstats, usage_fold.
  assert (contains (lower (derived_name t)) (lower (reply self message)) = true)
    as ->.
  { eapply contains_trans; [exact Hname|].
    apply contains_lower. by eapply reply_contains_tool. }
  split; [done|].
  unfold named. apply list_elem_of_split in Ht as (l1 & l2 & ->).
  rewrite filter_app, filter_cons, decide_True by done.
  rewrite length_app. simpl. lia.
Qed.

Lemma simulated_send_counts_every_listed_tool_witness :
  ∃ text self',
    send tool_class_error "What is the weather like?" assistant = (inr text, self') ∧
    usage (tool_usage_stats self') "web_search" = 1.
Proof.
  destruct (simulated_send_counts_every_listed_tool tool_class_error assistant
              "What is the weather like?"
              match C.xagent (X.base (xagent assistant)) with
              | C.Mock m => m
              | C.Library _ => C.MockXAgent__init__ ∅
              end
              web_search)
    as (text & self' & Hs & Hu & _).
  - reflexivity.
  - repeat constructor.
  - apply (bool_decide_unpack _). vm_compute. exact I.
  - apply (bool_decide_unpack _). vm_compute. exact I.
  - vm_compute. reflexivity.
  - exists text, self'. split; [exact Hs|].
    etrans; [exact Hu|]. vm_compute. reflexivity.
Defined.

(** X13. [clear_history()] empties the dialogue history and the conversation
    history of the backend, and nothing else: the tools and the usage counts
    stay, so [get_available_tools()] reports the counts of the dialogues that
    were just cleared. *)
Theorem clear_history_keeps_usage_counts :
  ∀ (self : DialogueAgent),
    ∃ self',
      clear_history self = (inr (), self') ∧
      dialogue_history self' = [] ∧
      C.conversation_history (X.base (xagent self')) = [] ∧
      tool_usage_stats self' = tool_usage_stats self ∧
      self_tools self' = self_tools self ∧
      xagent_tools_of self' = xagent_tools_of self ∧
      get_available_tools self' = get_available_tools self.
Proof.
  intros self. eexists. split; [reflexivity|]. done.
Qed.

Example usage_counts_survive_clear_history :
  usage_count <$>
    get_available_tools
      (state_after ((send tool_class_error "hello" ;;; clear_history) assistant))
  = [1; 1].
Proof. vm_compute. reflexivity. Qed.



Example generate_reply_to_a_number :
  outcome (generate_reply tool_class_error
             [ {["content" := PyStr "hello"]}; {["content" := PyInt 42]} ] assistant)
  = inr "I encountered an error processing your message: 'int' object is not subscriptable".
Proof. vm_compute. reflexivity. Qed.

End DialogueAgentMore.

(** ** The tool manager *)

Module ToolManagerFacts.

Import tool_manager Examples DialogueExamples.

(** The effect of one registration on the two dicts. *)
Lemma register_tool_eq (t : Tool) (cat d : option string) (m : ToolManager) :
  let c := default "general" cat in
  let m' := state_after (register_tool t cat d m) in
  registered_tools m'
    = <[derived_name t := {| reg_tool := t; reg_category := c;
                             reg_description := description_of t d;
                             registered_at := clock m |}]> (registered_tools m) ∧
  tool_categories m'
    = <[c := default [] (tool_categories m !! c) ++ [derived_name t]]>
        (tool_categories m).
Proof.
  intros c m'. split; [done|]. unfold m', register_tool, state_after, modify.
  cbn [snd tool_categories]. fold c.
  destruct (tool_categories m !! c) as [names|] eqn:E; simpl.
  - by rewrite E.
  - rewrite lookup_insert_eq. simpl. by rewrite insert_insert_eq.
Qed.

Lemma in_step_init : in_step ToolManager__init__.
Proof. split; intros *; simpl; by rewrite lookup_empty. Qed.

Lemma in_step_register (t : Tool) (cat d : option string) (m : ToolManager) :
  in_step m → in_step (state_after (register_tool t cat d m)).
Proof.
  intros [H1 H2]. destruct (register_tool_eq t cat d m) as [Hr Hc].
  split.
  - intros c names n. rewrite Hr, Hc. intros Hnames Hn.
    destruct (decide (derived_name t = n)) as [-> | Hne];
      [by rewrite lookup_insert_eq|].
    rewrite lookup_insert_ne by done.
    destruct (decide (default "general" cat = c)) as [<- | Hcne].
    + rewrite lookup_insert_eq in Hnames. injection Hnames as <-.
      apply elem_of_app in Hn as [Hn | Hn].
      * destruct (tool_categories m !! default "general" cat) eqn:E;
          [by eapply H1 | by apply elem_of_nil in Hn].
      * apply list_elem_of_singleton in Hn. congruence.
    + rewrite lookup_insert_ne in Hnames by done. by eapply H1.
  - intros n r. rewrite Hr.
    destruct (decide (derived_name t = n)) as [<- | Hne].
    + rewrite lookup_insert_eq. by intros [= <-].
    + rewrite lookup_insert_ne by done. apply H2.
Qed.

Lemma in_step_registered (rs : list Register) (m : ToolManager) :
  in_step m → in_step (registered rs m).
Proof.
  revert m. induction rs as [|r rs IH]; intros m H; [done|].
  unfold registered. simpl. apply IH. by apply in_step_register.
Qed.

Lemma registered_snoc (rs : list Register) (r : Register) (m : ToolManager) :
  registered (rs ++ [r]) m
  = state_after (register_tool (the_tool r) (the_category r) (the_description r)
                               (registered rs m)).
Proof. unfold registered. by rewrite fold_left_app. Qed.

(** The tools listed under names that are all registered, before and after
    a tool is put under its name. *)
Lemma omap_registered_insert (t : Tool) (reg : Registration)
    (R : gmap string Registration) (names : list string) :
  reg_tool reg = t →
  (∀ n, n ∈ names → is_Some (R !! n)) →
  (∀ n r, R !! n = Some r → derived_name (reg_tool r) = n) →
  omap (λ n, reg_tool <$> <[derived_name t := reg]> R !! n) names
  = (λ u, if decide (derived_name u = derived_name t) then t else u)
      <$> omap (λ n, reg_tool <$> R !! n) names.
Proof.
  intros Ht H1 H2. induction names as [|n names IH]; [done|].
  cbn [omap list_omap].
  destruct (H1 n) as [r Hr]; [by left|].
  rewrite Hr. cbn [fmap option_fmap option_map].
  rewrite fmap_cons.
  change (list_omap ?f ?l) with (omap f l).
  rewrite <- IH by (intros; apply H1; by right).
  destruct (decide (derived_name t = n)) as [<- | Hne].
  - rewrite lookup_insert_eq. simpl. rewrite decide_True; [by rewrite Ht|].
    by apply H2 in Hr.
  - rewrite lookup_insert_ne, Hr by done. simpl.
    rewrite decide_False; [done|]. apply H2 in Hr. congruence.
Qed.

Lemma get_tools_after_register (t : Tool) (cat d : option string) (c : string)
    (m : ToolManager) :
  in_step m →
  get_tools_by_category c (state_after (register_tool t cat d m))
  = ((λ u, if decide (derived_name u = derived_name t) then t else u)
       <$> get_tools_by_category c m)
    ++ (if decide (default "general" cat = c) then [t] else []).
Proof.
  intros [H1 H2]. destruct (register_tool_eq t cat d m) as [Hr Hc].
  unfold get_tools_by_category. rewrite Hr, Hc.
  destruct (decide (default "general" cat = c)) as [<- | Hne].
  - rewrite lookup_insert_eq. rewrite omap_app.
    cbn [omap list_omap]. rewrite lookup_insert_eq. simpl.
    destruct (tool_categories m !! default "general" cat) as [names|] eqn:E; simpl.
    + by rewrite omap_registered_insert by (try done; intros; by eapply H1).
    + done.
  - rewrite lookup_insert_ne by done. rewrite app_nil_r.
    destruct (tool_categories m !! c) as [names|] eqn:E; [|done].
    by rewrite omap_registered_insert by (try done; intros; by eapply H1).
Qed.

Lemma latest_snoc (rs : list Register) (r : Register) (n : string) (d : Tool) :
  latest (rs ++ [r]) n d
  = if decide (derived_name (the_tool r) = n) then the_tool r else latest rs n d.
Proof. unfold latest. by rewrite fold_left_app. Qed.

Lemma latest_name (rs : list Register) (n : string) (d : Tool) :
  derived_name d = n → derived_name (latest rs n d) = n.
Proof.
  revert d. induction rs as [|r rs IH]; intros d Hd; [done|].
  unfold latest. simpl. fold (latest rs n).
  case_decide; by apply IH.
Qed.

Lemma get_tools_registered (rs : list Register) (c : string) :
  get_tools_by_category c (registered rs ToolManager__init__)
  = (λ r, latest rs (derived_name (the_tool r)) (the_tool r))
      <$> filter (λ r, category_of r = c) rs.
Proof.
  induction rs as [|r rs IH] using rev_ind; [done|].
  rewrite registered_snoc, get_tools_after_register
    by apply in_step_registered, in_step_init.
  rewrite IH, filter_app, fmap_app. f_equal.
  - rewrite <- list_fmap_compose. apply list_fmap_ext. intros i q _. simpl.
    rewrite latest_snoc, latest_name by done.
    destruct (decide (derived_name (the_tool q) = derived_name (the_tool r)));
      [rewrite decide_True | rewrite decide_False]; done.
  - rewrite filter_cons, filter_nil. unfold category_of.
    destruct (decide (default "general" (the_category r) = c)); [|done].
    simpl. by rewrite latest_snoc, decide_True.
Qed.

Lemma filter_none {A} (P : A → Prop) `{∀ x, Decision (P x)} (l : list A) :
  (∀ x, x ∈ l → ¬ P x) → filter P l = [].
Proof.
  induction l as [|x l IH]; intros Hl; [done|].
  rewrite filter_cons, decide_False by (apply Hl; by left).
  apply IH. intros y Hy. apply Hl. by right.
Qed.

(** X15. On a manager whose dicts are in step, registering a tool changes the
    listing of every category in two ways: the category named gets the tool
    at its end, and wherever a tool of the same derived name was listed, in
    whatever category, the new tool now stands in its place.  The order of
    the listing is the order of registration. *)
Theorem register_tool_then_get_tools_by_category :
  ∀ (m : ToolManager) (t : Tool) (cat d : option string) (c : string),
    in_step m →
    get_tools_by_category c (state_after (register_tool t cat d m))
    = ((λ u, if decide (derived_name u = derived_name t) then t else u)
         <$> get_tools_by_category c m)
      ++ (if decide (default "general" cat = c) then [t] else []).
Proof. intros. by apply get_tools_after_register. Qed.

Lemma register_tool_then_get_tools_by_category_witness :
  get_tools_by_category "general"
    (state_after (register_tool calculator None None ToolManager__init__))
  = [calculator].
Proof.
  etrans.
  - apply (register_tool_then_get_tools_by_category
             ToolManager__init__ calculator None None "general").
    split; intros *; simpl; by rewrite lookup_empty.
  - reflexivity.
Defined.

(** X16. After any sequence of [register_tool] calls on a new manager, the
    listing of a category has one tool for each call that named the category,
    in the order of the calls; the tool shown for a call is the one of the
    last call, under any category, for the same derived name.  So a tool
    registered twice is listed twice, a category keeps listing a name that
    has moved to another category, and a category never named is empty. *)
Theorem get_tools_by_category_after_registrations :
  ∀ (rs : list Register) (c : string),
    let m := registered rs ToolManager__init__ in
    get_tools_by_category c m
    = (λ r, latest rs (derived_name (the_tool r)) (the_tool r))
        <$> filter (λ r, category_of r = c) rs ∧
    length (get_tools_by_category c m)
    = length (filter (λ r, category_of r = c) rs) ∧
    ((∀ r, r ∈ rs → category_of r ≠ c) → get_tools_by_category c m = []) ∧
    in_step m.
Proof.
  intros rs c m. unfold m. rewrite get_tools_registered.
  split; [done|]. split; [by rewrite length_fmap|]. split.
  - intros H. rewrite filter_none; [done|]. intros r Hr. by apply H.
  - apply in_step_registered, in_step_init.
Qed.

Example a_moved_tool_stays_listed :
  let improved :=
    {| tool_id := 4; tool__name__ := Some "calculator"; tool_description := None;
       tool_str := "<function calculator2>" |} in
  let m := registered
             [ {| the_tool := calculator; the_category := Some "math";
                  the_description := None |};
               {| the_tool := web_search; the_category := None;
                  the_description := None |};
               {| the_tool := improved; the_category := Some "science";
                  the_description := Some "newer" |} ]
             ToolManager__init__ in
  get_tools_by_category "math" m = [improved] ∧
  get_tools_by_category "science" m = [improved] ∧
  get_tools_by_category "general" m = [web_search] ∧
  get_tools_by_category "files" m = [].
Proof. repeat split; vm_compute; reflexivity. Qed.

End ToolManagerFacts.

(** ** The test interface *)

Module TestInterfaceFacts.

Import xagent_core test_interface Spec TestSpec Examples.
Import TextFacts PipelineFacts.

Lemma agent_of_raises_only_Exception (lib : XAgentLibrary) (tc : TestCase)
    (s : XAgentTestInterface) :
  agents_raise_only_Exception lib s →
  raises_only_Exception (xagent (agent_of lib tc s)).
Proof.
  intros [Hlib Hs]. unfold agent_of.
  destruct (test_agents s !! name_of tc) as [w|] eqn:E; simpl.
  - by apply (Hs (name_of tc)).
  - by apply init_raises_only_Exception.
Qed.

Lemma simulation_agents_raise_only_Exception :
  agents_raise_only_Exception None XAgentTestInterface__init__.
Proof.
  split; [apply simulation_raises_only_Exception|].
  intros name w H. simpl in H. by rewrite lookup_empty in H.
Qed.

Lemma _run_single_test_eq (lib : XAgentLibrary) (tc : TestCase) (i : nat)
    (s : XAgentTestInterface) :
  raises_only_Exception (xagent (agent_of lib tc s)) →
  let response := workflow_response (input_of tc) (agent_of lib tc s) in
  _run_single_test lib tc i s
  = (inr {| test_id := i; agent := name_of tc; input := input_of tc;
            output := response; expected := case_expected tc;
            status := if misses (case_expected tc) response
                      then "failed" else "passed" |},
     set_agent (name_of tc) (state_after (run (input_of tc) (agent_of lib tc s))) s).
Proof.
  intros Hb response. revert Hb.
  unfold response, _run_single_test, try_except, agent_for, agent_of,
    name_of, input_of.
  unfold bind at 1. unfold bind at 1. unfold get at 1.
  destruct (test_agents s !! default "default_test_agent" (case_agent tc))
    as [w|] eqn:E; unfold lift, ret, modify, bind, default; cbn [from_option id fst snd];
    intros Hb; rewrite !run_eq_backend by exact Hb; cbn [fst snd]; [done|].
  unfold state_after, set_agent. simpl. by rewrite insert_insert_eq.
Qed.

(** The test leaves the agents as they were in this respect. *)
Lemma _run_single_test_agents (lib : XAgentLibrary) (tc : TestCase) (i : nat)
    (s : XAgentTestInterface) :
  agents_raise_only_Exception lib s →
  agents_raise_only_Exception lib (state_after (_run_single_test lib tc i s)).
Proof.
  intros H. pose proof (agent_of_raises_only_Exception lib tc s H) as Hb.
  rewrite _run_single_test_eq by done. destruct H as [Hlib Hs].
  split; [done|]. intros name w. unfold state_after, set_agent. cbn.
  destruct (decide (name = name_of tc)) as [-> | Hne].
  - rewrite lookup_insert_eq. intros [= <-].
    destruct (run_setup (input_of tc) (agent_of lib tc s)) as (Hx & _).
    unfold state_after in Hx. by rewrite Hx.
  - rewrite lookup_insert_ne by done. apply Hs.
Qed.

(** X17. [_run_single_test] runs the input of the case ([""] when missing) on
    the agent the case names (["default_test_agent"] when missing), which it
    creates with default settings if there is none of that name.  When the
    backend of that agent raises instances of [Exception] only, the test
    returns a result: it carries the response as its output, and the status is
    ["failed"] exactly when an expected text is given, is not empty and does
    not occur in the response.  The agent's history has two more messages
    afterwards; the other agents and the recorded suites stay as they are.
    (A backend that is interrupted while it plans ends the test with its
    exception: see [interrupted_test_raises].) *)
Theorem _run_single_test_verdict :
  ∀ (lib : XAgentLibrary) (self : XAgentTestInterface) (tc : TestCase) (i : nat),
    raises_only_Exception (xagent (agent_of lib tc self)) →
    ∃ (result : TestResult) (self' : XAgentTestInterface) (w' : XAgentWrapper),
      _run_single_test lib tc i self = (inr result, self') ∧
      test_id result = i ∧
      outcome (run (input_of tc) (agent_of lib tc self)) = inr (output result) ∧
      (status result = "failed" ↔
         ∃ e, case_expected tc = Some e ∧ e ≠ "" ∧ contains e (output result) = false) ∧
      (status result = "passed" ∨ status result = "failed") ∧
      test_agents self' = <[name_of tc := w']> (test_agents self) ∧
      length (conversation_history w')
        = length (conversation_history (agent_of lib tc self)) + 2 ∧
      same_setup w' (agent_of lib tc self) ∧
      test_results self' = test_results self.
Proof.
  intros lib self tc i Hb. rewrite _run_single_test_eq by done.
  eexists _, _, _. split; [reflexivity|]. split; [reflexivity|].
  split; [by rewrite run_eq_backend|]. cbn [status output]. split; [|split].
  - unfold misses. destruct (case_expected tc) as [[|c e]|] eqn:E; simpl.
    + split; [done|]. by intros (e & [= <-] & He & _).
    + destruct (contains _ _) eqn:Hc; simpl.
      * split; [done|]. intros (e' & [= <-] & _ & He). congruence.
      * split; [|done]. intros _. by exists (String c e).
    + split; [done|]. by intros (e & [=] & _).
  - destruct (misses _ _); auto.
  - split; [reflexivity|]. rewrite run_eq_backend by done. cbn.
    split; [rewrite length_app; reflexivity | done].
Qed.

Lemma _run_single_test_verdict_witness :
  ∃ (result : TestResult) (self' : XAgentTestInterface),
    _run_single_test None
      {| case_agent := None; case_input := Some "2 + 2";
         case_expected := Some "Analysis of" |} 7 XAgentTestInterface__init__
    = (inr result, self') ∧
    test_id result = 7.
Proof.
  destruct (_run_single_test_verdict None XAgentTestInterface__init__
              {| case_agent := None; case_input := Some "2 + 2";
                 case_expected := Some "Analysis of" |} 7)
    as (result & self' & w' & H1 & H2 & _).
  - exact (Mock_raises_only_Exception _).
  - by exists result, self'.
Defined.

Example interrupted_test_raises :
  outcome (_run_single_test interrupted_library
             {| case_agent := None; case_input := Some "2 + 2";
                case_expected := None |} 0 XAgentTestInterface__init__)
  = inl (Raise "KeyboardInterrupt" "") ∧
  outcome (run_test_suite interrupted_library
             [ {| case_agent := None; case_input := Some "2 + 2";
                  case_expected := None |} ] XAgentTestInterface__init__)
  = inl (Raise "KeyboardInterrupt" "").
Proof. split; vm_compute; reflexivity. Qed.

(** What the loop of [run_test_suite] adds to the results it starts from. *)
Lemma suite_loop_spec (lib : XAgentLibrary) (cases : list TestCase) (k : nat)
    (acc : SuiteResults) (s : XAgentTestInterface) :
  agents_raise_only_Exception lib s →
  ∃ (details : list TestResult) (s' : XAgentTestInterface),
    suite_loop lib (enumerate k cases) acc s
    = (inr {| total_tests := total_tests acc;
              passed := passed acc + count_passed details;
              failed := failed acc + (length cases - count_passed details);
              test_details := test_details acc ++ details |}, s') ∧
    length details = length cases ∧
    count_passed details ≤ length cases ∧
    (∀ j result, details !! j = Some result → test_id result = k + j) ∧
    test_results s' = test_results s.
Proof.
  revert k acc s. induction cases as [|tc cases IH]; intros k acc s Hs.
  - exists [], s. simpl. rewrite app_nil_r, !Nat.add_0_r.
    split; [by destruct acc|]. split; [done|]. split; [done|]. split; [|done].
    intros j result. by rewrite lookup_nil.
  - pose proof (_run_single_test_agents lib tc k s Hs) as Hs1.
    rewrite _run_single_test_eq in Hs1
      by (by apply agent_of_raises_only_Exception).
    cbv zeta in Hs1. unfold state_after in Hs1. cbn [snd] in Hs1.
    cbn [enumerate suite_loop]. unfold bind at 1.
    rewrite _run_single_test_eq by (by apply agent_of_raises_only_Exception).
    cbv zeta.
    set (result := {| test_id := k; agent := name_of tc |}).
    set (s1 := set_agent _ _ s).
    assert (∀ acc1, total_tests acc1 = total_tests acc →
              passed acc1 = passed acc + count_passed [result] →
              failed acc1 = failed acc + (1 - count_passed [result]) →
              test_details acc1 = test_details acc ++ [result] →
              ∃ details s',
                suite_loop lib (enumerate (S k) cases) acc1 s1
                = (inr {| total_tests := total_tests acc;
                          passed := passed acc + count_passed details;
                          failed := failed acc
                                    + (length (tc :: cases) - count_passed details);
                          test_details := test_details acc ++ details |}, s') ∧
                length details = length (tc :: cases) ∧
                count_passed details ≤ length (tc :: cases) ∧
                (∀ j r, details !! j = Some r → test_id r = k + j) ∧
                test_results s' = test_results s) as Hstep.
    { intros acc1 Ht Hp Hf Hd.
      destruct (IH (S k) acc1 s1 Hs1)
        as (details & s' & -> & Hlen & Hle & Hids & Hres).
      exists (result :: details), s'.
      assert (count_passed (result :: details)
              = count_passed [result] + count_passed details) as Hc.
      { unfold count_passed. rewrite (filter_cons _ result details).
        rewrite filter_cons, filter_nil.
        destruct (decide (status result = "passed")); simpl; lia. }
      assert (count_passed [result] ≤ 1) as Hone.
      { unfold count_passed. rewrite filter_cons, filter_nil.
        destruct (decide (status result = "passed")); simpl; lia. }
      rewrite Ht, Hp, Hf, Hd, Hc, <- app_assoc. simpl.
      split; [do 2 f_equal; f_equal; lia|].
      split; [lia|]. split; [lia|]. split; [|done].
      intros [|j] r; simpl.
      - intros [= <-]. simpl. lia.
      - intros Hj. rewrite (Hids j r Hj). lia. }
    destruct (decide (status result = "passed")) as [Hpass | Hfail];
      apply Hstep; try done; unfold count_passed;
      rewrite filter_cons, filter_nil;
      [rewrite decide_True by done | rewrite decide_True by done
      | rewrite decide_False by done | rewrite decide_False by done]; simpl; lia.
Qed.

Lemma run_test_suite_spec (lib : XAgentLibrary) (cases : list TestCase)
    (s : XAgentTestInterface) :
  agents_raise_only_Exception lib s →
  ∃ (r : SuiteResults) (s' : XAgentTestInterface),
    run_test_suite lib cases s = (inr r, s') ∧
    total_tests r = length cases ∧
    passed r + failed r = length cases ∧
    passed r = count_passed (test_details r) ∧
    length (test_details r) = length cases ∧
    (∀ j result, test_details r !! j = Some result → test_id result = j) ∧
    test_results s' = test_results s ++ [r].
Proof.
  intros Hs. unfold run_test_suite. unfold bind at 1.
  destruct (suite_loop_spec lib cases 0
              {| total_tests := length cases; passed := 0; failed := 0;
                 test_details := [] |} s Hs)
    as (details & s' & -> & Hlen & Hle & Hids & Hres).
  eexists _, _. split; [reflexivity|]. simpl.
  split; [done|]. split; [lia|]. split; [done|]. split; [done|].
  split; [exact Hids | by rewrite Hres].
Qed.

(** X18. When the backends of the agents raise instances of [Exception] only,
    [run_test_suite] returns and keeps its books: the results it
    returns, and appends to [self.test_results], count as many tests as cases
    were given, every one of them either passed or failed, with one detail per
    case in the order of the cases, numbered from 0.  (When a backend is
    interrupted while it plans, the suite ends with that exception and records
    nothing: see [interrupted_test_raises].) *)
Theorem run_test_suite_accounts_for_every_case :
  ∀ (lib : XAgentLibrary) (self : XAgentTestInterface) (cases : list TestCase),
    agents_raise_only_Exception lib self →
    ∃ (r : SuiteResults) (self' : XAgentTestInterface),
      run_test_suite lib cases self = (inr r, self') ∧
      total_tests r = length cases ∧
      passed r + failed r = length cases ∧
      passed r = count_passed (test_details r) ∧
      length (test_details r) = length cases ∧
      (∀ j result, test_details r !! j = Some result → test_id result = j) ∧
      test_results self' = test_results self ++ [r].
Proof. intros. by apply run_test_suite_spec. Qed.

Lemma run_test_suite_accounts_for_every_case_witness :
  ∃ (r : SuiteResults) (self' : XAgentTestInterface),
    run_test_suite None
      [ {| case_agent := None; case_input := Some "2 + 2"; case_expected := None |};
        {| case_agent := Some "other"; case_input := None;
           case_expected := Some "Analysis of" |} ]
      XAgentTestInterface__init__ = (inr r, self') ∧
    total_tests r = 2 ∧ passed r + failed r = 2.
Proof.
  destruct (run_test_suite_accounts_for_every_case None XAgentTestInterface__init__
      [ {| case_agent := None; case_input := Some "2 + 2"; case_expected := None |};
        {| case_agent := Some "other"; case_input := None;
           case_expected := Some "Analysis of" |} ])
    as (r & self' & H1 & H2 & H3 & _).
  - exact simulation_agents_raise_only_Exception.
  - by exists r, self'.
Defined.

Example a_suite_of_three :
  let cases :=
    [ {| case_agent := None; case_input := Some "2 + 2";
         case_expected := Some "Task completed" |};
      {| case_agent := Some "other"; case_input := None;
         case_expected := Some "Analysis of" |};
      {| case_agent := None; case_input := Some "again"; case_expected := None |} ] in
  let r := run_test_suite None cases XAgentTestInterface__init__ in
  match outcome r with
  | inr s => (total_tests s, passed s, failed s, status <$> test_details s)
             = (3, 2, 1, ["passed"; "failed"; "passed"])
  | inl _ => False
  end ∧
  (λ w, length (conversation_history w)) <$> test_agents (state_after r)
    = {[ "default_test_agent" := 4; "other" := 2 ]}.
Proof. split; vm_compute; reflexivity. Qed.

(** X19. [get_test_summary] tells of no tests while no suite has been run; after
    a suite without cases it raises [ZeroDivisionError], since the success rate
    divides by the number of tests; after a suite with cases it returns that
    suite's results, the number of suites run so far and the rate taken from
    that suite alone.  (A suite with cases returns when the backends of the
    agents raise instances of [Exception] only.) *)
Theorem get_test_summary_after_suites :
  ∀ (lib : XAgentLibrary) (self : XAgentTestInterface),
    (test_results self = [] →
       get_test_summary self = (inr (NoTests "No tests run yet"), self)) ∧
    (let self' := state_after (run_test_suite lib [] self) in
     get_test_summary self'
     = (inl (Raise "ZeroDivisionError" "division by zero"), self')) ∧
    (agents_raise_only_Exception lib self →
     ∀ cases, cases ≠ [] →
       ∃ r self',
         run_test_suite lib cases self = (inr r, self') ∧
         get_test_summary self'
         = (inr (SummaryOf r (length (test_results self) + 1)
                           {| of_passed := passed r; of_total := length cases |}),
            self')).
Proof.
  intros lib self. split; [|split].
  - intros H. unfold get_test_summary, bind, get. by rewrite H.
  - unfold run_test_suite, state_after. cbn.
    unfold get_test_summary, bind, get. cbn [test_results].
    by rewrite last_snoc.
  - intros Hs cases Hne.
    destruct (run_test_suite_spec lib cases self Hs)
      as (r & s' & Hrun & Ht & _ & _ & _ & _ & Hres).
    exists r, s'. split; [done|].
    unfold get_test_summary, bind, get. rewrite Hres, last_snoc.
    rewrite decide_False by (rewrite Ht; by destruct cases).
    by rewrite length_app, Ht.
Qed.

Lemma get_test_summary_after_suites_witness :
  get_test_summary XAgentTestInterface__init__
  = (inr (NoTests "No tests run yet"), XAgentTestInterface__init__).
Proof.
  destruct (get_test_summary_after_suites None XAgentTestInterface__init__)
    as [H _].
  apply H. reflexivity.
Defined.

End TestInterfaceFacts.

(** ** More about the conversational adapter *)

Module ConversationalExtra.

Import xagent_core l3agi_compatibility Spec ConversationalSpec Examples.
Import TextFacts TextFactsExtra PipelineFacts SimulationFacts Conversational.

Lemma with_context_nil (self : ConversationalXAgent) : with_context [] self = self.
Proof. destruct self. unfold with_context. simpl. by rewrite app_nil_r. Qed.

(** [chat] in full: the context is extended first, then the input is formatted
    and run, and the response is formatted. *)
Lemma chat_full (message : string) (context : option (list (gmap string PyVal)))
    (self : ConversationalXAgent) :
  raises_only_Exception (xagent (base self)) →
  let self1 := with_context (default [] context) self in
  let formatted_input := _format_conversation_input self1 message in
  chat message context self
  = (inr (_format_conversation_output
            (workflow_response formatted_input (base self))),
     set_base (state_after (run formatted_input (base self))) self1).
Proof.
  intros Hb self1 formatted_input. subst formatted_input self1.
  destruct context as [[|msg context]|]; unfold default; cbn [from_option id];
    rewrite ?with_context_nil;
    unfold chat, inherited, lift; monad; cbn [fst snd];
    by rewrite !run_eq_backend by exact Hb.
Qed.

Lemma fold_left_append_prefix {A} (f : A → string) (l : list A) (acc : string) :
  ∃ rest, fold_left (λ s x, s +:+ f x) l acc = acc +:+ rest.
Proof.
  revert acc. induction l as [|x l IH]; intros acc; simpl.
  - exists "". by rewrite append_empty_r.
  - destruct (IH (acc +:+ f x)) as [rest ->]. exists (f x +:+ rest).
    by rewrite append_assoc.
Qed.

Lemma last_n_app {A} (n : nat) (older recent : list A) :
  length recent = n → last_n n (older ++ recent) = recent.
Proof.
  intros H. unfold last_n. rewrite length_app, H.
  replace (length older + n - n) with (length older) by lia.
  by rewrite drop_app_length.
Qed.

(** X20. Of the context the adapter has gathered, only the last five messages
    reach the backend: the formatted input is the same as if the older ones
    had never been given.  With no context at all the input is the system
    prompt, three line breaks and the current message. *)
Theorem _format_conversation_input_uses_last_five :
  ∀ (self : ConversationalXAgent) (message : string)
    (older recent : list (gmap string PyVal)),
    conversation_context self = older ++ recent →
    length recent = 5 →
    _format_conversation_input self message
      = _format_conversation_input (set_context recent self) message ∧
    _format_conversation_input (set_context [] self) message
      = str (system_prompt self) +:+ nl +:+ nl +:+ nl
          +:+ "Current message: " +:+ message.
Proof.
  intros self message older recent Hctx Hlen. split; [|done].
  unfold _format_conversation_input. cbn [set_context conversation_context system_prompt].
  rewrite Hctx, last_n_app by done.
  assert (last_n 5 recent = recent) as ->.
  { unfold last_n. rewrite Hlen. by rewrite Nat.sub_diag. }
  destruct recent as [|m recent]; [done|].
  by destruct (older ++ m :: recent) eqn:E; [destruct older|].
Qed.

Lemma _format_conversation_input_uses_last_five_witness :
  let old := {["role" := PyStr "user"; "content" := PyStr "forget me"]} in
  let new := {["role" := PyStr "assistant"; "content" := PyStr "noted"]} in
  _format_conversation_input
    (set_context (old :: replicate 5 new) talker) "hello"
  = _format_conversation_input (set_context (replicate 5 new) talker) "hello".
Proof.
  intros old new.
  destruct (_format_conversation_input_uses_last_five
              (set_context (old :: replicate 5 new) talker) "hello"
              [old] (replicate 5 new)) as [H _].
  - reflexivity.
  - reflexivity.
  - exact H.
Defined.

(** X21. Formatting the output is idempotent: what [chat] returns passes
    through [_format_conversation_output] unchanged, because it no longer
    holds the marker. *)
Theorem _format_conversation_output_is_idempotent :
  ∀ (response : string),
    _format_conversation_output (_format_conversation_output response)
    = _format_conversation_output response.
Proof.
  intros response.
  pose proof (_format_conversation_output_has_no_marker response) as H.
  unfold _format_conversation_output at 1. by rewrite H.
Qed.

(** *** A marker in the message *)

Lemma append_prefix_of (sep a b r : string) :
  a +:+ b = sep +:+ r → String.length sep ≤ String.length a →
  ∃ r', a = sep +:+ r'.
Proof.
  revert a. induction sep as [|c sep IH]; intros a H Hlen.
  - by exists a.
  - destruct a as [|c' a]; simpl in Hlen; [lia|].
    simpl in H. injection H as -> H.
    destruct (IH a H) as [r' ->]; [lia|]. by exists r'.
Qed.

Lemma split_head_append (sep a b : string) :
  contains sep a = true → split_head sep (a +:+ b) = split_head sep a.
Proof.
  induction a as [|c a IH]; intros H.
  - cbn [contains] in H. rewrite orb_false_r in H. simpl.
    rewrite H. apply startswith_spec in H as [r H]. destruct sep; [|done].
    by destruct b.
  - cbn [contains] in H. simpl.
    destruct (startswith sep (String c a)) eqn:Hs.
    + apply startswith_spec in Hs as [r Hs].
      assert (startswith sep (String c (a +:+ b)) = true) as ->; [|done].
      apply startswith_spec. exists (r +:+ b).
      change (String c (a +:+ b)) with (String c a +:+ b).
      by rewrite Hs, append_assoc.
    + simpl in H.
      assert (startswith sep (String c (a +:+ b)) = false) as ->.
      { apply not_true_is_false. intros Hc.
        apply startswith_spec in Hc as [r Hc].
        apply contains_spec in H as (f & k & Ha).
        destruct (append_prefix_of sep (String c a) b r) as [r' Hr']; [done | |].
        - rewrite Ha. simpl. rewrite !append_length. lia.
        - assert (startswith sep (String c a) = true) as Ht; [|congruence].
          apply startswith_spec. by exists r'. }
      by rewrite IH.
Qed.

Lemma mock_response_starts_with_echo (x : string) (w : XAgentWrapper)
    (m : MockXAgent) :
  xagent w = Mock m → ∃ rest, workflow_response x w = mock_echo x +:+ rest.
Proof.
  intros Hm. unfold workflow_response.
  assert (outcome (_create_plan x w)
          = inr (plan_of [ <["action" := PyStr "mock_analyze"]>
                             (<["target" := PyStr x]> ∅);
                           <["action" := PyStr "mock_respond"]>
                             (<["target" := PyStr "generated_response"]> ∅) ]
                         (Some ["mock_tool"]))) as ->.
  { unfold outcome, _create_plan. monad. by rewrite Hm. }
  rewrite _execute_plan_dicts. unfold outcome. cbn [fst].
  rewrite _synthesize_results_nonempty by done.
  cbn [fmap list_fmap]. rewrite step_line_mock_analyze.
  unfold synthesis, numbered_lines, join, numbered_line, mock_echo.
  cbn [imap foldr].
  destruct (reflection_enabled w); eexists; rewrite !append_assoc; reflexivity.
Qed.

(** X22. In simulation mode a message that holds the text ["[Reflection]"]
    cuts the reply of [chat] short: the response of the backend repeats the
    input in its first step, so the first marker in it is the one of the
    message, and the reply is what precedes it in that first step.  What the
    backend writes after the input (the second step, the completion sentence,
    the reflection suffix) is dropped from such a reply. *)
Theorem chat_reply_is_cut_at_a_marker_in_the_message :
  ∀ (self : ConversationalXAgent) (message : string)
    (context : option (list (gmap string PyVal))) (m : MockXAgent),
    xagent (base self) = Mock m →
    contains "[Reflection]" message = true →
    let formatted_input :=
      _format_conversation_input (with_context (default [] context) self) message in
    outcome (chat message context self)
    = inr (strip (split_head "[Reflection]" (mock_echo formatted_input))).
Proof.
  intros self message context m Hm Hmsg formatted_input.
  rewrite chat_full by (rewrite Hm; apply Mock_raises_only_Exception).
  unfold outcome. cbn [fst]. fold formatted_input. f_equal.
  destruct (mock_response_starts_with_echo formatted_input (base self) m Hm)
    as [rest ->].
  assert (contains "[Reflection]" (mock_echo formatted_input) = true) as Hecho.
  { unfold mock_echo. do 3 apply contains_append_r.
    unfold formatted_input, _format_conversation_input.
    by do 6 apply contains_append_r. }
  unfold _format_conversation_output.
  rewrite contains_append_l by done. by rewrite split_head_append.
Qed.

Lemma chat_reply_is_cut_at_a_marker_in_the_message_witness :
  outcome (chat "explain [Reflection] to me" None talker)
  = inr ("XAgent completed the following steps:" +:+ nl
         +:+ "1. Completed mock_analyze on You are a helpful AI assistant."
         +:+ nl +:+ nl +:+ nl +:+ "Current message: explain").
Proof.
  etrans.
  - eapply (chat_reply_is_cut_at_a_marker_in_the_message talker
              "explain [Reflection] to me" None).
    + reflexivity.
    + reflexivity.
  - vm_compute. reflexivity.
Defined.

End ConversationalExtra.

(** ** The conversational agent *)

Module ConversationalAgentFacts.

Import conversational Spec ConversationalSpec Examples ConversationalExamples.
Import TextFacts TextFactsExtra PipelineFacts Conversational ConversationalExtra.

Lemma chat_ok (message : string) (ctx : option ChatContext)
    (self : ConversationalAgent) :
  raises_only_Exception (C.xagent (L.base (xagent self))) →
  ∃ self' now,
    chat message ctx self = (inr (reply_of self message ctx), self') ∧
    conversation_history self'
      = conversation_history self
        ++ (if memory_enabled self
            then [ {| timestamp := now; user_message := message;
                      agent_response := reply_of self message ctx;
                      context := ctx |} ]
            else []) ∧
    L.conversation_context (xagent self')
      = L.conversation_context (xagent self) ++ _prepare_context self ctx ∧
    memory_enabled self' = memory_enabled self ∧
    system_prompt self' = system_prompt self ∧
    L.system_prompt (xagent self') = L.system_prompt (xagent self) ∧
    tools self' = tools self ∧
    C.xagent (L.base (xagent self')) = C.xagent (L.base (xagent self)) ∧
    length (C.conversation_history (L.base (xagent self')))
      = length (C.conversation_history (L.base (xagent self))) + 2.
Proof.
  intros Hb. unfold chat, try_except. unfold bind at 1. unfold get at 1.
  unfold bind at 1. unfold on_xagent at 1. unfold lift at 1.
  rewrite chat_full by exact Hb. cbn [default from_option id].
  destruct (memory_enabled self) eqn:Hm.
  - eexists _, _. split; [reflexivity|]. cbn. rewrite Hm.
    split; [reflexivity|]. split; [reflexivity|]. split; [reflexivity|].
    split; [reflexivity|]. split; [reflexivity|]. split; [reflexivity|].
    rewrite run_eq_backend by exact Hb. cbn. by rewrite length_app.
  - eexists _, 0. split; [reflexivity|]. cbn. rewrite Hm.
    split; [by rewrite app_nil_r|]. split; [reflexivity|]. split; [reflexivity|].
    split; [reflexivity|]. split; [reflexivity|]. split; [reflexivity|].
    rewrite run_eq_backend by exact Hb. cbn. by rewrite length_app.
Qed.

(** X23. With a backend that raises instances of [Exception] only,
    [ConversationalAgent.chat] returns a text, and never one that
    holds the marker ["[Reflection]"].  With memory enabled it appends one
    entry with the message and the reply to its history, with memory disabled
    none; either way the prepared context is added to the context its adapter
    keeps, and the backend records two more messages.  (A backend that is
    interrupted while it plans ends the chat with its exception, which the
    [except Exception] of [chat] does not take: see [interrupted_chat_raises].) *)
Theorem agent_chat_returns_text_and_remembers :
  ∀ (self : ConversationalAgent) (message : string) (ctx : option ChatContext),
    raises_only_Exception (C.xagent (L.base (xagent self))) →
    ∃ (text : string) (self' : ConversationalAgent) (now : nat),
      chat message ctx self = (inr text, self') ∧
      contains "[Reflection]" text = false ∧
      conversation_history self'
        = conversation_history self
          ++ (if memory_enabled self
              then [ {| timestamp := now; user_message := message;
                        agent_response := text; context := ctx |} ]
              else []) ∧
      L.conversation_context (xagent self')
        = L.conversation_context (xagent self) ++ _prepare_context self ctx ∧
      length (C.conversation_history (L.base (xagent self')))
        = length (C.conversation_history (L.base (xagent self))) + 2.
Proof.
  intros self message ctx Hb.
  destruct (chat_ok message ctx self Hb)
    as (self' & now & Hc & Hh & Hx & _ & _ & _ & _ & _ & Hl).
  exists (reply_of self message ctx), self', now.
  split; [done|]. split; [apply _format_conversation_output_has_no_marker|].
  done.
Qed.

Lemma agent_chat_returns_text_and_remembers_witness :
  ∃ (text : string) (self' : ConversationalAgent) (now : nat),
    chat "hello" None host = (inr text, self') ∧
    contains "[Reflection]" text = false ∧
    conversation_history self'
      = [ {| timestamp := now; user_message := "hello";
             agent_response := text; context := None |} ].
Proof.
  destruct (agent_chat_returns_text_and_remembers host "hello" None)
    as (text & self' & now & H1 & H2 & H3 & _).
  - exact (Mock_raises_only_Exception _).
  - by exists text, self', now.
Defined.

Example interrupted_chat_raises :
  let self := ConversationalAgent__init__ interrupted_library None None None None in
  outcome (chat "hello" None self) = inl (Raise "KeyboardInterrupt" "") ∧
  conversation_history (state_after (chat "hello" None self)) = [] ∧
  length (C.conversation_history (L.base (xagent (state_after (chat "hello" None self)))))
  = 1.
Proof. repeat split; vm_compute; reflexivity. Qed.

(** *** Repeated chats *)

Lemma _prepare_context_length (self : ConversationalAgent) :
  memory_enabled self = true →
  length (_prepare_context self None) = 2 * (5 `min` length (conversation_history self)).
Proof.
  intros Hm. unfold _prepare_context. rewrite Hm.
  assert (∀ (l : list HistoryEntry) acc,
            length (fold_left (λ xagent_context entry, xagent_context ++ exchange entry)
                              l acc)
            = length acc + 2 * length l) as Hfold.
  { induction l as [|e l IH]; intros acc; simpl; [lia|].
    rewrite IH, length_app. unfold exchange. simpl. lia. }
  rewrite Hfold. unfold L.last_n. rewrite length_drop. cbn [length]. lia.
Qed.

Lemma chats_snoc (messages : list string) (message : string)
    (self : ConversationalAgent) :
  chats (messages ++ [message]) self
  = state_after (chat message None (chats messages self)).
Proof. unfold chats. by rewrite fold_left_app. Qed.

Lemma chats_spec (messages : list string) (self : ConversationalAgent) :
  raises_only_Exception (C.xagent (L.base (xagent self))) →
  memory_enabled self = true →
  conversation_history self = [] →
  L.conversation_context (xagent self) = [] →
  C.xagent (L.base (xagent (chats messages self))) = C.xagent (L.base (xagent self)) ∧
  memory_enabled (chats messages self) = true ∧
  user_message <$> conversation_history (chats messages self) = messages ∧
  length (L.conversation_context (xagent (chats messages self)))
    = handed_over (length messages).
Proof.
  intros Hb Hm Hh Hx. induction messages as [|message messages IH] using rev_ind.
  - unfold chats. simpl. by rewrite Hh, Hx.
  - destruct IH as (IHb & IHm & IHh & IHx). rewrite chats_snoc.
    destruct (chat_ok message None (chats messages self))
      as (self' & now & -> & Hh' & Hx' & Hm' & _ & _ & _ & Hb' & _);
      [by rewrite IHb|].
    unfold state_after. cbn [snd]. rewrite Hm', Hh', Hx', IHm.
    split; [by rewrite Hb'|]. split; [done|]. split.
    + by rewrite fmap_app, IHh.
    + rewrite !length_app, IHx, _prepare_context_length by done.
      rewrite <- (length_fmap user_message), IHh.
      rewrite Nat.add_1_r. cbn [handed_over length]. lia.
Qed.

(** X24. Every chat of an agent with memory hands its last five exchanges to
    the adapter again, and the adapter keeps whatever it is handed: after [n]
    chats without a context of their own, the agent's history has the [n]
    messages in order, while the adapter's context holds
    2 * (min(5,0) + ... + min(5,n-1)) messages, of which only the last five are
    ever read.  (The chats are taken to return: the agents of the library
    raise instances of [Exception] only.) *)
Theorem repeated_chats_pile_up_context :
  ∀ (lib : C.XAgentLibrary) (nm prompt : option string) (ts : option (list Tool))
    (messages : list string),
    library_raises_only_Exception lib →
    let self := chats messages (ConversationalAgent__init__ lib nm prompt (Some true) ts) in
    user_message <$> conversation_history self = messages ∧
    length (L.conversation_context (xagent self)) = handed_over (length messages) ∧
    (10 ≤ length messages →
       length (L.conversation_context (xagent self))
       = 10 * length messages - 30).
Proof.
  intros lib nm prompt ts messages Hlib self.
  destruct (chats_spec messages (ConversationalAgent__init__ lib nm prompt (Some true) ts))
    as (_ & _ & Hh & Hx); try done.
  { by apply init_raises_only_Exception. }
  split; [done|]. split; [done|].
  fold self in Hx. rewrite Hx.
  assert (∀ n, 5 ≤ n → handed_over n = 10 * n - 30) as Hclosed.
  { intros n Hn. induction Hn as [|n Hn IH]; [done|].
    cbn [handed_over]. rewrite IH. lia. }
  intros Hn. apply Hclosed. lia.
Qed.

Lemma repeated_chats_pile_up_context_witness :
  let messages := ["1"; "2"; "3"; "4"; "5"; "6"; "7"; "8"; "9"; "10"; "11"] in
  10 ≤ length messages ∧
  length (L.conversation_context (xagent (chats messages host))) = 80.
Proof.
  split; [cbn [length]; lia|].
  destruct (repeated_chats_pile_up_context None None None None
              ["1"; "2"; "3"; "4"; "5"; "6"; "7"; "8"; "9"; "10"; "11"]
              simulation_raises_only_Exception)
    as (_ & _ & H).
  etrans; [apply H; cbn [length]; lia|]. reflexivity.
Defined.

Example three_chats :
  let self := chats ["one"; "two"; "three"] host in
  length (conversation_history self) = 3 ∧
  length (L.conversation_context (xagent self)) = 6 ∧
  length (C.conversation_history (L.base (xagent self))) = 6.
Proof. repeat split; vm_compute; reflexivity. Qed.

Lemma clear_memory_eq (self : ConversationalAgent) :
  ∃ self',
    clear_memory self = (inr (), self') ∧
    conversation_history self' = [] ∧
    C.conversation_history (L.base (xagent self')) = [] ∧
    L.conversation_context (xagent self') = L.conversation_context (xagent self).
Proof. eexists. split; [reflexivity|]. done. Qed.

Lemma previous_conversation_shown (x : L.ConversationalXAgent) (message : string) :
  L.conversation_context x ≠ [] →
  contains "Previous conversation:" (L._format_conversation_input x message) = true.
Proof.
  intros Hne. unfold L._format_conversation_input.
  destruct (L.conversation_context x) as [|m l] eqn:E; [done|].
  destruct (fold_left_append_prefix
              (λ msg, "- " +:+ str (dict_get msg "role" (PyStr "user"))
                        +:+ ": " +:+ str (dict_get msg "content" (PyStr "")) +:+ nl)
              (L.last_n 5 (m :: l)) ("Previous conversation:" +:+ nl))
    as [rest Hrest].
  rewrite Hrest.
  do 3 apply contains_append_r. do 3 apply contains_append_l.
  apply contains_refl.
Qed.

(** X25. [clear_memory()] empties the agent's history and the conversation
    history of the backend, but not the context the adapter has gathered: when
    that is not empty, the input of the next chat still opens its middle part
    with ["Previous conversation:"], and the exchanges that were cleared are
    sent to the backend once more. *)
Theorem clear_memory_keeps_the_gathered_context :
  ∀ (self : ConversationalAgent),
    ∃ self',
      clear_memory self = (inr (), self') ∧
      conversation_history self' = [] ∧
      C.conversation_history (L.base (xagent self')) = [] ∧
      L.conversation_context (xagent self') = L.conversation_context (xagent self) ∧
      (L.conversation_context (xagent self) ≠ [] →
         ∀ message ctx,
           contains "Previous conversation:"
             (L._format_conversation_input
                (with_context (_prepare_context self' ctx) (xagent self')) message)
           = true).
Proof.
  intros self.
  destruct (clear_memory_eq self) as (self' & Hc & Hh & Hb & Hx).
  exists self'. split; [done|]. split; [done|]. split; [done|]. split; [done|].
  intros Hne message ctx. apply previous_conversation_shown.
  cbn [with_context L.conversation_context]. rewrite Hx.
  intros [E _]%app_eq_nil. done.
Qed.

Lemma clear_memory_keeps_the_gathered_context_witness :
  let self := chats ["one"; "two"] host in
  contains "- user: one"
    (L._format_conversation_input
       (xagent (state_after (clear_memory self))) "three") = true.
Proof.
  intros self.
  destruct (clear_memory_keeps_the_gathered_context self)
    as (self' & Hc & _ & _ & Hx & Hprev).
  assert (contains "Previous conversation:"
            (L._format_conversation_input
               (with_context (_prepare_context self' None) (xagent self')) "three")
          = true) as _.
  { apply Hprev. vm_compute. discriminate. }
  vm_compute. reflexivity.
Defined.

(** X26. [get_agent_info()] shows the system prompt whole when it has at most
    100 characters and otherwise its first 100 characters followed by three
    dots, so never more than 103 characters; it counts the tools and the
    history entries. *)
Theorem get_agent_info_shortens_the_prompt :
  ∀ (self : ConversationalAgent),
    let info := get_agent_info self in
    String.length (info_system_prompt info) ≤ 103 ∧
    (String.length (system_prompt self) ≤ 100 →
       info_system_prompt info = system_prompt self) ∧
    (100 < String.length (system_prompt self) →
       info_system_prompt info = take 100 (system_prompt self) +:+ "..." ∧
       String.length (info_system_prompt info) = 103) ∧
    tools_count info = length (self_tools self) ∧
    conversation_length info = length (conversation_history self).
Proof.
  intros self info. unfold info, get_agent_info. cbn [info_system_prompt].
  destruct (100 <? String.length (system_prompt self)) eqn:E.
  - apply Nat.ltb_lt in E. rewrite append_length, take_length. cbn [String.length].
    split; [lia|]. split; [lia|]. split; [|done]. intros _. split; [done | lia].
  - apply Nat.ltb_ge in E. split; [lia|]. split; [done|]. split; [lia | done].
Qed.

Lemma get_agent_info_shortens_the_prompt_witness :
  info_system_prompt (get_agent_info host)
  = "You are a helpful AI assistant that collaborates effectively with other agents.".
Proof.
  destruct (get_agent_info_shortens_the_prompt host) as (_ & H & _).
  apply H. vm_compute. lia.
Defined.

(** X27. [add_tool(tool)] appends the tool to [self.tools] and to
    [self.xagent.tools].  An agent built without tools has two lists, and each
    gets the tool once; an agent built with tools has one list for both, which
    gets the tool twice, so that [get_agent_info()] counts two more tools. *)
Theorem agent_add_tool_counts_twice_on_a_shared_list :
  ∀ (self : ConversationalAgent) (t : Tool),
    ∃ self',
      add_tool t self = (inr (), self') ∧
      (tools self = SharedWithXAgent →
         self_tools self' = self_tools self ++ [t; t] ∧
         tools_count (get_agent_info self') = tools_count (get_agent_info self) + 2) ∧
      (∀ l, tools self = Own l →
         self_tools self' = l ++ [t] ∧
         C.tools (L.base (xagent self')) = C.tools (L.base (xagent self)) ++ [t]) ∧
      (∀ lib nm prompt memory ts,
         tools (ConversationalAgent__init__ lib nm prompt memory ts) = SharedWithXAgent
         ↔ default [] ts ≠ []).
Proof.
  intros self t. eexists. split; [reflexivity|]. split; [|split].
  - intros Hs. destruct self as [n p me tl x h lg]. cbn in Hs. subst tl.
    unfold get_agent_info, self_tools. cbn. rewrite <- app_assoc.
    split; [done|]. rewrite !length_app. cbn. lia.
  - intros l Hl. destruct self as [n p me tl x h lg]. cbn in Hl. subst tl.
    unfold self_tools. cbn. done.
  - intros lib nm prompt memory ts. unfold ConversationalAgent__init__.
    cbn [tools].
    destruct (default [] ts) as [|x l]; split; intros H;
      try discriminate; try done; by destruct H.
Qed.

Lemma agent_add_tool_counts_twice_on_a_shared_list_witness :
  tools_count (get_agent_info (state_after (add_tool web_search host_with_tools))) = 3.
Proof.
  destruct (agent_add_tool_counts_twice_on_a_shared_list host_with_tools web_search)
    as (self' & Ha & Hs & _).
  rewrite Ha. unfold state_after. cbn [snd].
  destruct Hs as [_ ->]; reflexivity.
Defined.

End ConversationalAgentFacts.
